(** * CCUsage status API: a shallow embedding of [cloud-run/src/ccusage/api.py]

    The development follows the source file top to bottom:

    - [Text]: Python [str] values as sequences of Unicode code points, with the
      few [str] methods the program calls ([strip], slicing, [in], [replace]);
    - [Regex]: the fragment of [re] that the two compiled patterns use, with a
      matcher and its correctness with respect to the language of a pattern;
    - [Py]: exceptions, the values [json.loads] produces, and the conversions
      [float(..)], [int(..)], [bool(..)] applied to them;
    - [Num]: Python [float] is IEEE binary64, that is Rocq's primitive [float];
    - [Clock]: [datetime] and [timedelta];
    - [Api]: the functions of [api.py], under their own names.

    Library functions that parse text ([json.loads], [datetime.fromisoformat],
    [float(str)], [int(str)]) are parameters of the development; everything the
    repository itself computes is a definition that evaluates. *)

From Stdlib Require Import ZArith NArith List Bool String Ascii Lia.
From Stdlib Require Import Floats QArith Qround.
Import ListNotations.
Close Scope Q_scope.

Set Warnings "-inexact-float,-register-all".

(* ================================================================= *)
(** ** Text: Python [str] *)

Module Text.

(** A character is a Unicode code point; a [str] is a sequence of them, so that
    [len], slicing and [in] count code points as Python does. *)
Definition char := N.
Definition str := list char.

Local Open Scope N_scope.

(** An ASCII literal of the source, as a [str]. *)
Definition py (s : string) : str :=
  map N_of_ascii (list_ascii_of_string s).

Definition char_eqb (a b : char) : bool := N.eqb a b.

Fixpoint str_eqb (s t : str) : bool :=
  match s, t with
  | [], [] => true
  | a :: s', b :: t' => char_eqb a b && str_eqb s' t'
  | _, _ => false
  end.

(** [Py_UNICODE_ISSPACE]: the code points [str.strip()] removes and [\s]
    matches in a [str] pattern (bidirectional type WS, B or S, or category Zs). *)
Definition isspace (c : char) : bool :=
  ((9 <=? c) && (c <=? 13)) || ((28 <=? c) && (c <=? 32))
  || (c =? 133) || (c =? 160) || (c =? 5760)
  || ((8192 <=? c) && (c <=? 8202))
  || (c =? 8232) || (c =? 8233) || (c =? 8239) || (c =? 8287)
  || (c =? 12288).

Fixpoint lstrip (s : str) : str :=
  match s with
  | [] => []
  | c :: s' => if isspace c then lstrip s' else s
  end.

Definition rstrip (s : str) : str := rev (lstrip (rev s)).

(** [s.strip()] *)
Definition strip (s : str) : str := rstrip (lstrip s).

(** [s[:n]] *)
Definition slice_to (n : nat) (s : str) : str := firstn n s.

(** [c in s] for a one-character [c] *)
Definition contains_char (c : char) (s : str) : bool := existsb (char_eqb c) s.

(** [s.replace(c, new)] for a one-character [c] *)
Definition replace_char (c : char) (new : str) (s : str) : str :=
  flat_map (fun x => if char_eqb x c then new else [x]) s.

(** [bool(s)]: a [str] is true when it is not empty. *)
Definition nonempty (s : str) : bool :=
  match s with [] => false | _ => true end.

Lemma char_eqb_eq (a b : char) : char_eqb a b = true <-> a = b.
Proof. apply N.eqb_eq. Qed.

Lemma str_eqb_eq (s t : str) : str_eqb s t = true <-> s = t.
Proof.
  revert t; induction s as [|a s IH]; intros [|b t]; simpl; split;
    try congruence; try reflexivity.
  - intros H. apply andb_true_iff in H as [Hab Hst].
    apply char_eqb_eq in Hab. apply IH in Hst. congruence.
  - intros H. injection H as -> ->. apply andb_true_iff; split.
    + now apply char_eqb_eq.
    + now apply IH.
Qed.

Lemma contains_char_In (c : char) (s : str) :
  contains_char c s = true <-> In c s.
Proof.
  unfold contains_char. rewrite existsb_exists. split.
  - intros [x [Hin Hx]]. apply char_eqb_eq in Hx. now subst.
  - intros Hin. exists c. split; [assumption | now apply char_eqb_eq].
Qed.

End Text.
Export Text.

(* ================================================================= *)
(** ** Regex: the fragment of [re] used by [_LIMIT_HIT] and [_RESET_HINT] *)

Module Regex.

(** Patterns without back-references or look-around: a search succeeds exactly
    when some slice of the subject belongs to the language of the pattern,
    whatever order the backtracking engine tries the alternatives in. *)
Inductive regex : Type :=
| Void : regex
| Eps : regex
| Class : (char -> bool) -> regex
| Cat : regex -> regex -> regex
| Alt : regex -> regex -> regex
| Star : regex -> regex.

(** [r?], [r+] and a sequence of items. *)
Definition Opt (r : regex) : regex := Alt r Eps.
Definition Plus (r : regex) : regex := Cat r (Star r).
Definition Seq (rs : list regex) : regex := fold_right Cat Eps rs.

(** The language of a pattern. *)
Inductive Matches : regex -> str -> Prop :=
| MEps : Matches Eps []
| MClass p c : p c = true -> Matches (Class p) [c]
| MCat r s u v : Matches r u -> Matches s v -> Matches (Cat r s) (u ++ v)
| MAltL r s u : Matches r u -> Matches (Alt r s) u
| MAltR r s u : Matches s u -> Matches (Alt r s) u
| MStarNil r : Matches (Star r) []
| MStarApp r u v : Matches r u -> Matches (Star r) v -> Matches (Star r) (u ++ v).

Fixpoint nullable (r : regex) : bool :=
  match r with
  | Void => false
  | Eps => true
  | Class _ => false
  | Cat r1 r2 => nullable r1 && nullable r2
  | Alt r1 r2 => nullable r1 || nullable r2
  | Star _ => true
  end.

(** Constructors that drop dead branches, to keep derivatives small. *)
Definition cat (r s : regex) : regex :=
  match r, s with
  | Void, _ => Void
  | _, Void => Void
  | Eps, _ => s
  | _, _ => Cat r s
  end.

Definition alt (r s : regex) : regex :=
  match r, s with
  | Void, _ => s
  | _, Void => r
  | _, _ => Alt r s
  end.

(** The pattern matching what is left of a match of [r] after reading [c]. *)
Fixpoint deriv (c : char) (r : regex) : regex :=
  match r with
  | Void => Void
  | Eps => Void
  | Class p => if p c then Eps else Void
  | Cat r1 r2 =>
      if nullable r1
      then alt (cat (deriv c r1) r2) (deriv c r2)
      else cat (deriv c r1) r2
  | Alt r1 r2 => alt (deriv c r1) (deriv c r2)
  | Star r1 => cat (deriv c r1) (Star r1)
  end.

(** Does some prefix of [s] match [r]?  ([pattern.match(s)] is not [None].) *)
Fixpoint match_prefix (r : regex) (s : str) : bool :=
  nullable r ||
  match s with
  | [] => false
  | c :: s' => match_prefix (deriv c r) s'
  end.

(** Does some slice of [s] match [r]?  ([pattern.search(s)] is not [None].) *)
Fixpoint search (r : regex) (s : str) : bool :=
  match_prefix r s ||
  match s with
  | [] => false
  | _ :: s' => search r s'
  end.

(** *** Inversion of the language *)

Lemma Matches_Void_inv (w : str) : ~ Matches Void w.
Proof. intros H; inversion H. Qed.

Lemma Matches_Eps_inv (w : str) : Matches Eps w -> w = [].
Proof. intros H; now inversion H. Qed.

Lemma Matches_Class_inv (p : char -> bool) (w : str) :
  Matches (Class p) w -> exists c, w = [c] /\ p c = true.
Proof. intros H; inversion H; subst; eauto. Qed.

Lemma Matches_Cat_inv (r s : regex) (w : str) :
  Matches (Cat r s) w -> exists u v, w = u ++ v /\ Matches r u /\ Matches s v.
Proof. intros H; inversion H; subst; eauto. Qed.

Lemma Matches_Alt_inv (r s : regex) (w : str) :
  Matches (Alt r s) w -> Matches r w \/ Matches s w.
Proof. intros H; inversion H; subst; auto. Qed.

(** A non-empty match of [r*] starts with a non-empty match of [r]. *)
Lemma Matches_Star_cons_inv (r : regex) (c : char) (w : str) :
  Matches (Star r) (c :: w) ->
  exists u v, w = u ++ v /\ Matches r (c :: u) /\ Matches (Star r) v.
Proof.
  intros H. remember (Star r) as rs eqn:Ers. remember (c :: w) as cw eqn:Ecw.
  revert w Ecw.
  induction H as [ | | | | | r0 | r0 u v Hu _ Hv IHv]; intros w Ecw;
    try discriminate.
  injection Ers as ->.
  destruct u as [|c' u].
  - simpl in Ecw. now apply IHv.
  - simpl in Ecw. injection Ecw as -> <-. exists u, v. auto.
Qed.

#[local] Hint Constructors Matches : core.

(** *** Correctness of the derivative matcher *)

Lemma nullable_spec (r : regex) : nullable r = true <-> Matches r [].
Proof.
  induction r as [ | | p | r1 IH1 r2 IH2 | r1 IH1 r2 IH2 | r1 IH1]; simpl.
  - split; [discriminate | intros H; inversion H].
  - split; auto.
  - split; [discriminate | intros H; inversion H].
  - rewrite andb_true_iff, IH1, IH2. split.
    + intros [H1 H2]. change (@nil char) with (@nil char ++ []). auto.
    + intros H. apply Matches_Cat_inv in H as (u & v & E & Hu & Hv).
      symmetry in E. apply app_eq_nil in E as [-> ->]. auto.
  - rewrite orb_true_iff, IH1, IH2. split.
    + intros [H | H]; auto.
    + apply Matches_Alt_inv.
  - split; auto.
Qed.

Lemma cat_spec (r s : regex) (w : str) :
  Matches (cat r s) w <-> Matches (Cat r s) w.
Proof.
  split.
  - destruct r, s; simpl; intros H; try assumption;
      try (now inversion H);
      change w with ([] ++ w); auto.
  - intros H. apply Matches_Cat_inv in H as (u & v & -> & Hu & Hv).
    destruct r, s; simpl; auto;
      try (now inversion Hu); try (now inversion Hv);
      apply Matches_Eps_inv in Hu; subst; simpl; assumption.
Qed.

Lemma alt_spec (r s : regex) (w : str) :
  Matches (alt r s) w <-> Matches (Alt r s) w.
Proof.
  split.
  - destruct r, s; simpl; intros H; auto.
  - intros H. apply Matches_Alt_inv in H as [H | H];
      destruct r, s; simpl; auto; now inversion H.
Qed.

Lemma deriv_spec (c : char) (r : regex) (w : str) :
  Matches (deriv c r) w <-> Matches r (c :: w).
Proof.
  revert w.
  induction r as [ | | p | r1 IH1 r2 IH2 | r1 IH1 r2 IH2 | r1 IH1];
    intros w; simpl.
  - split; intros H; inversion H.
  - split; intros H; inversion H.
  - destruct (p c) eqn:Hp; split; intros H.
    + apply Matches_Eps_inv in H; subst; auto.
    + apply Matches_Class_inv in H as (c' & E & _). injection E as _ ->. auto.
    + inversion H.
    + apply Matches_Class_inv in H as (c' & E & Hc). injection E as <- _.
      congruence.
  - assert (Hcat : Matches (cat (deriv c r1) r2) w <->
                   exists u v, w = u ++ v /\ Matches r1 (c :: u) /\ Matches r2 v).
    { rewrite cat_spec. split.
      - intros H. apply Matches_Cat_inv in H as (u & v & -> & Hu & Hv).
        apply IH1 in Hu. eauto.
      - intros (u & v & -> & Hu & Hv). apply IH1 in Hu. auto. }
    assert (Hsplit : Matches (Cat r1 r2) (c :: w) <->
                     (exists u v, w = u ++ v /\ Matches r1 (c :: u) /\ Matches r2 v)
                     \/ (Matches r1 [] /\ Matches r2 (c :: w))).
    { split.
      - intros H. apply Matches_Cat_inv in H as (u & v & E & Hu & Hv).
        destruct u as [|c' u]; simpl in E.
        + subst v. right; auto.
        + injection E as <- ->. left; eauto.
      - intros [(u & v & -> & Hu & Hv) | [H1 H2]].
        + change (c :: u ++ v) with ((c :: u) ++ v). auto.
        + change (c :: w) with ([] ++ c :: w). auto. }
    rewrite Hsplit. destruct (nullable r1) eqn:Hn.
    + rewrite alt_spec. apply nullable_spec in Hn. split.
      * intros H. apply Matches_Alt_inv in H as [H | H].
        -- left. now apply Hcat.
        -- right. split; [assumption | now apply IH2].
      * intros [H | [_ H]].
        -- apply MAltL. now apply Hcat.
        -- apply MAltR. now apply IH2.
    + rewrite Hcat. split; [auto | ].
      intros [H | [H _]]; [assumption | ].
      apply nullable_spec in H. congruence.
  - rewrite alt_spec. split.
    + intros H. apply Matches_Alt_inv in H as [H | H];
        [apply MAltL; now apply IH1 | apply MAltR; now apply IH2].
    + intros H. apply Matches_Alt_inv in H as [H | H];
        [apply MAltL; now apply IH1 | apply MAltR; now apply IH2].
  - rewrite cat_spec. split.
    + intros H. apply Matches_Cat_inv in H as (u & v & -> & Hu & Hv).
      apply IH1 in Hu. change (c :: u ++ v) with ((c :: u) ++ v). auto.
    + intros H. apply Matches_Star_cons_inv in H as (u & v & -> & Hu & Hv).
      apply IH1 in Hu. auto.
Qed.

(** [u] is a slice of [s] starting at its first character. *)
Definition prefix_of (u s : str) : Prop := exists v, s = u ++ v.

(** [u] is a slice of [s]. *)
Definition slice_of (u s : str) : Prop := exists a b, s = a ++ u ++ b.

Lemma match_prefix_spec (r : regex) (s : str) :
  match_prefix r s = true <-> exists u, prefix_of u s /\ Matches r u.
Proof.
  revert r. induction s as [|c s IH]; intros r; simpl.
  - rewrite orb_false_r, nullable_spec. split.
    + intros H. exists []. split; [now exists [] | assumption].
    + intros (u & [v E] & Hu). symmetry in E.
      apply app_eq_nil in E as [-> _]. assumption.
  - rewrite orb_true_iff, nullable_spec, IH. split.
    + intros [H | (u & [v E] & Hu)].
      * exists []. split; [now exists (c :: s) | assumption].
      * exists (c :: u). split; [exists v; simpl; congruence | ].
        now apply deriv_spec.
    + intros (u & [v E] & Hu). destruct u as [|c' u]; [now left | right].
      simpl in E. injection E as <- ->.
      exists u. split; [now exists v | now apply deriv_spec].
Qed.

Theorem search_spec (r : regex) (s : str) :
  search r s = true <-> exists u, slice_of u s /\ Matches r u.
Proof.
  induction s as [|c s IH]; cbn [search].
  - rewrite orb_false_r, match_prefix_spec. split.
    + intros (u & [v E] & Hu). exists u. split; [now exists [], v | assumption].
    + intros (u & (a & b & E) & Hu). symmetry in E.
      apply app_eq_nil in E as [-> E]. apply app_eq_nil in E as [-> _].
      exists []. split; [now exists [] | assumption].
  - rewrite orb_true_iff, match_prefix_spec, IH. split.
    + intros [(u & [v E] & Hu) | (u & (a & b & E) & Hu)].
      * exists u. split; [now exists [], v | assumption].
      * exists u. split; [exists (c :: a), b; simpl; congruence | assumption].
    + intros (u & (a & b & E) & Hu). destruct a as [|c' a]; simpl in E.
      * left. exists u. split; [now exists b | assumption].
      * right. injection E as _ ->. exists u. split; [now exists a, b | assumption].
Qed.

Lemma search_false_spec (r : regex) (s : str) :
  search r s = false <-> forall u, slice_of u s -> ~ Matches r u.
Proof.
  rewrite <- not_true_iff_false, search_spec. split.
  - intros H u Hu Hm. apply H. eauto.
  - intros H (u & Hu & Hm). exact (H u Hu Hm).
Qed.

(** *** Building matches of derived forms *)

Lemma Matches_Opt_skip (r : regex) : Matches (Opt r) [].
Proof. apply MAltR, MEps. Qed.

Lemma Matches_Opt_take (r : regex) (w : str) : Matches r w -> Matches (Opt r) w.
Proof. apply MAltL. Qed.

Lemma Matches_Star_one (r : regex) (w : str) : Matches r w -> Matches (Star r) w.
Proof.
  intros H. rewrite <- (app_nil_r w). apply MStarApp; [assumption | apply MStarNil].
Qed.

Lemma Matches_Plus_one (r : regex) (w : str) : Matches r w -> Matches (Plus r) w.
Proof.
  intros H. rewrite <- (app_nil_r w). apply MCat; [assumption | apply MStarNil].
Qed.

Lemma Matches_Seq_nil : Matches (Seq []) [].
Proof. apply MEps. Qed.

Lemma Matches_Seq_cons (r : regex) (rs : list regex) (u v : str) :
  Matches r u -> Matches (Seq rs) v -> Matches (Seq (r :: rs)) (u ++ v).
Proof. intros; simpl; now apply MCat. Qed.

End Regex.
Export Regex.

(* ================================================================= *)
(** ** Py: exceptions and the values of parsed JSON *)

Module Py.

(** The exception classes that can reach the handler.  All of them derive from
    [Exception]; [JSONDecodeError] derives from [ValueError]. *)
Inductive exc_class : Type :=
| ValueError | JSONDecodeError | RuntimeError | KeyError | IndexError
| TypeError | AttributeError | OverflowError | ZeroDivisionError
| TimeoutExpired | OSError.

(** An exception object: its class and [str(e)]. *)
Record exn : Type := mk_exn { exn_class : exc_class; exn_str : str }.

(** [isinstance(e, ValueError)], [isinstance(e, RuntimeError)] *)
Definition is_ValueError (c : exc_class) : bool :=
  match c with ValueError | JSONDecodeError => true | _ => false end.

Definition is_RuntimeError (c : exc_class) : bool :=
  match c with RuntimeError => true | _ => false end.

(** A computation returns a value or raises. *)
Inductive result (A : Type) : Type :=
| Ok : A -> result A
| Raise : exn -> result A.
Arguments Ok {A} _.
Arguments Raise {A} _.

Definition bind {A B : Type} (m : result A) (k : A -> result B) : result B :=
  match m with
  | Ok a => k a
  | Raise e => Raise e
  end.

Definition raise {A : Type} (c : exc_class) (msg : string) : result A :=
  Raise (mk_exn c (py msg)).

Definition succeeded {A : Type} (m : result A) : bool :=
  match m with Ok _ => true | Raise _ => false end.

(** What [json.loads] builds.  A [dict] keeps its items in insertion order and
    has one item per key; a lookup takes the first item with the key. *)
Inductive value : Type :=
| VNone : value
| VBool : bool -> value
| VInt : Z -> value
| VFloat : float -> value
| VStr : str -> value
| VList : list value -> value
| VDict : list (str * value) -> value.

(** [type(v).__name__], as the messages of [TypeError] and [AttributeError]
    quote it. *)
Definition type_name (v : value) : string :=
  match v with
  | VNone => "NoneType"
  | VBool _ => "bool"
  | VInt _ => "int"
  | VFloat _ => "float"
  | VStr _ => "str"
  | VList _ => "list"
  | VDict _ => "dict"
  end.

Fixpoint lookup (k : str) (items : list (str * value)) : option value :=
  match items with
  | [] => None
  | (k', v) :: rest => if str_eqb k k' then Some v else lookup k rest
  end.

(** [obj[key]] for a [str] key *)
Definition getitem (obj : value) (key : string) : result value :=
  match obj with
  | VDict items =>
      match lookup (py key) items with
      | Some v => Ok v
      | None => Raise (mk_exn KeyError (py "'" ++ py key ++ py "'"))
      end
  | VList _ => raise TypeError "list indices must be integers or slices, not str"
  | VStr _ => raise TypeError "string indices must be integers, not 'str'"
  | _ => raise TypeError ("'" ++ type_name obj ++ "' object is not subscriptable")
  end.

(** [obj[0]]; the keys of a parsed JSON object are strings, never [0]. *)
Definition getitem0 (obj : value) : result value :=
  match obj with
  | VList (x :: _) => Ok x
  | VList [] => raise IndexError "list index out of range"
  | VStr (c :: _) => Ok (VStr [c])
  | VStr [] => raise IndexError "string index out of range"
  | VDict _ => raise KeyError "0"
  | _ => raise TypeError ("'" ++ type_name obj ++ "' object is not subscriptable")
  end.

(** [obj.get(key, default)]: only a [dict] has the method. *)
Definition get (obj : value) (key : string) (default : value) : result value :=
  match obj with
  | VDict items =>
      Ok (match lookup (py key) items with Some v => v | None => default end)
  | _ => raise AttributeError ("'" ++ type_name obj ++ "' object has no attribute 'get'")
  end.

(** [bool(v)], also the test of [if v] *)
Definition truthy (v : value) : bool :=
  match v with
  | VNone => false
  | VBool b => b
  | VInt z => negb (Z.eqb z 0)
  | VFloat f => negb (PrimFloat.eqb f 0)
  | VStr s => nonempty s
  | VList l => match l with [] => false | _ => true end
  | VDict d => match d with [] => false | _ => true end
  end.

End Py.
Export Py.

Declare Scope py_scope.
Delimit Scope py_scope with py.
Notation "x <- m ;; k" := (bind m (fun x => k))
  (at level 61, m at next level, right associativity) : py_scope.
Notation "' p <- m ;; k" := (bind m (fun x => match x with p => k end))
  (at level 61, p pattern, m at next level, right associativity) : py_scope.
Open Scope py_scope.

(* ================================================================= *)
(** ** Num: Python [float] and its conversions *)

Module Num.

Local Open Scope Z_scope.

(** An [int] as an unrounded binary number, the operand of an exact division. *)
Definition sf_of_int (n : Z) : spec_float :=
  match n with
  | Z0 => S754_zero false
  | Zpos p => S754_finite false p 0
  | Zneg p => S754_finite true p 0
  end.

(** A finite [float] is [m * 2^e]; [None] for [nan] and the infinities. *)
Definition finite_parts (x : float) : option (Z * Z) :=
  match Prim2SF x with
  | S754_zero _ => Some (0, 0)
  | S754_finite s m e => Some (if s then Zneg m else Zpos m, e)
  | _ => None
  end.

(** The [float] nearest to [m * 2^e] (ties to even). *)
Definition dyadic (m e : Z) : float :=
  SF2Prim (binary_normalize prec emax m e false).

(** The [float] nearest to [a / b] for [int]s [a] and [b <> 0]. *)
Definition nearest_quotient (a b : Z) : float :=
  SF2Prim (SFdiv prec emax (sf_of_int a) (sf_of_int b)).

(** [float(n)] for an [int] *)
Definition float_of_int (n : Z) : result float :=
  let f := dyadic n 0 in
  if is_infinity f then raise OverflowError "int too large to convert to float"
  else Ok f.

(** [a / b] for two [int]s *)
Definition int_truediv (a b : Z) : result float :=
  if b =? 0 then raise ZeroDivisionError "division by zero"
  else
    let f := nearest_quotient a b in
    if is_infinity f
    then raise OverflowError "integer division result too large for a float"
    else Ok f.

(** [x / n] for a [float] and an [int] [n <> 0]: the [int] is converted first. *)
Definition float_div_int (x : float) (n : Z) : result float :=
  d <- float_of_int n ;; Ok (x / d)%float.

(** [bool(x)]: only the two zeros are false. *)
Definition float_truthy (x : float) : bool := negb (PrimFloat.eqb x 0).

(** [x > 0] *)
Definition float_positive (x : float) : bool := PrimFloat.ltb 0 x.

(** The integer part of [m * 2^e], towards zero. *)
Definition trunc_parts (m e : Z) : Z :=
  if 0 <=? e then m * 2 ^ e else Z.quot m (2 ^ (- e)).

(** The floor of [m * 2^e / n]. *)
Definition floor_parts (m e n : Z) : Z :=
  if 0 <=? e then (m * 2 ^ e) / n else m / (n * 2 ^ (- e)).

(** [a / b] rounded to the nearest integer, ties to even, for [b > 0]. *)
Definition round_half_even (a b : Z) : Z :=
  let q := a / b in
  match 2 * (a mod b) ?= b with
  | Lt => q
  | Gt => q + 1
  | Eq => if Z.even q then q else q + 1
  end.

(** The number a finite [float] stands for. *)
Definition float_value (x : float) : option Q :=
  match finite_parts x with
  | Some (m, e) =>
      Some (if 0 <=? e then inject_Z (m * 2 ^ e) else Qmake m (Z.to_pos (2 ^ (- e))))
  | None => None
  end.

(** [int(x)] *)
Definition int_of_float (x : float) : result Z :=
  match finite_parts x with
  | Some (m, e) => Ok (trunc_parts m e)
  | None =>
      if is_nan x then raise ValueError "cannot convert float NaN to integer"
      else raise OverflowError "cannot convert float infinity to integer"
  end.

(** [int(x // n)] for a [float] [x] and an [int] [n <> 0].  For finite [x]
    below [2^53] in magnitude the float [x // n] is the floor of the quotient,
    exactly; a quotient of [nan] or an infinity is [nan]. *)
Definition int_floordiv (x : float) (n : Z) : result Z :=
  if n =? 0 then raise ZeroDivisionError "float floor division by zero"
  else
    match finite_parts x with
    | Some (m, e) => Ok (floor_parts m e n)
    | None => raise ValueError "cannot convert float NaN to integer"
    end.

(** [round(x, ndigits)] for [0 <= ndigits]: the decimal with [ndigits] places
    nearest to the exact value of [x] (ties to even), read back as a [float]. *)
Definition py_round (x : float) (ndigits : Z) : float :=
  match Prim2SF x with
  | S754_finite s m e =>
      let p := 10 ^ ndigits in
      let n := if 0 <=? e then Zpos m * 2 ^ e * p
               else round_half_even (Zpos m * p) (2 ^ (- e)) in
      match n with
      | Z0 => if s then (-0)%float else 0%float
      | _ => nearest_quotient (if s then - n else n) p
      end
  | _ => x
  end.

(** The result of [max(a, n)] for a [float] and an [int], and of arithmetic
    that keeps an [int] an [int]. *)
Inductive number : Type :=
| NInt : Z -> number
| NFloat : float -> number.

(** [n > x] for an [int] and a finite [float], compared exactly. *)
Definition int_gt_float (n : Z) (x : float) : bool :=
  match Prim2SF x with
  | S754_zero _ => 0 <? n
  | S754_finite s m e =>
      let v := if s then Zneg m else Zpos m in
      if 0 <=? e then v * 2 ^ e <? n else v <? n * 2 ^ (- e)
  | S754_infinity s => s
  | S754_nan => false
  end.

(** [max(x, n)]: the first argument unless the second is greater. *)
Definition max_float_int (x : float) (n : Z) : number :=
  if int_gt_float n x then NInt n else NFloat x.

(** [a / x] for a number and a [float] [x <> 0] *)
Definition number_div_float (a : number) (x : float) : result float :=
  match a with
  | NInt n => d <- float_of_int n ;; Ok (d / x)%float
  | NFloat f => Ok (f / x)%float
  end.


End Num.
Export Num.

(* ================================================================= *)
(** ** Rounding: the quotient of microseconds by [10^6] *)

(** [total_seconds()] divides a number of microseconds by [10^6] and rounds
    the quotient to a [float].  Below [2^53] microseconds the rounding never
    crosses a whole minute: the floor of a sixtieth of the [float] is the
    floor of the microseconds over [6 * 10^7]. *)
Module Rounding.

Local Open Scope Z_scope.

(** The number of binary digits of a mantissa. *)
Lemma digits2_size (p : positive) : digits2_pos p = Pos.size p.
Proof. induction p; simpl; congruence. Qed.

Lemma digits2_bounds (p : positive) :
  2 ^ (Zpos (digits2_pos p) - 1) <= Zpos p < 2 ^ Zpos (digits2_pos p).
Proof.
  rewrite digits2_size. split.
  - pose proof (Pos.size_le p) as H.
    assert (H' : 2 ^ Zpos (Pos.size p) <= 2 * Zpos p).
    { rewrite <- Pos2Z.inj_pow. change (2 * Zpos p) with (Zpos p~0). now apply Pos2Z.pos_le_pos. }
    replace (Zpos (Pos.size p)) with (Z.succ (Zpos (Pos.size p) - 1)) in H' by lia.
    rewrite Z.pow_succ_r in H' by lia. lia.
  - pose proof (Pos.size_gt p) as H. rewrite <- Pos2Z.inj_pow. now apply Pos2Z.pos_lt_pos.
Qed.

Lemma digits2_unique (p : positive) (n : Z) :
  2 ^ (n - 1) <= Zpos p < 2 ^ n -> Zpos (digits2_pos p) = n.
Proof.
  intros [Hlo Hhi]. pose proof (digits2_bounds p) as [Blo Bhi].
  assert (0 < n).
  { destruct n as [ | pn | pn]; [simpl in Hhi; lia | lia | ].
    rewrite Z.pow_neg_r in Hhi by lia. lia. }
  destruct (Z.lt_trichotomy (Zpos (digits2_pos p)) n) as [Hlt | [Heq | Hgt]]; [ | assumption | ].
  - exfalso. assert (2 ^ Zpos (digits2_pos p) <= 2 ^ (n - 1)) by (apply Z.pow_le_mono_r; lia). lia.
  - exfalso. assert (2 ^ n <= 2 ^ (Zpos (digits2_pos p) - 1)) by (apply Z.pow_le_mono_r; lia). lia.
Qed.

(** The division proper: the dividend is shifted so that the quotient has 53
    or 54 bits. *)
Lemma div_core (pd : positive) :
  Zpos pd < 2 ^ 53 ->
  exists q r s,
    SFdiv_core_binary prec emax (Zpos pd) 0 1000000 0 = (q, - s, new_location 1000000 r)
    /\ 20 <= s <= 72
    /\ Zpos pd * 2 ^ s = 1000000 * q + r /\ 0 <= r < 1000000
    /\ 2 ^ 72 <= Zpos pd * 2 ^ s < 2 ^ 73.
Proof.
  intros Hd. pose proof (digits2_bounds pd) as [Blo Bhi].
  set (d1 := Zpos (digits2_pos pd)) in *.
  assert (Hd1 : 1 <= d1 <= 53).
  { split; [unfold d1; lia | ].
    destruct (Z.le_gt_cases d1 53); [assumption | exfalso].
    assert (2 ^ 53 <= 2 ^ (d1 - 1)) by (apply Z.pow_le_mono_r; lia). lia. }
  unfold SFdiv_core_binary.
  change (Zdigits2 (Zpos pd)) with d1.
  change (Zdigits2 1000000) with 20.
  replace (Z.min (fexp prec emax (d1 + 0 - (20 + 0))) (0 - 0)) with (d1 - 73)
    by (unfold fexp, SpecFloat.emin, prec, emax; lia).
  replace (0 - 0 - (d1 - 73)) with (73 - d1) by lia.
  destruct (73 - d1) as [ | ps | ps] eqn:Es; try lia.
  rewrite Z.shiftl_mul_pow2 by lia.
  pose proof (Z_div_mod (Zpos pd * 2 ^ Zpos ps) 1000000 eq_refl) as Hdm.
  destruct (Z.div_eucl (Zpos pd * 2 ^ Zpos ps) 1000000) as [q r].
  exists q, r, (Zpos ps). split.
  { f_equal. f_equal. lia. }
  split; [lia | ]. split; [tauto | ]. split; [tauto | ].
  assert (E72 : 2 ^ (d1 - 1) * 2 ^ Zpos ps = 2 ^ 72).
  { rewrite <- Z.pow_add_r by lia. f_equal. lia. }
  assert (E73 : 2 ^ d1 * 2 ^ Zpos ps = 2 ^ 73).
  { rewrite <- Z.pow_add_r by lia. f_equal. lia. }
  assert (0 < 2 ^ Zpos ps) by (apply Z.pow_pos_nonneg; lia).
  split.
  - rewrite <- E72. apply Z.mul_le_mono_nonneg_r; lia.
  - rewrite <- E73. apply Z.mul_lt_mono_pos_r; lia.
Qed.

Lemma loc_of_record (m : Z) (l : location) :
  loc_of_shr_record (shr_record_of_loc m l) = l.
Proof. destruct l as [ | []]; reflexivity. Qed.

Lemma shr_fexp_keep (m : positive) (e : Z) (l : location) :
  Zpos (digits2_pos m) = 53 -> -1074 <= e ->
  shr_fexp prec emax (Zpos m) e l = (shr_record_of_loc (Zpos m) l, e).
Proof.
  intros Hd He. unfold shr_fexp. cbn [Zdigits2]. rewrite Hd.
  replace (fexp prec emax (53 + e) - e) with 0
    by (unfold fexp, SpecFloat.emin, prec, emax; lia).
  reflexivity.
Qed.

Lemma shr_fexp_one (m : positive) (e : Z) (l : location) :
  Zpos (digits2_pos m) = 54 -> -1075 <= e ->
  shr_fexp prec emax (Zpos m) e l = (shr_1 (shr_record_of_loc (Zpos m) l), e + 1).
Proof.
  intros Hd He. unfold shr_fexp. cbn [Zdigits2]. rewrite Hd.
  replace (fexp prec emax (54 + e) - e) with 1
    by (unfold fexp, SpecFloat.emin, prec, emax; lia).
  reflexivity.
Qed.

(** The second half of [binary_round_aux], after rounding to [m1]. *)
Definition finish (sgn : bool) (m1 e1 : Z) : spec_float :=
  let '(mrs, e) := shr_fexp prec emax m1 e1 loc_Exact in
  match shr_m mrs with
  | Z0 => S754_zero sgn
  | Zpos m => if e <=? emax - prec then S754_finite sgn m e else S754_infinity sgn
  | Zneg _ => S754_nan
  end.

Lemma binary_round_aux_finish (sgn : bool) (mx ex : Z) (lx : location) :
  binary_round_aux prec emax sgn mx ex lx
  = let '(mrs, e) := shr_fexp prec emax mx ex lx in
    finish sgn (round_nearest_even (shr_m mrs) (loc_of_shr_record mrs)) e.
Proof. reflexivity. Qed.

Lemma finish_spec (sgn : bool) (m1 e1 : Z) :
  2 ^ 52 <= m1 <= 2 ^ 53 -> -1074 <= e1 <= 900 ->
  exists m e,
    finish sgn m1 e1 = S754_finite sgn m e
    /\ valid_binary (S754_finite sgn m e) = true
    /\ ((Zpos m = m1 /\ e = e1) \/ (m1 = 2 ^ 53 /\ Zpos m = 2 ^ 52 /\ e = e1 + 1)).
Proof.
  intros Hm He. unfold finish.
  destruct m1 as [ | p1 | p1]; try lia.
  destruct (Z.eq_dec (Zpos p1) (2 ^ 53)) as [E | NE].
  - injection E as ->. exists (4503599627370496)%positive, (e1 + 1).
    rewrite shr_fexp_one by (reflexivity || lia). cbn [shr_1 shr_record_of_loc shr_m].
    replace (e1 + 1 <=? emax - prec) with true
      by (symmetry; apply Z.leb_le; unfold emax, prec; lia).
    split; [reflexivity | split; [ | right; repeat split; reflexivity]].
    unfold SpecFloat.valid_binary, bounded, canonical_mantissa. cbn [digits2_pos].
    apply andb_true_iff. split.
    + apply Z.eqb_eq. change (Zpos (digits2_pos 4503599627370496)) with 53.
      unfold fexp, SpecFloat.emin, prec, emax. lia.
    + apply Z.leb_le. unfold emax, prec. lia.
  - assert (Hd : Zpos (digits2_pos p1) = 53) by (apply digits2_unique; lia).
    exists p1, e1. rewrite shr_fexp_keep by (assumption || lia).
    cbn [shr_record_of_loc shr_m].
    replace (e1 <=? emax - prec) with true
      by (symmetry; apply Z.leb_le; unfold emax, prec; lia).
    split; [reflexivity | split; [ | left; split; reflexivity]].
    unfold SpecFloat.valid_binary, bounded, canonical_mantissa. rewrite Hd.
    apply andb_true_iff. split.
    + apply Z.eqb_eq. unfold fexp, SpecFloat.emin, prec, emax. lia.
    + apply Z.leb_le. unfold emax, prec. lia.
Qed.

(** Rounding to nearest keeps the mantissa or adds one to it. *)
Lemma round_nearest_even_cases (m : Z) (l : location) :
  round_nearest_even m l = m /\ (l = loc_Exact \/ l = loc_Inexact Lt \/ (l = loc_Inexact Eq /\ Z.even m = true))
  \/ round_nearest_even m l = m + 1 /\ (l = loc_Inexact Gt \/ (l = loc_Inexact Eq /\ Z.even m = false)).
Proof.
  destruct l as [ | [ | | ]]; cbn.
  - left. auto 10.
  - destruct (Z.even m); [left | right]; auto 10.
  - left. auto 10.
  - right. auto 10.
Qed.

Lemma shr_m_record (m : Z) (l : location) : shr_m (shr_record_of_loc m l) = m.
Proof. destruct l as [ | []]; reflexivity. Qed.

(** The location of a remainder [r] of a division by [10^6]. *)
Definition loc_of_rem (r : Z) : location :=
  if r =? 0 then loc_Exact else loc_Inexact (2 * r ?= 1000000).

Lemma loc_of_rem_cases (r : Z) :
  0 <= r ->
  (loc_of_rem r = loc_Exact /\ r = 0)
  \/ (loc_of_rem r = loc_Inexact Lt /\ 0 < r /\ 2 * r < 1000000)
  \/ (loc_of_rem r = loc_Inexact Eq /\ 2 * r = 1000000)
  \/ (loc_of_rem r = loc_Inexact Gt /\ 1000000 < 2 * r).
Proof.
  intros Hr. unfold loc_of_rem. destruct (Z.eqb_spec r 0) as [-> | Hne]; [auto | ].
  right. destruct (Z.compare_spec (2 * r) 1000000).
  - right. left. split; [reflexivity | assumption].
  - left. split; [reflexivity | lia].
  - right. right. split; [reflexivity | lia].
Qed.

(** One more bit shifted out of [q], with the location of what was dropped. *)
Lemma shr_1_record (pq : positive) (l : location) :
  exists h bit,
    Zpos pq = 2 * h + bit /\ 0 <= h
    /\ shr_m (shr_1 (shr_record_of_loc (Zpos pq) l)) = h
    /\ ((bit = 0 /\ l = loc_Exact
         /\ loc_of_shr_record (shr_1 (shr_record_of_loc (Zpos pq) l)) = loc_Exact)
        \/ (bit = 0 /\ l <> loc_Exact
            /\ loc_of_shr_record (shr_1 (shr_record_of_loc (Zpos pq) l)) = loc_Inexact Lt)
        \/ (bit = 1 /\ l = loc_Exact
            /\ loc_of_shr_record (shr_1 (shr_record_of_loc (Zpos pq) l)) = loc_Inexact Eq)
        \/ (bit = 1 /\ l <> loc_Exact
            /\ loc_of_shr_record (shr_1 (shr_record_of_loc (Zpos pq) l)) = loc_Inexact Gt)).
Proof.
  destruct pq as [p | p | ].
  - exists (Zpos p), 1. split; [lia | split; [lia | ]].
    destruct l as [ | []]; cbn; split; try reflexivity;
      solve [ right; right; left; auto | right; right; right; repeat split; congruence ].
  - exists (Zpos p), 0. split; [lia | split; [lia | ]].
    destruct l as [ | []]; cbn; split; try reflexivity;
      solve [ left; auto | right; left; repeat split; congruence ].
  - exists 0, 1. split; [lia | split; [lia | ]].
    destruct l as [ | []]; cbn; split; try reflexivity;
      solve [ right; right; left; auto | right; right; right; repeat split; congruence ].
Qed.

(** A quotient is known from bounds on the dividend. *)
Lemma div_close (m c P4 k K4 : Z) :
  K4 = k * P4 -> 0 <= m - 60 * c * K4 < 60 * c * P4 -> m / (60 * (c * P4)) = k.
Proof.
  intros -> H. symmetry. apply Z.div_unique with (r := m - 60 * c * (k * P4)).
  - left. lia.
  - ring.
Qed.

Ltac loc_cases :=
  repeat match goal with
         | H : _ \/ _ |- _ => destruct H
         | H : _ /\ _ |- _ => destruct H
         end;
  try congruence; try lia.

(** The [float] nearest to [pd / 10^6], for [pd] below [2^53]: a finite
    number whose sixtieth has the floor of [pd / (6 * 10^7)]. *)
Lemma SFdiv_seconds (sgn : bool) (pd : positive) :
  Zpos pd < 2 ^ 53 ->
  exists m e,
    SFdiv prec emax (S754_finite sgn pd 0) (S754_finite false 1000000 0) = S754_finite sgn m e
    /\ valid_binary (S754_finite sgn m e) = true
    /\ e < 0
    /\ Zpos m / (60 * 2 ^ (- e)) = Zpos pd / 60000000.
Proof.
  intros Hd. unfold SFdiv.
  destruct (div_core pd Hd) as (q & r & s & Hcore & Hs & Hqr & Hr & HD).
  rewrite Hcore, xorb_false_r, binary_round_aux_finish.
  (* the quotient by a minute *)
  pose proof (Z.div_mod (Zpos pd) 60000000 ltac:(lia)) as Hk.
  pose proof (Z.mod_pos_bound (Zpos pd) 60000000 ltac:(lia)) as Hrr.
  remember (Zpos pd / 60000000) as k eqn:Ek.
  remember (Zpos pd mod 60000000) as rr eqn:Err.
  (* powers of two *)
  assert (HP4 : 2 ^ 18 <= 2 ^ (s - 2)) by (apply Z.pow_le_mono_r; lia).
  assert (HP2 : 2 ^ (s - 1) = 2 * 2 ^ (s - 2)).
  { replace (s - 1) with (Z.succ (s - 2)) by lia. apply Z.pow_succ_r. lia. }
  assert (HP : 2 ^ s = 2 * 2 ^ (s - 1)).
  { replace s with (Z.succ (s - 1)) at 1 by lia. apply Z.pow_succ_r. lia. }
  remember (2 ^ (s - 2)) as P4 eqn:EP4.
  remember (k * P4) as K4 eqn:EK4.
  remember (rr * P4) as R4 eqn:ER4.
  assert (HR4 : 0 <= R4 <= 59999999 * P4).
  { subst R4. split; [apply Z.mul_nonneg_nonneg; lia | ].
    apply Z.mul_le_mono_nonneg_r; lia. }
  assert (HDK : Zpos pd * 2 ^ s = 4 * (60000000 * K4 + R4)).
  { rewrite HP, HP2, Hk. subst K4 R4. ring. }
  remember (Zpos pd * 2 ^ s) as D eqn:ED.
  rewrite HP2 in HP. replace (2 * (2 * P4)) with (4 * P4) in HP by ring.
  assert (HP1 : 2 ^ (s - 2) = 1 * P4) by lia.
  (* the location of the remainder *)
  change (new_location 1000000 r) with (loc_of_rem r).
  destruct q as [ | pq | pq]; try lia.
  assert (Hq : 2 ^ 52 <= Zpos pq < 2 ^ 54) by lia.
  pose proof (loc_of_rem_cases r ltac:(lia)) as Hloc.
  destruct (Z.lt_ge_cases (Zpos pq) (2 ^ 53)) as [Hlt | Hge].
  - (* the quotient has 53 bits *)
    rewrite shr_fexp_keep by (try (apply digits2_unique); lia).
    rewrite shr_m_record, loc_of_record.
    destruct (round_nearest_even_cases (Zpos pq) (loc_of_rem r)) as [[E C] | [E C]];
      rewrite E;
      [ destruct (finish_spec sgn (Zpos pq) (- s) ltac:(lia) ltac:(lia))
          as (m & e & Hf & Hv & [[Hm He] | (Hm1 & Hm & He)])
      | destruct (finish_spec sgn (Zpos pq + 1) (- s) ltac:(lia) ltac:(lia))
          as (m & e & Hf & Hv & [[Hm He] | (Hm1 & Hm & He)]) ];
      exists m, e; (split; [exact Hf | split; [exact Hv | split; [lia | ]]]).
    + replace (- e) with s by lia. rewrite HP. apply (div_close _ 4 _ _ K4); [assumption | ].
      rewrite Hm. lia.
    + exfalso. lia.
    + replace (- e) with s by lia. rewrite HP. apply (div_close _ 4 _ _ K4); [assumption | ].
      rewrite Hm. lia.
    + replace (- e) with (s - 1) by lia. rewrite HP2. apply (div_close _ 2 _ _ K4); [assumption | ].
      rewrite Hm. lia.
  - (* the quotient has 54 bits: one is shifted out before rounding *)
    rewrite shr_fexp_one by (try (apply digits2_unique); lia).
    destruct (shr_1_record pq (loc_of_rem r)) as (h & bit & Hh & Hh0 & Hsm & Hbit).
    rewrite Hsm.
    set (l' := loc_of_shr_record (shr_1 (shr_record_of_loc (Zpos pq) (loc_of_rem r)))) in *.
    destruct (round_nearest_even_cases h l') as [[E C] | [E C]];
      rewrite E;
      [ destruct (finish_spec sgn h (- s + 1) ltac:(lia) ltac:(lia))
          as (m & e & Hf & Hv & [[Hm He] | (Hm1 & Hm & He)])
      | destruct (finish_spec sgn (h + 1) (- s + 1) ltac:(lia) ltac:(lia))
          as (m & e & Hf & Hv & [[Hm He] | (Hm1 & Hm & He)]) ];
      exists m, e; (split; [exact Hf | split; [exact Hv | split; [lia | ]]]).
    + replace (- e) with (s - 1) by lia. rewrite HP2.
      apply (div_close _ 2 _ _ K4); [assumption | ]. rewrite Hm. lia.
    + exfalso. lia.
    + replace (- e) with (s - 1) by lia. rewrite HP2.
      apply (div_close _ 2 _ _ K4); [assumption | ]. rewrite Hm.
      clear Hf Hv. loc_cases.
    + replace (- e) with (s - 2) by lia. rewrite HP1.
      apply (div_close _ 1 _ _ K4); [assumption | ]. rewrite Hm.
      clear Hf Hv. loc_cases.
Qed.

(** Back to primitive floats. *)
Lemma finite_not_infinity (sf : spec_float) (s : bool) (m : positive) (e : Z) :
  sf = S754_finite s m e -> valid_binary sf = true -> is_infinity (SF2Prim sf) = false.
Proof.
  intros -> Hv. unfold is_infinity.
  rewrite FloatAxioms.eqb_spec, abs_spec, Prim2SF_SF2Prim by assumption.
  reflexivity.
Qed.

Lemma finite_parts_SF2Prim (s : bool) (m : positive) (e : Z) :
  valid_binary (S754_finite s m e) = true ->
  finite_parts (SF2Prim (S754_finite s m e)) = Some (if s then Zneg m else Zpos m, e).
Proof.
  intros Hv. unfold finite_parts. now rewrite Prim2SF_SF2Prim.
Qed.

End Rounding.
Export Rounding.

(* ================================================================= *)
(** ** Clock: [datetime] and [timedelta] *)

Module Clock.

Local Open Scope Z_scope.

(** A [timedelta] is a whole number of microseconds. *)
Definition timedelta := Z.

Definition us_per_second : Z := 1000000.
Definition us_per_minute : Z := 60000000.
Definition us_per_day : Z := 86400000000.

(** A [datetime]: its calendar fields, kept as the microseconds that
    [timedelta(days=toordinal(), hours=.., minutes=.., seconds=..,
    microseconds=..)] holds, and the UTC offset of its [tzinfo] in
    microseconds ([None] for a naive value). *)
Record datetime : Type := mk_datetime { wall : Z; utcoffset : option Z }.

(** The proleptic Gregorian calendar of the [datetime] module. *)
Definition _days_before_year (year : Z) : Z :=
  let y := year - 1 in y * 365 + y / 4 - y / 100 + y / 400.

Definition _is_leap (year : Z) : bool :=
  (year mod 4 =? 0) && (negb (year mod 100 =? 0) || (year mod 400 =? 0)).

Definition _days_in_month (year month : Z) : Z :=
  if month =? 2 then (if _is_leap year then 29 else 28)
  else if (month =? 4) || (month =? 6) || (month =? 9) || (month =? 11) then 30
  else 31.

Definition _days_before_month (year month : Z) : Z :=
  fold_right Z.add 0
    (map (_days_in_month year)
         (filter (fun m => m <? month) [1; 2; 3; 4; 5; 6; 7; 8; 9; 10; 11])).

Definition _ymd2ord (year month day : Z) : Z :=
  _days_before_year year + _days_before_month year month + day.

Definition _ord2ymd (ordinal : Z) : Z * Z * Z :=
  let n := ordinal - 1 in
  let n400 := n / 146097 in let n := n mod 146097 in
  let n100 := n / 36524 in let n := n mod 36524 in
  let n4 := n / 1461 in let n := n mod 1461 in
  let n1 := n / 365 in let n := n mod 365 in
  let year := n400 * 400 + 1 + n100 * 100 + n4 * 4 + n1 in
  if (n1 =? 4) || (n100 =? 4) then (year - 1, 12, 31)
  else
    let month := (n + 50) / 32 in
    let preceding := _days_before_month year month in
    if n <? preceding
    then (year, month - 1, n - (preceding - _days_in_month year (month - 1)) + 1)
    else (year, month, n - preceding + 1).

Definition _MAXORDINAL : Z := 3652059.

(** [datetime(year, month, day, hour, minute, second, microsecond, tzinfo)] *)
Definition datetime_of (year month day hour minute second microsecond : Z)
    (tz : option Z) : datetime :=
  mk_datetime
    (_ymd2ord year month day * us_per_day
     + ((hour * 60 + minute) * 60 + second) * us_per_second + microsecond)
    tz.

Definition dt_ymd (ts : datetime) : Z * Z * Z := _ord2ymd (wall ts / us_per_day).
Definition dt_hour (ts : datetime) : Z := (wall ts mod us_per_day) / 3600000000.
Definition dt_minute (ts : datetime) : Z :=
  ((wall ts mod us_per_day) / us_per_minute) mod 60.

(** [a - b]: both naive or both aware. *)
Definition datetime_sub (a b : datetime) : result timedelta :=
  match utcoffset a, utcoffset b with
  | None, None => Ok (wall a - wall b)
  | Some oa, Some ob => Ok ((wall a - oa) - (wall b - ob))
  | _, _ => raise TypeError "can't subtract offset-naive and offset-aware datetimes"
  end.

(** [a + d]: the date must stay within the years 1 to 9999. *)
Definition datetime_add (a : datetime) (d : timedelta) : result datetime :=
  let w := wall a + d in
  if (1 <=? w / us_per_day) && (w / us_per_day <=? _MAXORDINAL)
  then Ok (mk_datetime w (utcoffset a))
  else raise OverflowError "date value out of range".

(** [d.total_seconds()]: the microseconds divided by [10**6], as a [float]. *)
Definition total_seconds (d : timedelta) : result float :=
  int_truediv d us_per_second.

(** Below [2^53] microseconds (some 285 years), the whole minutes of
    [total_seconds()] are those of the microseconds themselves. *)
Lemma total_seconds_minutes (d : Z) :
  - 2 ^ 53 < d < 2 ^ 53 ->
  exists x q,
    total_seconds d = Ok x /\ int_floordiv x 60 = Ok q
    /\ Z.max 0 q = Z.max 0 (d / 60000000).
Proof.
  intros Hd. unfold total_seconds, int_truediv, us_per_second, nearest_quotient.
  cbn [Z.eqb].
  destruct d as [ | pd | pd].
  - exists 0%float, 0. repeat split.
  - destruct (SFdiv_seconds false pd ltac:(lia)) as (m & e & Hdiv & Hv & He & Hq).
    cbn [sf_of_int]. rewrite Hdiv.
    rewrite (finite_not_infinity _ false m e eq_refl Hv).
    exists (SF2Prim (S754_finite false m e)), (Zpos m / (60 * 2 ^ (- e))).
    split; [reflexivity | split; [ | now rewrite Hq]].
    unfold int_floordiv. cbn [Z.eqb]. rewrite finite_parts_SF2Prim by assumption.
    unfold floor_parts. replace (0 <=? e) with false by (symmetry; apply Z.leb_gt; lia).
    reflexivity.
  - destruct (SFdiv_seconds true pd ltac:(lia)) as (m & e & Hdiv & Hv & He & Hq).
    cbn [sf_of_int]. rewrite Hdiv.
    rewrite (finite_not_infinity _ true m e eq_refl Hv).
    exists (SF2Prim (S754_finite true m e)), (Zneg m / (60 * 2 ^ (- e))).
    split; [reflexivity | split].
    + unfold int_floordiv. cbn [Z.eqb]. rewrite finite_parts_SF2Prim by assumption.
      unfold floor_parts. replace (0 <=? e) with false by (symmetry; apply Z.leb_gt; lia).
      reflexivity.
    + assert (HN : 0 < 60 * 2 ^ (- e)).
      { apply Z.mul_pos_pos; [lia | apply Z.pow_pos_nonneg; lia]. }
      assert (Zneg m / (60 * 2 ^ (- e)) < 0) by (apply Z.div_lt_upper_bound; lia).
      assert (Zneg pd / 60000000 < 0) by (apply Z.div_lt_upper_bound; lia).
      lia.
Qed.

(** [timedelta(minutes=x)] for a [float]: whole minutes are converted exactly,
    the fraction through one [float] product, and what is left of a
    microsecond is rounded half to even. *)
Definition timedelta_of_minutes (x : float) : result timedelta :=
  ip <- int_of_float x ;;
  let frac := (x - dyadic ip 0)%float in
  let whole := ip * us_per_minute in
  us <-
    (if PrimFloat.eqb frac 0 then Ok whole
     else
       let dnum := (dyadic us_per_minute 0 * frac)%float in
       ip2 <- int_of_float dnum ;;
       let leftover := (dnum - dyadic ip2 0)%float in
       let x0 := whole + ip2 in
       match finite_parts leftover with
       | Some (lm, le) =>
           if 0 <=? le then Ok (x0 + lm * 2 ^ le)
           else
             Ok (x0 + match 2 * Z.abs lm ?= 2 ^ (- le) with
                      | Lt => 0
                      | Gt => Z.sgn lm
                      | Eq => if Z.odd x0 then Z.sgn lm else 0
                      end)
       | None => Ok x0
       end) ;;
  if Z.abs (us / us_per_day) <=? 999999999 then Ok us
  else raise OverflowError "days out of range; must have magnitude <= 999999999".

(** Decimal digits, zero padded. *)
Definition digit (d : Z) : char := Z.to_N (48 + d mod 10).
Definition digits2 (n : Z) : str := [digit (n / 10); digit n].
Definition digits4 (n : Z) : str :=
  [digit (n / 1000); digit (n / 100); digit (n / 10); digit n].

(** The year as [strftime("%Y")] prints it: the decimal number, which has
    four digits from the year 1000 on and fewer, without leading zeros, for the
    years 1 to 999. *)
Definition year_text (y : Z) : str :=
  if y <? 10 then [digit y]
  else if y <? 100 then digits2 y
  else if y <? 1000 then [digit (y / 100); digit (y / 10); digit y]
  else digits4 y.

End Clock.
Export Clock.

(* ================================================================= *)
(** ** Api: [api.py] *)

Module Api.

Local Open Scope Z_scope.

(** *** Plans *)

Inductive PlanType : Type := PRO | MAX5 | MAX20.

Definition PlanType_value (p : PlanType) : str :=
  match p with
  | PRO => py "Pro"
  | MAX5 => py "Max5"
  | MAX20 => py "Max20"
  end.

(** An item of [PLAN_CONFIG]. *)
Record plan_config : Type := mk_plan_config {
  token_limit : Z;
  cost_limit : float;
  message_limit : Z;
  display_name : str
}.

Definition PLAN_CONFIG : list (str * plan_config) :=
  [ (py "Pro", mk_plan_config 19000 18.0 250 (py "Pro"));
    (py "Max5", mk_plan_config 88000 35.0 1000 (py "Max5"));
    (py "Max20", mk_plan_config 220000 140.0 2000 (py "Max20")) ].

Fixpoint config_lookup (key : str) (table : list (str * plan_config))
    : option plan_config :=
  match table with
  | [] => None
  | (k, cfg) :: rest => if str_eqb key k then Some cfg else config_lookup key rest
  end.

(** The argument [plan: PlanType | str]. *)
Inductive plan_arg : Type :=
| PlanEnum : PlanType -> plan_arg
| PlanStr : str -> plan_arg.

(** [str(plan)] inside the f-string of the error message. *)
Definition plan_repr (plan : plan_arg) : str :=
  match plan with
  | PlanEnum PRO => py "PlanType.PRO"
  | PlanEnum MAX5 => py "PlanType.MAX5"
  | PlanEnum MAX20 => py "PlanType.MAX20"
  | PlanStr s => s
  end.

Definition _normalize_plan (plan : plan_arg) : result plan_config :=
  let key := match plan with PlanEnum p => PlanType_value p | PlanStr s => s end in
  match config_lookup key PLAN_CONFIG with
  | None => Raise (mk_exn ValueError (py "Unknown plan: " ++ plan_repr plan))
  | Some cfg => Ok cfg
  end.

(** *** The two patterns, compiled with [re.IGNORECASE] *)

Definition chr (a : ascii) : char := N_of_ascii a.

(** A literal character without case, and a set of such characters. *)
Definition lit (a : ascii) : regex := Class (char_eqb (chr a)).
Definition one_of (s : string) : regex := Class (fun c => contains_char c (py s)).

(** A lower-case ASCII letter [l] of the pattern under [IGNORECASE]: the
    subject character is lowered ([Py_UNICODE_TOLOWER]) and compared with [l]
    and with the letters [sre] lists as its equivalents.  Besides [l] and its
    capital, U+0130 lowers to [i], U+212A lowers to [k], and U+0131 and U+017F
    are the listed equivalents of [i] and [s]. *)
Definition ignorecase (l : char) (c : char) : bool :=
  (N.eqb c l) || (N.eqb (c + 32) l)
  || (N.eqb l 105 && (N.eqb c 304 || N.eqb c 305))
  || (N.eqb l 115 && N.eqb c 383)
  || (N.eqb l 107 && N.eqb c 8490).

Definition letter (a : ascii) : regex := Class (ignorecase (chr a)).

(** A run of letters of the pattern. *)
Definition word (s : string) : regex :=
  Seq (map (fun l => Class (ignorecase l)) (py s)).

(** [\s] and [[^\n\r]] *)
Definition ws : regex := Class isspace.
Definition not_newline (c : char) : bool := negb (N.eqb c 10 || N.eqb c 13).

(** [(?:5\s*[- ]?\s*hour\s+limit\s+(?:reached|readched)|rate\s*limit)] *)
Definition _LIMIT_HIT : regex :=
  Alt
    (Seq [ lit "5"; Star ws; Opt (one_of "- "); Star ws; word "hour"; Plus ws;
           word "limit"; Plus ws; Alt (word "reached") (word "readched") ])
    (Seq [ word "rate"; Star ws; word "limit" ]).

(** The group [reset[s]?\s*(?:at|on|in)?\s*[:\-]?\s*] followed by the named
    group [when], which is [[^\n\r]+]. *)
Definition _RESET_HINT : regex :=
  Cat
    (Seq [ word "reset"; Opt (letter "s"); Star ws;
           Opt (Alt (word "at") (Alt (word "on") (word "in")));
           Star ws; Opt (one_of ":-"); Star ws ])
    (Plus (Class not_newline)).

(** *** The environment of one request *)

(** What [subprocess.run(cmd, capture_output=True, text=True, ..)] returns. *)
Record CompletedProcess : Type := mk_completed {
  returncode : Z;
  stdout : str;
  stderr : str
}.

(** The outcome of [subprocess.run] for a command and a timeout: a completed
    process, or the exception it raises (timeout, spawn failure, ..). *)
Definition runner := list str -> Z -> result CompletedProcess.

(** One request runs [subprocess.run] twice, for the probe and then for the
    usage command, and reads the clock once. *)
Record world : Type := mk_world {
  probe_run : runner;
  usage_run : runner;
  utc_now : Z
}.

(** The parsers of the standard library, taken as they are. *)
Record library : Type := mk_library {
  json_loads : str -> result value;
  fromisoformat : str -> result datetime;
  float_of_str : str -> result float;
  int_of_str : str -> result Z
}.

(** *** Helpers of the source *)

(** The one-character string of a line feed. *)
Definition newline : str := [10%N].

Definition _run (subprocess_run : runner) (cmd : list str) (timeout : Z)
    : result (Z * str) :=
  p <- subprocess_run cmd timeout ;;
  let out := stdout p ++ (if nonempty (stderr p) then newline ++ stderr p else []) in
  Ok (returncode p, strip out).

Definition _fmt_utc (ts : datetime) : str :=
  let '(year, month, day) := dt_ymd ts in
  year_text year ++ py "-" ++ digits2 month ++ py "-" ++ digits2 day ++ py " "
  ++ digits2 (dt_hour ts) ++ py ":" ++ digits2 (dt_minute ts) ++ py " UTC".

(** The dictionary [{"type": .., "message": ..}]. *)
Record limit_info : Type := mk_limit_info { l_type : str; l_message : str }.

(** The body of [_probe_limit_via_claude] after the [try]. *)
Definition classify_output (out : str) : limit_info :=
  if search _LIMIT_HIT out || search _RESET_HINT out
  then mk_limit_info (py "limit") (slice_to 500 out)
  else if negb (contains_char (chr "2") (strip out))
  then mk_limit_info (py "error") (slice_to 500 out)
  else mk_limit_info (py "not_limited") (strip out).

Definition _probe_limit_via_claude (w : world) (test_cmd : list str) : limit_info :=
  match _run (probe_run w) test_cmd 30 with
  | Raise e => mk_limit_info (py "error") (exn_str e)
  | Ok (_, out) => classify_output out
  end.

(** *** The status report *)

(** The groups [{"used": .., "limit": .., "percent": ..}]. *)
Record gauge (U L : Type) : Type := mk_gauge {
  used : U;
  limit : L;
  percent : float
}.
Arguments mk_gauge {U L} _ _ _.
Arguments used {U L} _.
Arguments limit {U L} _.
Arguments percent {U L} _.

Record time_to_reset_t : Type := mk_time_to_reset {
  remaining_minutes : Z;
  reset_at : str
}.

Record predictions_t : Type := mk_predictions {
  tokens_will_run_out : str;
  limit_resets_at : str
}.

(** The dictionary [get_ccusage_status] returns, key by key. *)
Record report : Type := mk_report {
  r_limit : limit_info;
  r_plan : str;
  r_active : bool;
  r_models : value;
  r_cost : gauge float float;
  r_tokens : gauge float Z;
  r_messages : gauge Z Z;
  r_time_to_reset : time_to_reset_t;
  r_burn_rate : float;
  r_cost_rate : float;
  r_predictions : predictions_t
}.

Section WithLibrary.

Variable L : library.

(** [float(v)] and [int(v)] for a parsed JSON value *)
Definition to_float (v : value) : result float :=
  match v with
  | VFloat f => Ok f
  | VInt n => float_of_int n
  | VBool b => Ok (if b then 1%float else 0%float)
  | VStr s => float_of_str L s
  | VNone => raise TypeError "float() argument must be a string or a real number, not 'NoneType'"
  | VList _ => raise TypeError "float() argument must be a string or a real number, not 'list'"
  | VDict _ => raise TypeError "float() argument must be a string or a real number, not 'dict'"
  end.

Definition to_int (v : value) : result Z :=
  match v with
  | VInt n => Ok n
  | VFloat f => int_of_float f
  | VBool b => Ok (if b then 1 else 0)
  | VStr s => int_of_str L s
  | VNone => raise TypeError "int() argument must be a string, a bytes-like object or a real number, not 'NoneType'"
  | VList _ => raise TypeError "int() argument must be a string, a bytes-like object or a real number, not 'list'"
  | VDict _ => raise TypeError "int() argument must be a string, a bytes-like object or a real number, not 'dict'"
  end.

(** [float(obj.get(key, 0.0))] and [int(obj.get(key, 0))] *)
Definition read_float (obj : value) (key : string) : result float :=
  v <- get obj key (VFloat 0) ;; to_float v.

Definition read_int (obj : value) (key : string) : result Z :=
  v <- get obj key (VInt 0) ;; to_int v.

(** [zdt.replace("Z", "+00:00")] needs a [str]. *)
Definition _utc_from_iso8601 (zdt : value) : result datetime :=
  match zdt with
  | VStr s => fromisoformat L (replace_char (chr "Z") (py "+00:00") s)
  | _ => raise AttributeError ("'" ++ type_name zdt ++ "' object has no attribute 'replace'")
  end.

Definition usage_cmd : list str :=
  [py "npx"; py "ccusage@latest"; py "blocks"; py "--active"; py "--json"].

(** [get_ccusage_status] from its second statement on, for the configuration
    [cfg] that [_normalize_plan] returned. *)
Definition status_of_config (w : world) (cfg : plan_config) (test_cmd : list str)
    : result report :=
  let cost_limit := cost_limit cfg in
  let token_limit := token_limit cfg in
  let msg_limit := message_limit cfg in
  (* Probe for limits *)
  let limit_info := _probe_limit_via_claude w test_cmd in
  (* Fetch ccusage data *)
  ' (code, raw) <- _run (usage_run w) usage_cmd 30 ;;
  if negb (code =? 0)
  then Raise (mk_exn RuntimeError (py "ccusage failed: " ++ slice_to 200 raw))
  else
  data <- json_loads L raw ;;
  blocks <- getitem data "blocks" ;;
  block <- getitem0 blocks ;;
  (* Extract values *)
  v_active <- get block "isActive" (VBool false) ;;
  let active := truthy v_active in
  cost <- read_float block "costUSD" ;;
  tokens_used_raw <- read_int block "totalTokens" ;;
  tokens_used <- int_truediv tokens_used_raw 1000 ;;
  msgs <- read_int block "entries" ;;
  models <- get block "models" (VList []) ;;
  (* Calculate percentages *)
  let cost_pct := if float_truthy cost_limit
                  then (cost / cost_limit * 100)%float else 0%float in
  token_pct <- (if negb (token_limit =? 0)
                then q <- float_div_int tokens_used token_limit ;; Ok (q * 100)%float
                else Ok 0%float) ;;
  msg_pct <- (if negb (msg_limit =? 0)
              then q <- int_truediv msgs msg_limit ;; Ok (q * 100)%float
              else Ok 0%float) ;;
  (* Time calculations *)
  end_time <- getitem block "endTime" ;;
  reset_at <- _utc_from_iso8601 end_time ;;
  let now_utc := mk_datetime (utc_now w) (Some 0) in
  delta <- datetime_sub reset_at now_utc ;;
  seconds <- total_seconds delta ;;
  minutes <- int_floordiv seconds 60 ;;
  let remaining_minutes := Z.max 0 minutes in
  let reset_at_str := _fmt_utc reset_at in
  (* Burn rate calculations *)
  burn <- get block "burnRate" (VDict []) ;;
  burn_rate <- read_float burn "tokensPerMinuteForIndicator" ;;
  v_cph <- get burn "costPerHour" VNone ;;
  cost_rate <- (if truthy v_cph
                then f <- read_float burn "costPerHour" ;; Ok (f / 60)%float
                else Ok 0%float) ;;
  (* Predictions (use raw tokens for burn rate calculation) *)
  let remain_tokens_raw :=
    if negb (token_limit =? 0)
    then max_float_int 0 (token_limit * 1000 - tokens_used_raw)
    else NFloat 0 in
  tokens_will_run_out <-
    (if float_positive burn_rate
     then m <- number_div_float remain_tokens_raw burn_rate ;;
          d <- timedelta_of_minutes m ;;
          predict_time <- datetime_add now_utc d ;;
          Ok (_fmt_utc predict_time)
     else Ok (py "N/A")) ;;
  Ok (mk_report
        limit_info
        (display_name cfg)
        active
        models
        (mk_gauge cost cost_limit (py_round cost_pct 1))
        (mk_gauge tokens_used token_limit (py_round token_pct 1))
        (mk_gauge msgs msg_limit (py_round msg_pct 1))
        (mk_time_to_reset remaining_minutes reset_at_str)
        burn_rate
        (py_round cost_rate 4)
        (mk_predictions tokens_will_run_out reset_at_str)).

Definition default_test_cmd : list str := [py "claude"; py "-p"; py "1+1"].

Definition get_ccusage_status (w : world) (plan : plan_arg) (test_cmd : list str)
    : result report :=
  cfg <- _normalize_plan plan ;;
  status_of_config w cfg test_cmd.

(** *** The endpoints *)

(** What a handler does: it returns a body, raises [HTTPException], or lets
    another exception through. *)
Inductive response : Type :=
| Returned : report -> response
| HTTPException : Z -> str -> response
| Unhandled : exn -> response.

Definition status (w : world) (plan : str) : response :=
  match get_ccusage_status w (PlanStr plan) default_test_cmd with
  | Ok data => Returned data
  | Raise e =>
      if is_ValueError (exn_class e) then HTTPException 400 (exn_str e)
      else if is_RuntimeError (exn_class e) then HTTPException 502 (exn_str e)
      else Unhandled e
  end.

(** *** The response model

    The route is declared with [response_model=StatusResponse]: the framework
    validates the returned dictionary against the model, and then writes it as
    JSON.  Either step can fail, and the request is then answered 500. *)

(** [StatusResponse] accepts the dictionary.  The handler always gives [plan]
    a [str], [active] a [bool], [burn_rate] and [cost_rate] a [float] and the
    five groups a [dict]; only [models], which is whatever the block holds
    under that key, may not be what the model declares, a list. *)
Definition StatusResponse_accepts (r : report) : bool :=
  match r_models r with
  | VList _ => true
  | _ => false
  end.

(** A [str] can be written as UTF-8: it has no surrogate code point. *)
Definition encodable (s : str) : bool :=
  forallb (fun c => negb ((55296 <=? c) && (c <=? 57343))%N) s.

(** A [float] can be written as JSON: it is neither [nan] nor an infinity
    (the response is written with [allow_nan=False]). *)
Definition json_float (x : float) : bool := is_finite x.

(** A parsed JSON value can be written back. *)
Fixpoint json_value (v : value) : bool :=
  match v with
  | VNone | VBool _ | VInt _ => true
  | VFloat x => json_float x
  | VStr s => encodable s
  | VList l => forallb json_value l
  | VDict items =>
      forallb (fun kv => let '(k, x) := kv in encodable k && json_value x) items
  end.

(** The body can be written as JSON: every [float] and every [str] of it. *)
Definition renders (r : report) : bool :=
  encodable (l_type (r_limit r)) && encodable (l_message (r_limit r))
  && encodable (r_plan r)
  && json_value (r_models r)
  && json_float (used (r_cost r)) && json_float (limit (r_cost r))
  && json_float (percent (r_cost r))
  && json_float (used (r_tokens r)) && json_float (percent (r_tokens r))
  && json_float (percent (r_messages r))
  && encodable (reset_at (r_time_to_reset r))
  && json_float (r_burn_rate r) && json_float (r_cost_rate r)
  && encodable (tokens_will_run_out (r_predictions r))
  && encodable (limit_resets_at (r_predictions r)).

(** The status code the framework answers with: 200 for a returned body that
    the response model accepts and that can be written as JSON, the code of an
    [HTTPException] (its body is [{"detail": ..}]), and 500 for a body that
    fails the response model or cannot be written, and for an exception the
    handler did not catch. *)
Definition status_code (r : response) : Z :=
  match r with
  | Returned body => if StatusResponse_accepts body && renders body then 200 else 500
  | HTTPException code _ => code
  | Unhandled _ => 500
  end.

End WithLibrary.

Definition health : list (str * str) :=
  [ (py "status", py "healthy"); (py "service", py "ccusage_api") ].

End Api.
Export Api.

(* ================================================================= *)
(** ** Phrases in any letter case *)

Module Phrase.

Local Open Scope N_scope.

Definition is_lower (a : char) : bool := (97 <=? a) && (a <=? 122).

(** [c] is the character [a] of a phrase written in lower case, or its capital. *)
Definition same_letter (a c : char) : bool :=
  N.eqb c a || (is_lower a && N.eqb (c + 32) a).

(** [s] starts with the phrase [p], in any letter case. *)
Fixpoint starts_with_any_case (p s : str) : bool :=
  match p, s with
  | [], _ => true
  | _ :: _, [] => false
  | a :: p', c :: s' => same_letter a c && starts_with_any_case p' s'
  end.

(** [s] contains the phrase [p], in any letter case. *)
Fixpoint contains_any_case (p s : str) : bool :=
  starts_with_any_case p s ||
  match s with
  | [] => false
  | _ :: s' => contains_any_case p s'
  end.

(** The same, as a relation between the phrase and the slice that spells it. *)
Definition spells (p w : str) : Prop :=
  Forall2 (fun a c => same_letter a c = true) p w.

Lemma starts_with_spells (p s : str) :
  starts_with_any_case p s = true <-> exists w, prefix_of w s /\ spells p w.
Proof.
  revert s. induction p as [|a p IH]; intros s; simpl.
  - split; [intros _ | reflexivity].
    exists []. split; [now exists s | constructor].
  - destruct s as [|c s].
    + split; [discriminate | ].
      intros (w & [v E] & Hw). inversion Hw; subst. discriminate.
    + rewrite andb_true_iff, IH. split.
      * intros [Hac (w & [v E] & Hw)]. exists (c :: w). split.
        -- exists v. simpl. congruence.
        -- now constructor.
      * intros (w & [v E] & Hw). inversion Hw as [|a' c' p' w' Hac Hw']; subst.
        simpl in E. injection E as -> ->. split; [assumption | ].
        exists w'. split; [now exists v | assumption].
Qed.

Lemma contains_spells (p s : str) :
  contains_any_case p s = true <-> exists w, slice_of w s /\ spells p w.
Proof.
  induction s as [|c s IH]; cbn [contains_any_case].
  - rewrite orb_false_r, starts_with_spells. split.
    + intros (w & [v E] & Hw). exists w. split; [now exists [], v | assumption].
    + intros (w & (a & b & E) & Hw). symmetry in E.
      apply app_eq_nil in E as [-> E]. apply app_eq_nil in E as [-> _].
      exists []. split; [now exists [] | assumption].
  - rewrite orb_true_iff, starts_with_spells, IH. split.
    + intros [(w & [v E] & Hw) | (w & (a & b & E) & Hw)].
      * exists w. split; [now exists [], v | assumption].
      * exists w. split; [exists (c :: a), b; simpl; congruence | assumption].
    + intros (w & (a & b & E) & Hw). destruct a as [|c' a]; simpl in E.
      * left. exists w. split; [now exists b | assumption].
      * right. injection E as _ ->. exists w. split; [now exists a, b | assumption].
Qed.

Lemma spells_app (p1 p2 w : str) :
  spells (p1 ++ p2) w ->
  exists w1 w2, w = w1 ++ w2 /\ spells p1 w1 /\ spells p2 w2.
Proof.
  intros H. apply Forall2_app_inv_l in H as (w1 & w2 & H1 & H2 & ->). eauto.
Qed.

(** A character of the phrase that is not a letter is spelled by itself. *)
Lemma spells_symbol (a : char) (w : str) :
  is_lower a = false -> spells [a] w -> w = [a].
Proof.
  intros Ha H. inversion H as [|a' c p' w' Hac Hw']; subst.
  inversion Hw'; subst. unfold same_letter in Hac. rewrite Ha in Hac.
  simpl in Hac. rewrite orb_false_r in Hac. apply N.eqb_eq in Hac. now subst.
Qed.

End Phrase.
Export Phrase.

(* ================================================================= *)
(** ** The patterns match the phrases *)

Section PatternFacts.

Lemma same_letter_ignorecase (a c : char) :
  same_letter a c = true -> ignorecase a c = true.
Proof.
  unfold same_letter, ignorecase. intros H.
  apply orb_true_iff in H as [H | H].
  - now rewrite H.
  - apply andb_true_iff in H as [_ H]. rewrite H. now rewrite orb_true_r.
Qed.

Lemma Matches_letters (p w : str) :
  spells p w -> Matches (Seq (map (fun l => Class (ignorecase l)) p)) w.
Proof.
  induction 1 as [|a c p w Hac _ IH]; simpl.
  - apply MEps.
  - change (c :: w) with ([c] ++ w). apply MCat; [ | exact IH].
    apply MClass. now apply same_letter_ignorecase.
Qed.

Lemma Matches_word (s : string) (w : str) : spells (py s) w -> Matches (word s) w.
Proof. apply Matches_letters. Qed.

(** A sequence of items matches the concatenation of matches of its items. *)
Lemma Matches_Seq (rs : list regex) (parts : list str) :
  Forall2 Matches rs parts -> Matches (Seq rs) (List.concat parts).
Proof.
  induction 1 as [|r w rs parts Hr _ IH]; simpl.
  - apply MEps.
  - now apply MCat.
Qed.

Lemma Matches_ws_space : Matches ws [32%N].
Proof. now apply MClass. Qed.

(** [5 hour limit ..] and [5-hour limit ..], whatever the case of the words. *)
Lemma limit_hit_five_hour (sep : char) (h l r : str) :
  sep = 32%N \/ sep = 45%N ->
  spells (py "hour") h -> spells (py "limit") l ->
  spells (py "reached") r \/ spells (py "readched") r ->
  Matches _LIMIT_HIT ([53%N] ++ [sep] ++ h ++ [32%N] ++ l ++ [32%N] ++ r).
Proof.
  intros Hsep Hh Hl Hr. apply MAltL.
  replace ([53%N] ++ [sep] ++ h ++ [32%N] ++ l ++ [32%N] ++ r)
    with (List.concat [[53%N]; []; [sep]; []; h; [32%N]; l; [32%N]; r])
    by (simpl; now rewrite app_nil_r).
  apply Matches_Seq.
  apply Forall2_cons; [now apply MClass | ].
  apply Forall2_cons; [apply MStarNil | ].
  apply Forall2_cons;
    [apply Matches_Opt_take, MClass; destruct Hsep; subst; reflexivity | ].
  apply Forall2_cons; [apply MStarNil | ].
  apply Forall2_cons; [now apply Matches_word | ].
  apply Forall2_cons; [apply Matches_Plus_one, Matches_ws_space | ].
  apply Forall2_cons; [now apply Matches_word | ].
  apply Forall2_cons; [apply Matches_Plus_one, Matches_ws_space | ].
  apply Forall2_cons; [ | apply Forall2_nil].
  destruct Hr as [Hr | Hr]; [apply MAltL | apply MAltR]; now apply Matches_word.
Qed.

Lemma limit_hit_rate_limit (a l : str) :
  spells (py "rate") a -> spells (py "limit") l ->
  Matches _LIMIT_HIT (a ++ [32%N] ++ l).
Proof.
  intros Ha Hl. apply MAltR.
  replace (a ++ [32%N] ++ l) with (List.concat [a; [32%N]; l])
    by (simpl; now rewrite app_nil_r).
  apply Matches_Seq.
  apply Forall2_cons; [now apply Matches_word | ].
  apply Forall2_cons; [apply Matches_Star_one, Matches_ws_space | ].
  apply Forall2_cons; [now apply Matches_word | apply Forall2_nil].
Qed.

(** [reset] and one more character of the line is a reset hint. *)
Lemma reset_hint_reset (k : str) (c : char) :
  spells (py "reset") k -> not_newline c = true ->
  Matches _RESET_HINT (k ++ [c]).
Proof.
  intros Hk Hc. apply MCat; [ | now apply Matches_Plus_one, MClass].
  replace k with (List.concat [k; []; []; []; []; []; []])
    by (simpl; now rewrite app_nil_r).
  apply Matches_Seq.
  apply Forall2_cons; [now apply Matches_word | ].
  repeat (apply Forall2_cons; [first [apply Matches_Opt_skip | apply MStarNil] | ]).
  apply Forall2_nil.
Qed.

End PatternFacts.

(* ================================================================= *)
(** ** The limit prober *)

Section Prober.

Lemma run_raises (p : runner) (cmd : list str) (timeout : Z) (e : exn) :
  p cmd timeout = Raise e -> _run p cmd timeout = Raise e.
Proof. unfold _run. now intros ->. Qed.

Lemma probe_of_failure (w : world) (cmd : list str) (e : exn) :
  probe_run w cmd 30%Z = Raise e ->
  _probe_limit_via_claude w cmd = mk_limit_info (py "error") (exn_str e).
Proof.
  intros H. unfold _probe_limit_via_claude. now rewrite (run_raises _ _ _ _ H).
Qed.

Lemma probe_of_output (w : world) (cmd : list str) (code : Z) (out : str) :
  _run (probe_run w) cmd 30%Z = Ok (code, out) ->
  _probe_limit_via_claude w cmd = classify_output out.
Proof. unfold _probe_limit_via_claude. now intros ->. Qed.

Lemma classify_limit_hit (out u : str) :
  slice_of u out -> Matches _LIMIT_HIT u ->
  classify_output out = mk_limit_info (py "limit") (slice_to 500 out).
Proof.
  intros Hu Hm. unfold classify_output.
  assert (H : search _LIMIT_HIT out = true) by (apply search_spec; eauto).
  now rewrite H.
Qed.

Lemma classify_reset_hint (out u : str) :
  slice_of u out -> Matches _RESET_HINT u ->
  classify_output out = mk_limit_info (py "limit") (slice_to 500 out).
Proof.
  intros Hu Hm. unfold classify_output.
  assert (H : search _RESET_HINT out = true) by (apply search_spec; eauto).
  rewrite H. now rewrite orb_true_r.
Qed.

(** The phrases of the first pattern, as the specification writes them. *)
Definition limit_phrases : list string :=
  [ "5 hour limit reached"; "5-hour limit reached";
    "5 hour limit readched"; "5-hour limit readched";
    "rate limit" ]%string.

Lemma spells_five_hour (sep : char) (ending w : str) :
  sep = 32%N \/ sep = 45%N ->
  ending = py "reached" \/ ending = py "readched" ->
  spells ([53%N] ++ [sep] ++ py "hour" ++ [32%N] ++ py "limit" ++ [32%N] ++ ending) w ->
  Matches _LIMIT_HIT w.
Proof.
  intros Hsep Hend H.
  apply spells_app in H as (w1 & x1 & -> & H1 & H).
  apply spells_app in H as (w2 & x2 & -> & H2 & H).
  apply spells_app in H as (h & x3 & -> & Hh & H).
  apply spells_app in H as (w3 & x4 & -> & H3 & H).
  apply spells_app in H as (l & x5 & -> & Hl & H).
  apply spells_app in H as (w4 & r & -> & H4 & Hr).
  apply spells_symbol in H1; [subst w1 | reflexivity].
  apply spells_symbol in H2; [subst w2 | destruct Hsep; subst; reflexivity].
  apply spells_symbol in H3; [subst w3 | reflexivity].
  apply spells_symbol in H4; [subst w4 | reflexivity].
  apply limit_hit_five_hour; try assumption.
  destruct Hend; subst; auto.
Qed.

Lemma spells_rate_limit (w : str) :
  spells (py "rate" ++ [32%N] ++ py "limit") w -> Matches _LIMIT_HIT w.
Proof.
  intros H.
  apply spells_app in H as (a & x1 & -> & Ha & H).
  apply spells_app in H as (w1 & l & -> & H1 & Hl).
  apply spells_symbol in H1; [subst w1 | reflexivity].
  now apply limit_hit_rate_limit.
Qed.

Lemma limit_phrase_matches (phrase : string) (w : str) :
  In phrase limit_phrases -> spells (py phrase) w -> Matches _LIMIT_HIT w.
Proof.
  intros Hin H. simpl in Hin.
  destruct Hin as [<- | [<- | [<- | [<- | [<- | []]]]]].
  - apply (spells_five_hour 32%N (py "reached")); auto.
  - apply (spells_five_hour 45%N (py "reached")); auto.
  - apply (spells_five_hour 32%N (py "readched")); auto.
  - apply (spells_five_hour 45%N (py "readched")); auto.
  - now apply spells_rate_limit.
Qed.

(** A capital or small [s] is not a line break. *)
Lemma spells_resets (k : str) :
  spells (py "resets") k ->
  exists k' c, k = k' ++ [c] /\ spells (py "reset") k' /\ not_newline c = true.
Proof.
  intros H. change (py "resets") with (py "reset" ++ [115%N]) in H.
  apply spells_app in H as (k' & x & -> & Hk & Hx).
  inversion Hx as [|a c p' w' Hac Hw']; subst. inversion Hw'; subst.
  exists k', c. split; [reflexivity | split; [assumption | ]].
  unfold same_letter in Hac. apply orb_true_iff in Hac as [Hc | Hc].
  - apply N.eqb_eq in Hc. now subst.
  - apply andb_true_iff in Hc as [_ Hc]. apply N.eqb_eq in Hc.
    assert (c = 83%N) by lia. now subst.
Qed.

End Prober.

(* ================================================================= *)
(** ** Properties of the limit prober *)

(** A request whose probe prints [out] on standard output and exits with 0;
    the usage command prints nothing. *)
Definition probe_prints (out : string) : world :=
  mk_world (fun _ _ => Ok (mk_completed 0 (py out) []))
           (fun _ _ => Ok (mk_completed 0 [] []))
           0.

(** A request whose probe command cannot be run. *)
Definition probe_raises (e : exn) : world :=
  mk_world (fun _ _ => Raise e)
           (fun _ _ => Ok (mk_completed 0 [] []))
           0.

(** The description of a failure that is 501 characters long. *)
Definition long_failure : exn := mk_exn TimeoutExpired (repeat 120%N 501).

(** C4, at a failing input.  When running the probe command raises, the
    message of the error result is the whole description of the failure,
    [str(e)]: a failure described in 501 characters is reported with all 501
    characters, not with the first 500, unlike the two paths that report
    [out[:500]]. *)
Theorem C4_long_failure_not_truncated :
  let info := _probe_limit_via_claude (probe_raises long_failure) default_test_cmd in
  l_type info = py "error"
  /\ List.length (l_message info) = 501%nat
  /\ l_message info <> slice_to 500 (exn_str long_failure).
Proof.
  cbv zeta. split; [reflexivity | split; [reflexivity | ]].
  intros H. apply (f_equal (@List.length char)) in H. vm_compute in H. discriminate H.
Qed.

(** C5.  When the output of the probe matches neither pattern, the result is
    [not_limited] with the whole trimmed output exactly when the trimmed output
    contains the character [2]; otherwise it is [error] with the first 500
    characters of the output. *)
Theorem C5_output_without_limit_pattern
    (w : world) (cmd : list str) (code : Z) (out : str) :
  _run (probe_run w) cmd 30%Z = Ok (code, out) ->
  search _LIMIT_HIT out = false ->
  search _RESET_HINT out = false ->
  (contains_char (chr "2") (strip out) = true ->
   _probe_limit_via_claude w cmd = mk_limit_info (py "not_limited") (strip out))
  /\ (contains_char (chr "2") (strip out) = false ->
      _probe_limit_via_claude w cmd = mk_limit_info (py "error") (slice_to 500 out))
  /\ (l_type (_probe_limit_via_claude w cmd) = py "not_limited"
      <-> contains_char (chr "2") (strip out) = true).
Proof.
  intros Hrun Hl Hr. rewrite (probe_of_output _ _ _ _ Hrun).
  unfold classify_output. rewrite Hl, Hr. simpl orb. cbv iota.
  destruct (contains_char (chr "2") (strip out)); simpl.
  - repeat split; auto; discriminate.
  - repeat split; auto; discriminate.
Qed.

Lemma C5_output_without_limit_pattern_witness :
  (contains_char (chr "2") (strip (py "1+1 = 2")) = true ->
   _probe_limit_via_claude (probe_prints "1+1 = 2") default_test_cmd
   = mk_limit_info (py "not_limited") (strip (py "1+1 = 2")))
  /\ (contains_char (chr "2") (strip (py "1+1 = 2")) = false ->
      _probe_limit_via_claude (probe_prints "1+1 = 2") default_test_cmd
      = mk_limit_info (py "error") (slice_to 500 (py "1+1 = 2")))
  /\ (l_type (_probe_limit_via_claude (probe_prints "1+1 = 2") default_test_cmd)
      = py "not_limited"
      <-> contains_char (chr "2") (strip (py "1+1 = 2")) = true).
Proof.
  apply (C5_output_without_limit_pattern
           (probe_prints "1+1 = 2") default_test_cmd 0%Z (py "1+1 = 2"));
    reflexivity.
Defined.

(** C6.  An output that contains, in any letter case, [5 hour limit reached],
    [5-hour limit reached], either of them with [readched], or [rate limit],
    is classified [limit] with its first 500 characters as message, whatever
    else it contains. *)
Theorem C6_limit_phrase_is_limit_hit
    (w : world) (cmd : list str) (code : Z) (out : str) (phrase : string) :
  _run (probe_run w) cmd 30%Z = Ok (code, out) ->
  In phrase limit_phrases ->
  contains_any_case (py phrase) out = true ->
  _probe_limit_via_claude w cmd = mk_limit_info (py "limit") (slice_to 500 out).
Proof.
  intros Hrun Hin Hc. rewrite (probe_of_output _ _ _ _ Hrun).
  apply contains_spells in Hc as (u & Hu & Hs).
  apply (classify_limit_hit out u Hu).
  now apply (limit_phrase_matches phrase).
Qed.

Lemma C6_limit_phrase_is_limit_hit_witness :
  _probe_limit_via_claude (probe_prints "2: 5-Hour LIMIT Readched") default_test_cmd
  = mk_limit_info (py "limit") (slice_to 500 (py "2: 5-Hour LIMIT Readched")).
Proof.
  apply (C6_limit_phrase_is_limit_hit
           (probe_prints "2: 5-Hour LIMIT Readched") default_test_cmd 0%Z
           (py "2: 5-Hour LIMIT Readched") "5-hour limit readched").
  - reflexivity.
  - simpl. tauto.
  - reflexivity.
Defined.

(** C9.  An output in which [reset] or [resets], in any letter case, is
    followed by one more character that is not a line break is classified
    [limit]: the pattern asks for no [at], [on] or [in] after the word. *)
Theorem C9_reset_needs_no_preposition
    (w : world) (cmd : list str) (code : Z) (out pre k post : str) (c : char) :
  _run (probe_run w) cmd 30%Z = Ok (code, out) ->
  out = pre ++ k ++ c :: post ->
  spells (py "reset") k \/ spells (py "resets") k ->
  not_newline c = true ->
  _probe_limit_via_claude w cmd = mk_limit_info (py "limit") (slice_to 500 out).
Proof.
  intros Hrun -> Hk Hc. rewrite (probe_of_output _ _ _ _ Hrun).
  destruct Hk as [Hk | Hk].
  - apply (classify_reset_hint _ (k ++ [c])).
    + exists pre, post. now rewrite <- app_assoc.
    + now apply reset_hint_reset.
  - apply spells_resets in Hk as (k' & s & -> & Hk' & Hs).
    apply (classify_reset_hint _ (k' ++ [s])).
    + exists pre, (c :: post). reflexivity.
    + now apply reset_hint_reset.
Qed.

Lemma C9_reset_needs_no_preposition_witness :
  _probe_limit_via_claude (probe_prints "2 (quota Resets 5pm)") default_test_cmd
  = mk_limit_info (py "limit") (slice_to 500 (py "2 (quota Resets 5pm)")).
Proof.
  apply (C9_reset_needs_no_preposition
           (probe_prints "2 (quota Resets 5pm)") default_test_cmd 0%Z
           (py "2 (quota Resets 5pm)") (py "2 (quota ") (py "Resets") (py "5pm)")
           32%N).
  - reflexivity.
  - reflexivity.
  - right. repeat constructor.
  - reflexivity.
Defined.

(* ================================================================= *)
(** ** The steps of a successful request *)

Section Steps.

Variable L : library.

Local Open Scope Z_scope.

(** Every statement of [get_ccusage_status] after the probe, for a run that
    returns [r]: what it read, and what it computed from it. *)
Inductive steps (w : world) (cfg : plan_config) (test_cmd : list str) (r : report)
    : Prop :=
| Steps (raw : str) (data blocks block v_active models end_time burn v_cph : value)
    (cost tokens_used token_pct msg_pct seconds burn_rate cost_rate : float)
    (tokens_used_raw msgs minutes : Z) (t_reset : datetime) (delta : timedelta)
    (run_out : str)
    (Hrun : _run (usage_run w) usage_cmd 30 = Ok (0, raw))
    (Hdata : json_loads L raw = Ok data)
    (Hblocks : getitem data "blocks" = Ok blocks)
    (Hblock : getitem0 blocks = Ok block)
    (Hactive : get block "isActive" (VBool false) = Ok v_active)
    (Hcost : read_float L block "costUSD" = Ok cost)
    (Htokens : read_int L block "totalTokens" = Ok tokens_used_raw)
    (Hused : int_truediv tokens_used_raw 1000 = Ok tokens_used)
    (Hmsgs : read_int L block "entries" = Ok msgs)
    (Hmodels : get block "models" (VList []) = Ok models)
    (Htoken_pct :
       (if negb (token_limit cfg =? 0)
        then q <- float_div_int tokens_used (token_limit cfg) ;; Ok (q * 100)%float
        else Ok 0%float) = Ok token_pct)
    (Hmsg_pct :
       (if negb (message_limit cfg =? 0)
        then q <- int_truediv msgs (message_limit cfg) ;; Ok (q * 100)%float
        else Ok 0%float) = Ok msg_pct)
    (Hend : getitem block "endTime" = Ok end_time)
    (Hreset : _utc_from_iso8601 L end_time = Ok t_reset)
    (Hdelta : datetime_sub t_reset (mk_datetime (utc_now w) (Some 0)) = Ok delta)
    (Hseconds : total_seconds delta = Ok seconds)
    (Hminutes : int_floordiv seconds 60 = Ok minutes)
    (Hburn : get block "burnRate" (VDict []) = Ok burn)
    (Hrate : read_float L burn "tokensPerMinuteForIndicator" = Ok burn_rate)
    (Hcph : get burn "costPerHour" VNone = Ok v_cph)
    (Hcost_rate :
       (if truthy v_cph
        then f <- read_float L burn "costPerHour" ;; Ok (f / 60)%float
        else Ok 0%float) = Ok cost_rate)
    (Hrun_out :
       (if float_positive burn_rate
        then m <- number_div_float
                    (if negb (token_limit cfg =? 0)
                     then max_float_int 0 (token_limit cfg * 1000 - tokens_used_raw)
                     else NFloat 0)
                    burn_rate ;;
             d <- timedelta_of_minutes m ;;
             predict_time <- datetime_add (mk_datetime (utc_now w) (Some 0)) d ;;
             Ok (_fmt_utc predict_time)
        else Ok (py "N/A")) = Ok run_out)
    (Hreport :
       r = mk_report
             (_probe_limit_via_claude w test_cmd)
             (display_name cfg)
             (truthy v_active)
             models
             (mk_gauge cost (cost_limit cfg)
                (py_round (if float_truthy (cost_limit cfg)
                           then (cost / cost_limit cfg * 100)%float
                           else 0%float) 1))
             (mk_gauge tokens_used (token_limit cfg) (py_round token_pct 1))
             (mk_gauge msgs (message_limit cfg) (py_round msg_pct 1))
             (mk_time_to_reset (Z.max 0 minutes) (_fmt_utc t_reset))
             burn_rate
             (py_round cost_rate 4)
             (mk_predictions run_out (_fmt_utc t_reset))).

Ltac step H :=
  match type of H with
  | bind ?m _ = Ok _ =>
      let E := fresh "E" in
      destruct m eqn:E; [cbn [bind] in H | discriminate H]
  end.

Lemma status_of_config_steps (w : world) (cfg : plan_config) (test_cmd : list str)
    (r : report) :
  status_of_config L w cfg test_cmd = Ok r -> steps w cfg test_cmd r.
Proof.
  unfold status_of_config. cbv zeta. intros H.
  step H. destruct p as [code raw].
  destruct (code =? 0) eqn:Ecode; [cbn [negb] in H | discriminate H].
  apply Z.eqb_eq in Ecode. subst code.
  repeat step H.
  injection H as <-.
  now eapply Steps; eauto.
Qed.

Lemma steps_status_of_config (w : world) (cfg : plan_config) (test_cmd : list str)
    (r : report) :
  steps w cfg test_cmd r -> status_of_config L w cfg test_cmd = Ok r.
Proof.
  intros []. unfold status_of_config. cbv zeta.
  rewrite Hrun. cbn [bind negb Z.eqb]. cbv iota.
  rewrite Hdata; cbn [bind]. rewrite Hblocks; cbn [bind].
  rewrite Hblock; cbn [bind]. rewrite Hactive; cbn [bind].
  rewrite Hcost; cbn [bind]. rewrite Htokens; cbn [bind].
  rewrite Hused; cbn [bind]. rewrite Hmsgs; cbn [bind].
  rewrite Hmodels; cbn [bind]. rewrite Htoken_pct; cbn [bind].
  rewrite Hmsg_pct; cbn [bind]. rewrite Hend; cbn [bind].
  rewrite Hreset; cbn [bind]. rewrite Hdelta; cbn [bind].
  rewrite Hseconds; cbn [bind]. rewrite Hminutes; cbn [bind].
  rewrite Hburn; cbn [bind]. rewrite Hrate; cbn [bind].
  rewrite Hcph; cbn [bind]. rewrite Hcost_rate; cbn [bind].
  rewrite Hrun_out; cbn [bind].
  now subst r.
Qed.

End Steps.

(* ================================================================= *)
(** ** What a request reads *)

Section Readings.

Variable L : library.

(** The block a request works on: [json.loads(raw)["blocks"][0]]. *)
Definition usage_block (w : world) : result value :=
  ' (_, raw) <- _run (usage_run w) usage_cmd 30%Z ;;
  data <- json_loads L raw ;;
  blocks <- getitem data "blocks" ;;
  getitem0 blocks.

(** The instant [reset_at]: the parsed [endTime] of the block. *)
Definition parsed_end_time (w : world) : result datetime :=
  block <- usage_block w ;;
  end_time <- getitem block "endTime" ;;
  _utc_from_iso8601 L end_time.

(** [now_utc] *)
Definition now_utc (w : world) : datetime := mk_datetime (utc_now w) (Some 0%Z).

(** [(a - b).total_seconds()] *)
Definition seconds_between (a b : datetime) : result float :=
  d <- datetime_sub a b ;; total_seconds d.

Lemma usage_block_read (w : world) (code : Z) (raw : str) (data blocks block : value) :
  _run (usage_run w) usage_cmd 30%Z = Ok (code, raw) ->
  json_loads L raw = Ok data ->
  getitem data "blocks" = Ok blocks ->
  getitem0 blocks = Ok block ->
  usage_block w = Ok block.
Proof.
  intros Hrun Hdata Hblocks Hblock. unfold usage_block.
  rewrite Hrun; cbn [bind]. rewrite Hdata; cbn [bind].
  rewrite Hblocks; cbn [bind]. exact Hblock.
Qed.

Lemma parsed_end_time_read (w : world) (block end_time : value) (t : datetime) :
  usage_block w = Ok block ->
  getitem block "endTime" = Ok end_time ->
  _utc_from_iso8601 L end_time = Ok t ->
  parsed_end_time w = Ok t.
Proof.
  intros Hblock Hend Ht. unfold parsed_end_time.
  rewrite Hblock; cbn [bind]. rewrite Hend; cbn [bind]. exact Ht.
Qed.

End Readings.

(* ================================================================= *)
(** ** A request of the test suite *)

(** The JSON text of [_mock_ccusage_data()], and the value it parses to. *)
Definition quoted (s : string) : str := [34%N] ++ py s ++ [34%N].

Definition mock_raw : str :=
  py "{" ++ quoted "blocks" ++ py ": [{"
  ++ quoted "isActive" ++ py ": true, "
  ++ quoted "costUSD" ++ py ": 6.4, "
  ++ quoted "totalTokens" ++ py ": 15827, "
  ++ quoted "entries" ++ py ": 180, "
  ++ quoted "endTime" ++ py ": " ++ quoted "2025-08-23T14:00:00.000Z" ++ py ", "
  ++ quoted "burnRate" ++ py ": {"
  ++ quoted "tokensPerMinuteForIndicator" ++ py ": 128.9, "
  ++ quoted "costPerHour" ++ py ": 3.366}}]}".

Definition mock_block : value :=
  VDict [ (py "isActive", VBool true);
          (py "costUSD", VFloat 6.4);
          (py "totalTokens", VInt 15827);
          (py "entries", VInt 180);
          (py "endTime", VStr (py "2025-08-23T14:00:00.000Z"));
          (py "burnRate",
           VDict [ (py "tokensPerMinuteForIndicator", VFloat 128.9);
                   (py "costPerHour", VFloat 3.366) ]) ].

Definition mock_data : value := VDict [ (py "blocks", VList [mock_block]) ].

(** Two well-formed JSON texts without a usable block. *)
Definition empty_object_raw : str := py "{}".
Definition no_blocks_raw : str := py "{" ++ quoted "blocks" ++ py ": []}".

(** The parsers on the texts of the examples: [json.loads] on [mock_raw], on
    the two texts above and on text that is not JSON; [fromisoformat] on the
    end time of the block. *)
Definition mock_library : library :=
  mk_library
    (fun raw =>
       if str_eqb raw mock_raw then Ok mock_data
       else if str_eqb raw empty_object_raw then Ok (VDict [])
       else if str_eqb raw no_blocks_raw then Ok (VDict [ (py "blocks", VList []) ])
       else Raise (mk_exn JSONDecodeError (py "Expecting value: line 1 column 1 (char 0)")))
    (fun s =>
       if str_eqb s (py "2025-08-23T14:00:00.000+00:00")
       then Ok (datetime_of 2025 8 23 14 0 0 0 (Some 0%Z))
       else raise ValueError "Invalid isoformat string")
    (fun _ => raise ValueError "could not convert string to float")
    (fun _ => raise ValueError "invalid literal for int() with base 10").

(** The probe prints [probe_out], the usage command prints [usage_out] and
    exits with [code], and the clock reads 2025-08-23 12:30:15.5 UTC. *)
Definition mock_world (probe_out : string) (code : Z) (usage_out : str) : world :=
  mk_world (fun _ _ => Ok (mk_completed 0 (py probe_out) []))
           (fun _ _ => Ok (mk_completed code usage_out []))
           (wall (datetime_of 2025 8 23 12 30 15 500000 None)).

Definition Pro_config : plan_config := mk_plan_config 19000 18.0 250 (py "Pro").

(** [test_status_normal], but for [tokens.used], which the program reports in
    thousands (15.827) and the test expects in units (15827). *)
Example scenario_normal :
  status mock_library (mock_world "2" 0 mock_raw) (py "Pro")
  = Returned
      (mk_report
         (mk_limit_info (py "not_limited") (py "2"))
         (py "Pro") true (VList [])
         (mk_gauge 6.4%float 18%float 35.6%float)
         (mk_gauge 15.827%float 19000%Z 0.1%float)
         (mk_gauge 180%Z 250%Z 72%float)
         (mk_time_to_reset 89 (py "2025-08-23 14:00 UTC"))
         128.9%float 0.0561%float
         (mk_predictions (py "2025-12-03 19:08 UTC") (py "2025-08-23 14:00 UTC"))).
Proof. vm_compute. reflexivity. Qed.

(** [test_status_limit] and [test_ccusage_failure] *)
Example scenario_limit :
  match status mock_library (mock_world "5-hour limit reached" 0 mock_raw) (py "Pro") with
  | Returned r => l_type (r_limit r) = py "limit"
  | _ => False
  end.
Proof. vm_compute. reflexivity. Qed.

Example scenario_ccusage_failure :
  status mock_library (mock_world "2" 1 (py "ccusage error")) (py "Pro")
  = HTTPException 502 (py "ccusage failed: ccusage error").
Proof. vm_compute. reflexivity. Qed.

(* ================================================================= *)
(** ** The usage calculator against the specification *)

Section Calculator.

Variable L : library.

Local Open Scope Z_scope.

(** [int(block.get("totalTokens", 0))] of the block of the request *)
Definition total_tokens_read (w : world) : result Z :=
  block <- usage_block L w ;; read_int L block "totalTokens".

(** [block.get("burnRate", {})] of the block of the request *)
Definition burn_read (w : world) : result value :=
  block <- usage_block L w ;; get block "burnRate" (VDict []).

(** The specification's percentage of a group: [0.0] when the limit is 0,
    otherwise [round(used / limit * 100, 1)].  The three groups differ in the
    types of [used] and [limit], and so in the division. *)
Definition spec_percent_cost (used limit : float) : float :=
  if PrimFloat.eqb limit 0 then 0%float
  else py_round (used / limit * 100)%float 1.

Definition spec_percent_tokens (used : float) (limit : Z) : result float :=
  if limit =? 0 then Ok 0%float
  else q <- float_div_int used limit ;; Ok (py_round (q * 100)%float 1).

Definition spec_percent_messages (used limit : Z) : result float :=
  if limit =? 0 then Ok 0%float
  else q <- int_truediv used limit ;; Ok (py_round (q * 100)%float 1).

(** The specification's remaining minutes: the floor of a sixtieth of the
    seconds from [now] to [reset_at], and 0 when that is negative.  The seconds
    are those of [total_seconds()], the [float] nearest to the difference. *)
Definition spec_remaining_minutes (reset_at now : datetime) : result Z :=
  s <- seconds_between reset_at now ;;
  match float_value s with
  | Some v => Ok (Z.max 0 (Qfloor (v / inject_Z 60)))
  | None => raise ValueError "cannot convert float NaN to integer"
  end.


Lemma py_round_zero : py_round 0 1 = 0%float.
Proof. reflexivity. Qed.

Lemma float_of_int_zero : float_of_int 0 = Ok 0%float.
Proof. reflexivity. Qed.





(** Only a [dict] has [get], and it gives the item or the default. *)
Lemma get_is_dict (obj : value) (key : string) (default v : value) :
  get obj key default = Ok v ->
  exists items, obj = VDict items
                /\ v = match lookup (py key) items with Some x => x | None => default end.
Proof.
  destruct obj; try discriminate. simpl. intros H. injection H as <-. eauto.
Qed.

(** Zero divided by a positive [float], finite or not, is zero. *)
Lemma zero_div_positive (x : float) :
  float_positive x = true -> (0 / x)%float = 0%float.
Proof.
  unfold float_positive. rewrite FloatAxioms.ltb_spec. intros H.
  apply Prim2SF_inj. rewrite FloatAxioms.div_spec.
  change (Prim2SF 0) with (S754_zero false) in *.
  destruct (Prim2SF x) as [s | s | | s m e]; try destruct s; try discriminate H;
    reflexivity.
Qed.

(** Nothing is left of a quota that is used up. *)
Lemma remaining_of_exhausted (limit total : Z) :
  limit * 1000 <= total ->
  (if negb (limit =? 0) then max_float_int 0 (limit * 1000 - total) else NFloat 0)
  = NFloat 0.
Proof.
  intros H. destruct (negb (limit =? 0)); [ | reflexivity].
  unfold max_float_int. change (int_gt_float (limit * 1000 - total) 0)
    with (0 <? limit * 1000 - total).
  replace (0 <? limit * 1000 - total) with false; [reflexivity | ].
  symmetry. apply Z.ltb_ge. lia.
Qed.

End Calculator.

(* ================================================================= *)
(** ** Properties of the status report *)

(** The report of the request of the test suite. *)
Definition mock_report : report :=
  mk_report
    (mk_limit_info (py "not_limited") (py "2"))
    (py "Pro") true (VList [])
    (mk_gauge 6.4%float 18%float 35.6%float)
    (mk_gauge 15.827%float 19000%Z 0.1%float)
    (mk_gauge 180%Z 250%Z 72%float)
    (mk_time_to_reset 89 (py "2025-08-23 14:00 UTC"))
    128.9%float 0.0561%float
    (mk_predictions (py "2025-12-03 19:08 UTC") (py "2025-08-23 14:00 UTC")).

Lemma mock_status_of_config :
  status_of_config mock_library (mock_world "2" 0 mock_raw) Pro_config default_test_cmd
  = Ok mock_report.
Proof. vm_compute. reflexivity. Defined.

Lemma mock_get_ccusage_status :
  get_ccusage_status mock_library (mock_world "2" 0 mock_raw) (PlanStr (py "Pro"))
    default_test_cmd
  = Ok mock_report.
Proof. vm_compute. reflexivity. Defined.

Lemma get_ccusage_status_inv (L : library) (w : world) (plan : plan_arg)
    (test_cmd : list str) (r : report) :
  get_ccusage_status L w plan test_cmd = Ok r ->
  exists cfg, _normalize_plan plan = Ok cfg /\ status_of_config L w cfg test_cmd = Ok r.
Proof.
  unfold get_ccusage_status. destruct (_normalize_plan plan) as [cfg | e]; cbn [bind].
  - intros H. now exists cfg.
  - discriminate.
Qed.

Section ZeroLimits.

Variable L : library.

Local Open Scope Z_scope.

(** The current time is a [datetime]: its date lies in the years 1 to 9999. *)
Definition clock_is_datetime (w : world) : Prop :=
  1 <= utc_now w / us_per_day <= _MAXORDINAL.

(** [cfg'] is [cfg] with some of its limits set to zero. *)
Definition some_limits_zero (cfg cfg' : plan_config) : Prop :=
  (cost_limit cfg' = cost_limit cfg \/ PrimFloat.eqb (cost_limit cfg') 0 = true)
  /\ (token_limit cfg' = token_limit cfg \/ token_limit cfg' = 0)
  /\ (message_limit cfg' = message_limit cfg \/ message_limit cfg' = 0).

(** A limit of zero does not stop the projection: nothing is left, and the
    tokens run out now. *)
Lemma projection_without_limit (w : world) (total : Z) (burn_rate : float) :
  clock_is_datetime w ->
  exists run_out,
    (if float_positive burn_rate
     then m <- number_div_float
                 (if negb (0 =? 0)
                  then max_float_int 0 (0 * 1000 - total)
                  else NFloat 0)
                 burn_rate ;;
          d <- timedelta_of_minutes m ;;
          predict_time <- datetime_add (mk_datetime (utc_now w) (Some 0)) d ;;
          Ok (_fmt_utc predict_time)
     else Ok (py "N/A")) = Ok run_out.
Proof.
  intros Hclock. destruct (float_positive burn_rate) eqn:Hpos; [ | eauto].
  cbn [Z.eqb negb number_div_float bind]. rewrite (zero_div_positive _ Hpos).
  change (timedelta_of_minutes 0) with (Ok 0 : result timedelta). cbn [bind].
  unfold datetime_add. cbn [wall utcoffset]. rewrite Z.add_0_r.
  unfold clock_is_datetime in Hclock.
  replace ((1 <=? utc_now w / us_per_day) && (utc_now w / us_per_day <=? _MAXORDINAL))
    with true by (symmetry; apply andb_true_iff; split; apply Z.leb_le; lia).
  cbn [bind]. eauto.
Qed.

(** A request that returns a report returns one as well when some limits of
    the plan are zero, and then the percent fields of those limits are 0.0. *)
Lemma zero_limits_report (w : world) (cfg cfg' : plan_config) (test_cmd : list str)
    (r : report) :
  status_of_config L w cfg test_cmd = Ok r ->
  clock_is_datetime w ->
  some_limits_zero cfg cfg' ->
  exists r',
    status_of_config L w cfg' test_cmd = Ok r'
    /\ (PrimFloat.eqb (cost_limit cfg') 0 = true -> percent (r_cost r') = 0%float)
    /\ (token_limit cfg' = 0 -> percent (r_tokens r') = 0%float)
    /\ (message_limit cfg' = 0 -> percent (r_messages r') = 0%float).
Proof.
  intros H Hclock (Hc & Ht & Hm). apply status_of_config_steps in H. destruct H.
  assert (Htp : exists tp,
             (if negb (token_limit cfg' =? 0)
              then q <- float_div_int tokens_used (token_limit cfg') ;; Ok (q * 100)%float
              else Ok 0%float) = Ok tp
             /\ (token_limit cfg' = 0 -> tp = 0%float)).
  { destruct Ht as [E | E]; rewrite E.
    - exists token_pct. split; [exact Htoken_pct | ].
      intros E0. rewrite E0 in Htoken_pct. cbn in Htoken_pct. now injection Htoken_pct.
    - exists 0%float. split; reflexivity. }
  assert (Hmp : exists mp,
             (if negb (message_limit cfg' =? 0)
              then q <- int_truediv msgs (message_limit cfg') ;; Ok (q * 100)%float
              else Ok 0%float) = Ok mp
             /\ (message_limit cfg' = 0 -> mp = 0%float)).
  { destruct Hm as [E | E]; rewrite E.
    - exists msg_pct. split; [exact Hmsg_pct | ].
      intros E0. rewrite E0 in Hmsg_pct. cbn in Hmsg_pct. now injection Hmsg_pct.
    - exists 0%float. split; reflexivity. }
  assert (Hro : exists run_out',
             (if float_positive burn_rate
              then m <- number_div_float
                          (if negb (token_limit cfg' =? 0)
                           then max_float_int 0 (token_limit cfg' * 1000 - tokens_used_raw)
                           else NFloat 0)
                          burn_rate ;;
                   d <- timedelta_of_minutes m ;;
                   predict_time <- datetime_add (mk_datetime (utc_now w) (Some 0)) d ;;
                   Ok (_fmt_utc predict_time)
              else Ok (py "N/A")) = Ok run_out').
  { destruct Ht as [E | E]; rewrite E.
    - exists run_out. exact Hrun_out.
    - now apply projection_without_limit. }
  destruct Htp as (tp & Htp & Htp0). destruct Hmp as (mp & Hmp & Hmp0).
  destruct Hro as (run_out' & Hro).
  eexists. split.
  - apply steps_status_of_config.
    now apply (Steps L w cfg' test_cmd _ raw data blocks block v_active models
                 end_time burn v_cph cost tokens_used tp mp seconds burn_rate cost_rate
                 tokens_used_raw msgs minutes t_reset delta run_out').
  - cbn [r_cost r_tokens r_messages percent]. split; [ | split].
    + intros E. unfold float_truthy. rewrite E. reflexivity.
    + intros E. now rewrite (Htp0 E).
    + intros E. now rewrite (Hmp0 E).
Qed.

End ZeroLimits.

(** C2.  In the report, the limits are those of the plan, the tokens used are
    the total tokens divided by 1000, and each of the three percent fields is
    exactly [0.0] when its limit is 0 and [round(used / limit * 100, 1)]
    otherwise; for every plan configuration and every usage block.  A limit of
    0 is no obstacle: a request that returns a report for one configuration
    returns a report for every configuration that differs from it in limits
    set to 0, with [0.0] in the percent fields of those limits. *)
Theorem C2_percent_fields
    (L : library) (w : world) (cfg : plan_config) (test_cmd : list str) (r : report) :
  status_of_config L w cfg test_cmd = Ok r ->
  limit (r_cost r) = cost_limit cfg
  /\ limit (r_tokens r) = token_limit cfg
  /\ limit (r_messages r) = message_limit cfg
  /\ (exists total, total_tokens_read L w = Ok total
                    /\ int_truediv total 1000 = Ok (used (r_tokens r)))
  /\ percent (r_cost r) = spec_percent_cost (used (r_cost r)) (limit (r_cost r))
  /\ Ok (percent (r_tokens r))
     = spec_percent_tokens (used (r_tokens r)) (limit (r_tokens r))
  /\ Ok (percent (r_messages r))
     = spec_percent_messages (used (r_messages r)) (limit (r_messages r))
  /\ (clock_is_datetime w ->
      forall cfg', some_limits_zero cfg cfg' ->
        exists r',
          status_of_config L w cfg' test_cmd = Ok r'
          /\ (PrimFloat.eqb (cost_limit cfg') 0 = true -> percent (r_cost r') = 0%float)
          /\ (token_limit cfg' = 0%Z -> percent (r_tokens r') = 0%float)
          /\ (message_limit cfg' = 0%Z -> percent (r_messages r') = 0%float)).
Proof.
  intros H.
  assert (Hz : clock_is_datetime w ->
               forall cfg', some_limits_zero cfg cfg' ->
                 exists r',
                   status_of_config L w cfg' test_cmd = Ok r'
                   /\ (PrimFloat.eqb (cost_limit cfg') 0 = true ->
                       percent (r_cost r') = 0%float)
                   /\ (token_limit cfg' = 0%Z -> percent (r_tokens r') = 0%float)
                   /\ (message_limit cfg' = 0%Z -> percent (r_messages r') = 0%float)).
  { intros Hclock cfg' Hcfg'. now apply (zero_limits_report L w cfg cfg' test_cmd r). }
  apply status_of_config_steps in H. destruct H. subst r.
  cbn [r_cost r_tokens r_messages used limit percent].
  split; [reflexivity | split; [reflexivity | split; [reflexivity | ]]].
  split.
  { exists tokens_used_raw. split; [ | assumption].
    unfold total_tokens_read.
    rewrite (usage_block_read L w 0 raw data blocks block) by assumption.
    assumption. }
  split.
  { unfold spec_percent_cost, float_truthy.
    destruct (PrimFloat.eqb (cost_limit cfg) 0); reflexivity. }
  split.
  { unfold spec_percent_tokens. destruct (token_limit cfg =? 0)%Z; cbn in Htoken_pct.
    + injection Htoken_pct as <-. reflexivity.
    + destruct (float_div_int tokens_used (token_limit cfg)); cbn in *;
        [injection Htoken_pct as <-; reflexivity | discriminate]. }
  split.
  - unfold spec_percent_messages. destruct (message_limit cfg =? 0)%Z; cbn in Hmsg_pct.
    + injection Hmsg_pct as <-. reflexivity.
    + destruct (int_truediv msgs (message_limit cfg)); cbn in *;
        [injection Hmsg_pct as <-; reflexivity | discriminate].
  - exact Hz.
Qed.

Lemma C2_percent_fields_witness :
  limit (r_cost mock_report) = cost_limit Pro_config
  /\ limit (r_tokens mock_report) = token_limit Pro_config
  /\ limit (r_messages mock_report) = message_limit Pro_config
  /\ (exists total, total_tokens_read mock_library (mock_world "2" 0 mock_raw) = Ok total
                    /\ int_truediv total 1000 = Ok (used (r_tokens mock_report)))
  /\ percent (r_cost mock_report)
     = spec_percent_cost (used (r_cost mock_report)) (limit (r_cost mock_report))
  /\ Ok (percent (r_tokens mock_report))
     = spec_percent_tokens (used (r_tokens mock_report)) (limit (r_tokens mock_report))
  /\ Ok (percent (r_messages mock_report))
     = spec_percent_messages (used (r_messages mock_report))
         (limit (r_messages mock_report))
  /\ (exists r',
        status_of_config mock_library (mock_world "2" 0 mock_raw)
          (mk_plan_config 0 0 0 (py "Pro")) default_test_cmd = Ok r'
        /\ percent (r_cost r') = 0%float
        /\ percent (r_tokens r') = 0%float
        /\ percent (r_messages r') = 0%float).
Proof.
  destruct (C2_percent_fields mock_library (mock_world "2" 0 mock_raw) Pro_config
              default_test_cmd mock_report mock_status_of_config)
    as (H1 & H2 & H3 & H4 & H5 & H6 & H7 & H8).
  split; [exact H1 | split; [exact H2 | split; [exact H3 | split; [exact H4 | ]]]].
  split; [exact H5 | split; [exact H6 | split; [exact H7 | ]]].
  destruct (H8 ltac:(split; vm_compute; discriminate)
              (mk_plan_config 0 0 0 (py "Pro"))
              (conj (or_intror eq_refl) (conj (or_intror eq_refl) (or_intror eq_refl))))
    as (r' & Hr' & Hc & Ht & Hm).
  exists r'. split; [exact Hr' | ].
  split; [apply Hc; reflexivity | split; [apply Ht; reflexivity | apply Hm; reflexivity]].
Defined.

(** A configuration whose limits are all 0 reports [0.0] in the three fields. *)
Example percent_of_zero_limits :
  match status_of_config mock_library (mock_world "2" 0 mock_raw)
          (mk_plan_config 0 0 0 (py "Free")) default_test_cmd with
  | Ok r => percent (r_cost r) = 0%float /\ percent (r_tokens r) = 0%float
            /\ percent (r_messages r) = 0%float
  | Raise _ => False
  end.
Proof. vm_compute. repeat split. Qed.



(** An end time in the past leaves 0 minutes. *)
Example remaining_minutes_in_the_past :
  spec_remaining_minutes (datetime_of 2025 8 23 12 30 15 499999 (Some 0%Z))
    (now_utc (mock_world "2" 0 mock_raw)) = Ok 0%Z
  /\ spec_remaining_minutes (datetime_of 2020 1 1 0 0 0 0 (Some 0%Z))
       (now_utc (mock_world "2" 0 mock_raw)) = Ok 0%Z.
Proof. split; vm_compute; reflexivity. Qed.

(** C10.  In a report, [predictions.limit_resets_at] is the same string as
    [time_to_reset.reset_at]: the parsed end time in the fixed format. *)
Theorem C10_limit_resets_at_is_reset_at
    (L : library) (w : world) (plan : plan_arg) (test_cmd : list str) (r : report) :
  get_ccusage_status L w plan test_cmd = Ok r ->
  limit_resets_at (r_predictions r) = reset_at (r_time_to_reset r)
  /\ exists reset : datetime,
       parsed_end_time L w = Ok reset
       /\ reset_at (r_time_to_reset r) = _fmt_utc reset.
Proof.
  intros H. apply get_ccusage_status_inv in H as (cfg & _ & H).
  apply status_of_config_steps in H. destruct H. subst r. cbn.
  split; [reflexivity | ]. exists t_reset. split; [ | reflexivity].
  apply (parsed_end_time_read L w block end_time); try assumption.
  now apply (usage_block_read L w 0%Z raw data blocks).
Qed.

Lemma C10_limit_resets_at_is_reset_at_witness :
  limit_resets_at (r_predictions mock_report) = reset_at (r_time_to_reset mock_report)
  /\ exists reset : datetime,
       parsed_end_time mock_library (mock_world "2" 0 mock_raw) = Ok reset
       /\ reset_at (r_time_to_reset mock_report) = _fmt_utc reset.
Proof.
  exact (C10_limit_resets_at_is_reset_at mock_library (mock_world "2" 0 mock_raw)
           (PlanStr (py "Pro")) default_test_cmd mock_report mock_get_ccusage_status).
Defined.

Section Projection.

Local Open Scope Z_scope.




End Projection.

Section IdleBlocks.

Variable L : library.








(** The library whose [json.loads] finds the one block [b] in the usage
    text; the other parsers are those of [L]. *)
Definition with_block (b : value) : library :=
  mk_library (fun _ => Ok (VDict [ (py "blocks", VList [b]) ]))
    (fromisoformat L) (float_of_str L) (int_of_str L).





End IdleBlocks.



(** A block without [burnRate] reports the sentinel. *)
Example run_out_without_burn_rate :
  let L := mk_library
             (fun _ => Ok (VDict [ (py "blocks",
                                    VList [VDict [ (py "endTime",
                                                    VStr (py "2025-08-23T14:00:00.000Z")) ]]) ]))
             (fromisoformat mock_library) (float_of_str mock_library)
             (int_of_str mock_library) in
  match get_ccusage_status L (mock_world "2" 0 mock_raw) (PlanStr (py "Max5"))
          default_test_cmd with
  | Ok r => tokens_will_run_out (r_predictions r) = py "N/A"
  | Raise _ => False
  end.
Proof. vm_compute. reflexivity. Qed.

(* ================================================================= *)
(** ** Failures of the probe and of the usage fetch *)

Section Failures.

Variable L : library.

Local Open Scope Z_scope.

(** The same request with another outcome of the probe. *)
Definition with_probe (w : world) (p : runner) : world :=
  mk_world p (usage_run w) (utc_now w).

(** The same report with another [limit]. *)
Definition with_limit (r : report) (i : limit_info) : report :=
  mk_report i (r_plan r) (r_active r) (r_models r) (r_cost r) (r_tokens r)
    (r_messages r) (r_time_to_reset r) (r_burn_rate r) (r_cost_rate r)
    (r_predictions r).

(** The probe fails: running the command raises, or its output has neither a
    limit pattern nor the expected [2]. *)
Definition probe_failed (p : runner) (cmd : list str) : bool :=
  match _run p cmd 30 with
  | Raise _ => true
  | Ok (_, out) =>
      negb (search _LIMIT_HIT out || search _RESET_HINT out)
      && negb (contains_char (chr "2") (strip out))
  end.

(** The probe decides the [limit] of the report and nothing else. *)
Lemma status_of_config_with_probe (w : world) (p : runner) (cfg : plan_config)
    (test_cmd : list str) :
  status_of_config L (with_probe w p) cfg test_cmd
  = match status_of_config L w cfg test_cmd with
    | Ok r => Ok (with_limit r (_probe_limit_via_claude (with_probe w p) test_cmd))
    | Raise e => Raise e
    end.
Proof.
  destruct (status_of_config L w cfg test_cmd) as [r | e] eqn:E.
  - apply status_of_config_steps in E. destruct E.
    apply steps_status_of_config. subst r.
    now eapply Steps; cbn [with_probe usage_run utc_now]; eauto.
  - revert E. unfold status_of_config. cbv zeta. cbn [with_probe usage_run utc_now].
    destruct (_run (usage_run w) usage_cmd 30) as [[code raw] | e0]; cbn [bind];
      [ | trivial].
    destruct (negb (code =? 0)); [trivial | ].
    repeat match goal with
           | |- bind ?m _ = Raise _ -> bind ?m _ = Raise _ =>
               destruct m; cbn [bind]; [ | trivial]
           end.
    discriminate.
Qed.

Lemma status_with_probe (w : world) (p : runner) (plan : str) :
  status L (with_probe w p) plan
  = match status L w plan with
    | Returned r =>
        Returned (with_limit r (_probe_limit_via_claude (with_probe w p) default_test_cmd))
    | other => other
    end.
Proof.
  unfold status, get_ccusage_status.
  destruct (_normalize_plan (PlanStr plan)) as [cfg | e]; cbn [bind].
  - rewrite status_of_config_with_probe.
    destruct (status_of_config L w cfg default_test_cmd) as [r | e]; [reflexivity | ].
    destruct (is_ValueError (exn_class e)); [reflexivity | ].
    destruct (is_RuntimeError (exn_class e)); reflexivity.
  - destruct (is_ValueError (exn_class e)); [reflexivity | ].
    destruct (is_RuntimeError (exn_class e)); reflexivity.
Qed.

Lemma probe_failed_is_error (w : world) (p : runner) (cmd : list str) :
  probe_failed p cmd = true ->
  l_type (_probe_limit_via_claude (with_probe w p) cmd) = py "error".
Proof.
  unfold probe_failed, _probe_limit_via_claude. cbn [with_probe probe_run].
  destruct (_run p cmd 30) as [[code out] | e]; [ | reflexivity].
  intros H. apply andb_true_iff in H as [H1 H2].
  unfold classify_output.
  apply negb_true_iff in H1. rewrite H1. rewrite H2. reflexivity.
Qed.

(** The usage command printed text that is not JSON, or JSON without a
    non-empty list under [blocks]. *)
Definition malformed (raw : str) : bool :=
  match json_loads L raw with
  | Raise e => match exn_class e with JSONDecodeError => true | _ => false end
  | Ok (VDict items) =>
      match lookup (py "blocks") items with
      | Some (VList (_ :: _)) => false
      | _ => true
      end
  | Ok _ => true
  end.

End Failures.

Section ProbeText.

(** What is part of a text stays part of it when it is stripped or cut. *)
Lemma In_lstrip (c : char) (s : str) : In c (lstrip s) -> In c s.
Proof.
  induction s as [|x s IH]; [trivial | ]. simpl.
  destruct (isspace x); [right; now apply IH | trivial].
Qed.

Lemma In_strip (c : char) (s : str) : In c (strip s) -> In c s.
Proof.
  unfold strip, rstrip. intros H. apply In_lstrip.
  apply in_rev in H. apply In_lstrip in H. now apply in_rev.
Qed.

Lemma In_slice_to (c : char) (n : nat) (s : str) : In c (slice_to n s) -> In c s.
Proof.
  unfold slice_to. revert s. induction n as [|n IH]; intros [|x s]; simpl; try tauto.
  intros [H | H]; [now left | right; now apply IH].
Qed.

Lemma encodable_strip (s : str) : encodable s = true -> encodable (strip s) = true.
Proof.
  unfold encodable. rewrite !forallb_forall. intros H c Hc.
  apply H. now apply In_strip.
Qed.

Lemma encodable_slice_to (n : nat) (s : str) :
  encodable s = true -> encodable (slice_to n s) = true.
Proof.
  unfold encodable. rewrite !forallb_forall. intros H c Hc.
  apply H. now apply (In_slice_to c n).
Qed.

Lemma encodable_app (s t : str) :
  encodable (s ++ t) = encodable s && encodable t.
Proof. apply forallb_app. Qed.

(** The text the probe hands over is Unicode text, without surrogate code
    points: what the command printed, which [subprocess.run] decodes strictly,
    or the description of the failure to run it. *)
Definition probe_text (p : runner) (cmd : list str) : bool :=
  match p cmd 30%Z with
  | Ok done => encodable (stdout done) && encodable (stderr done)
  | Raise e => encodable (exn_str e)
  end.

Lemma classify_output_encodable (out : str) :
  encodable out = true ->
  encodable (l_type (classify_output out)) = true
  /\ encodable (l_message (classify_output out)) = true.
Proof.
  intros H. unfold classify_output.
  destruct (_ || _); [ | destruct (negb _)]; cbn [l_type l_message];
    (split; [reflexivity | ]);
    first [now apply encodable_slice_to | now apply encodable_strip].
Qed.

(** The limit information of such a probe can be written as JSON. *)
Lemma probe_text_encodable (w : world) (p : runner) (cmd : list str) :
  probe_text p cmd = true ->
  encodable (l_type (_probe_limit_via_claude (with_probe w p) cmd)) = true
  /\ encodable (l_message (_probe_limit_via_claude (with_probe w p) cmd)) = true.
Proof.
  unfold probe_text, _probe_limit_via_claude, _run. cbn [with_probe probe_run].
  destruct (p cmd 30%Z) as [done | e]; cbn [bind]; [ | intros H; now split].
  intros H. apply andb_true_iff in H as [Ho He].
  apply classify_output_encodable, encodable_strip.
  rewrite encodable_app, Ho.
  destruct (nonempty (stderr done)); [ | reflexivity].
  rewrite encodable_app, He. reflexivity.
Qed.

(** Only the limit information of a body depends on the probe. *)
Lemma with_limit_answer (r : report) (i : limit_info) :
  StatusResponse_accepts r && renders r = true ->
  encodable (l_type i) = true -> encodable (l_message i) = true ->
  StatusResponse_accepts (with_limit r i) && renders (with_limit r i) = true.
Proof.
  unfold StatusResponse_accepts, renders, with_limit.
  cbn [r_limit r_plan r_models r_cost r_tokens r_messages r_time_to_reset
       r_burn_rate r_cost_rate r_predictions].
  intros H Ht Hm. rewrite Ht, Hm.
  repeat match goal with
         | H : _ && _ = true |- _ => apply andb_true_iff in H as [? ?]
         end.
  repeat (apply andb_true_iff; split); solve [assumption | reflexivity].
Qed.

End ProbeText.

(** C8.  Whatever the probe does, a request that the usage side lets succeed
    returns the same report but for [limit]; when the probe fails (the
    command raises, or prints unexpected output) the body carries
    [limit.type = "error"].  A request that is answered 200 is answered 200
    whatever the probe does, its text being Unicode text. *)
Theorem C8_probe_failure_is_not_fatal
    (L : library) (w : world) (p : runner) (plan : str) (r : report) :
  status L w plan = Returned r ->
  let w' := with_probe w p in
  let r' := with_limit r (_probe_limit_via_claude w' default_test_cmd) in
  get_ccusage_status L w' (PlanStr plan) default_test_cmd = Ok r'
  /\ status L w' plan = Returned r'
  /\ (status_code (status L w plan) = 200%Z ->
      probe_text p default_test_cmd = true ->
      status_code (status L w' plan) = 200%Z)
  /\ (probe_failed p default_test_cmd = true -> l_type (r_limit r') = py "error").
Proof.
  intros H w' r'.
  assert (Hs : status L w' plan = Returned r').
  { unfold w'. rewrite status_with_probe, H. reflexivity. }
  split; [ | split; [exact Hs | split]].
  - revert Hs. unfold status.
    destruct (get_ccusage_status L w' (PlanStr plan) default_test_cmd) as [r0 | e].
    + intros Hs. injection Hs as ->. reflexivity.
    + destruct (is_ValueError (exn_class e)); [discriminate | ].
      destruct (is_RuntimeError (exn_class e)); discriminate.
  - rewrite Hs, H. cbn [status_code]. intros H200 Htext.
    destruct (StatusResponse_accepts r && renders r) eqn:Hr; [ | discriminate H200].
    destruct (probe_text_encodable w p default_test_cmd Htext) as [Ht Hm].
    unfold r'. fold w' in Ht, Hm. now rewrite (with_limit_answer r _ Hr Ht Hm).
  - intros Hf. unfold r'. cbn [with_limit r_limit].
    now apply probe_failed_is_error.
Qed.

(** The probe of the examples times out. *)
Definition probe_timeout : runner :=
  fun _ _ => Raise (mk_exn TimeoutExpired (py "Command timed out after 30 seconds")).

Lemma C8_probe_failure_is_not_fatal_witness :
  let w' := with_probe (mock_world "2" 0 mock_raw) probe_timeout in
  let r' := with_limit mock_report (_probe_limit_via_claude w' default_test_cmd) in
  get_ccusage_status mock_library w' (PlanStr (py "Pro")) default_test_cmd = Ok r'
  /\ status mock_library w' (py "Pro") = Returned r'
  /\ status_code (status mock_library w' (py "Pro")) = 200%Z
  /\ l_type (r_limit r') = py "error".
Proof.
  destruct (C8_probe_failure_is_not_fatal mock_library (mock_world "2" 0 mock_raw)
              probe_timeout (py "Pro") mock_report eq_refl)
    as (H1 & H2 & H3 & H4).
  split; [exact H1 | split; [exact H2 | split]].
  - apply H3; reflexivity.
  - apply H4; reflexivity.
Defined.

(** The request of the test suite is answered 200, also when its probe times
    out; a block whose [models] is [null] gives a body that the response model
    rejects, and the request is answered 500. *)
Example answered_200_and_500 :
  status_code (status mock_library (mock_world "2" 0 mock_raw) (py "Pro")) = 200%Z
  /\ status_code
       (status mock_library (with_probe (mock_world "2" 0 mock_raw) probe_timeout)
          (py "Pro")) = 200%Z
  /\ (let L := with_block mock_library
                 (VDict [ (py "models", VNone);
                          (py "endTime", VStr (py "2025-08-23T14:00:00.000Z")) ]) in
      (exists r, status L (mock_world "2" 0 mock_raw) (py "Pro") = Returned r
                 /\ r_models r = VNone)
      /\ status_code (status L (mock_world "2" 0 mock_raw) (py "Pro")) = 500%Z).
Proof.
  split; [vm_compute; reflexivity | split; [vm_compute; reflexivity | ]].
  cbv zeta. split; [eexists; split; vm_compute; reflexivity | vm_compute; reflexivity].
Qed.

(** A probe that prints text without the expected [2] fails as well, and the
    request is still answered 200. *)
Example unexpected_probe_output :
  probe_failed (probe_run (mock_world "command not found" 0 mock_raw)) default_test_cmd
  = true
  /\ match status mock_library (mock_world "command not found" 0 mock_raw) (py "Pro") with
     | Returned r => r_limit r = mk_limit_info (py "error") (py "command not found")
     | _ => False
     end.
Proof. split; vm_compute; reflexivity. Qed.

(** C1, as the code behaves.  When the usage command exits with 0 and prints
    text that is not JSON, the [JSONDecodeError] of [json.loads] is a
    [ValueError], and the handler answers 400 with its message; when the text
    is JSON without a non-empty list under [blocks], the handler catches
    nothing and the request ends in an unhandled exception.  It is never
    answered 502. *)
Theorem C1_malformed_output_is_not_502
    (L : library) (w : world) (plan : str) (cfg : plan_config) (raw : str) :
  _normalize_plan (PlanStr plan) = Ok cfg ->
  _run (usage_run w) usage_cmd 30%Z = Ok (0%Z, raw) ->
  malformed L raw = true ->
  status_code (status L w plan) <> 502%Z
  /\ match json_loads L raw with
     | Raise e => status L w plan = HTTPException 400 (exn_str e)
     | Ok _ => exists e, status L w plan = Unhandled e
     end.
Proof.
  intros Hcfg Hrun Hm. unfold status, get_ccusage_status.
  rewrite Hcfg. cbn [bind]. unfold status_of_config. cbv zeta.
  rewrite Hrun. cbn [bind negb Z.eqb]. cbv iota.
  unfold malformed in Hm.
  destruct (json_loads L raw) as [data | e]; cbn [bind].
  - destruct data as [ | b | n | f | s | l | items];
      try (cbn; split; [discriminate | eauto]).
    unfold getitem.
    destruct (lookup (py "blocks") items) as [blocks | ]; cbn [bind];
      [ | cbn; split; [discriminate | eauto]].
    destruct blocks as [ | b | n | f | s | l | items'];
      try (cbn; split; [discriminate | eauto]).
    + destruct s as [ | c s]; cbn; split; first [discriminate | eauto].
    + destruct l as [ | x l]; [ | discriminate Hm].
      cbn; split; [discriminate | eauto].
  - destruct (exn_class e); try discriminate Hm.
    cbn. split; [discriminate | reflexivity].
Qed.

Lemma C1_malformed_output_is_not_502_witness :
  status_code (status mock_library (mock_world "2" 0 (py "not json")) (py "Pro")) <> 502%Z
  /\ match json_loads mock_library (py "not json") with
     | Raise e =>
         status mock_library (mock_world "2" 0 (py "not json")) (py "Pro")
         = HTTPException 400 (exn_str e)
     | Ok _ =>
         exists e,
           status mock_library (mock_world "2" 0 (py "not json")) (py "Pro") = Unhandled e
     end.
Proof.
  apply (C1_malformed_output_is_not_502 mock_library
           (mock_world "2" 0 (py "not json")) (py "Pro") Pro_config (py "not json"));
    reflexivity.
Defined.

(** The three kinds of malformed output, on the texts of the examples. *)
Example malformed_outputs :
  status mock_library (mock_world "2" 0 (py "not json")) (py "Pro")
  = HTTPException 400 (py "Expecting value: line 1 column 1 (char 0)")
  /\ status mock_library (mock_world "2" 0 empty_object_raw) (py "Pro")
     = Unhandled (mk_exn KeyError (py "'blocks'"))
  /\ status mock_library (mock_world "2" 0 no_blocks_raw) (py "Pro")
     = Unhandled (mk_exn IndexError (py "list index out of range")).
Proof. repeat split; vm_compute; reflexivity. Qed.

(* ================================================================= *)
(** ** Further properties of the endpoint *)

(** X1.  The plan resolver: the three display names give their static
    configuration; any other string fails with [ValueError], which the
    endpoint answers with 400 and the message, whatever the commands do. *)
Theorem plan_resolver (L : library) (w : world) (plan : str) :
  _normalize_plan (PlanStr (py "Pro"))
  = Ok (mk_plan_config 19000 18.0 250 (py "Pro"))
  /\ _normalize_plan (PlanStr (py "Max5"))
     = Ok (mk_plan_config 88000 35.0 1000 (py "Max5"))
  /\ _normalize_plan (PlanStr (py "Max20"))
     = Ok (mk_plan_config 220000 140.0 2000 (py "Max20"))
  /\ (plan <> py "Pro" -> plan <> py "Max5" -> plan <> py "Max20" ->
      _normalize_plan (PlanStr plan)
      = Raise (mk_exn ValueError (py "Unknown plan: " ++ plan))
      /\ status L w plan = HTTPException 400 (py "Unknown plan: " ++ plan)).
Proof.
  split; [reflexivity | split; [reflexivity | split; [reflexivity | ]]].
  intros H1 H2 H3.
  assert (E : _normalize_plan (PlanStr plan)
              = Raise (mk_exn ValueError (py "Unknown plan: " ++ plan))).
  { unfold _normalize_plan, PLAN_CONFIG. cbn [config_lookup].
    destruct (str_eqb plan (py "Pro")) eqn:E1;
      [apply str_eqb_eq in E1; contradiction | ].
    destruct (str_eqb plan (py "Max5")) eqn:E2;
      [apply str_eqb_eq in E2; contradiction | ].
    destruct (str_eqb plan (py "Max20")) eqn:E3;
      [apply str_eqb_eq in E3; contradiction | ].
    reflexivity. }
  split; [exact E | ].
  unfold status, get_ccusage_status. rewrite E. reflexivity.
Qed.

Lemma plan_resolver_witness :
  _normalize_plan (PlanStr (py "Team"))
  = Raise (mk_exn ValueError (py "Unknown plan: " ++ py "Team"))
  /\ status mock_library (mock_world "2" 0 mock_raw) (py "Team")
     = HTTPException 400 (py "Unknown plan: " ++ py "Team").
Proof.
  apply (plan_resolver mock_library (mock_world "2" 0 mock_raw) (py "Team"));
    discriminate.
Defined.

(** X2.  When the usage command exits with another code than 0, the request
    is answered 502 and the detail holds the first 200 characters of its
    output. *)
Theorem nonzero_exit_is_502
    (L : library) (w : world) (plan : str) (cfg : plan_config) (code : Z) (raw : str) :
  _normalize_plan (PlanStr plan) = Ok cfg ->
  _run (usage_run w) usage_cmd 30%Z = Ok (code, raw) ->
  code <> 0%Z ->
  status L w plan = HTTPException 502 (py "ccusage failed: " ++ slice_to 200 raw).
Proof.
  intros Hcfg Hrun Hcode. unfold status, get_ccusage_status.
  rewrite Hcfg. cbn [bind]. unfold status_of_config. cbv zeta.
  rewrite Hrun. cbn [bind].
  apply Z.eqb_neq in Hcode. rewrite Hcode. reflexivity.
Qed.

Lemma nonzero_exit_is_502_witness :
  status mock_library (mock_world "2" 1 (py "ccusage error")) (py "Pro")
  = HTTPException 502 (py "ccusage failed: " ++ slice_to 200 (py "ccusage error")).
Proof.
  apply (nonzero_exit_is_502 mock_library (mock_world "2" 1 (py "ccusage error"))
           (py "Pro") Pro_config 1%Z (py "ccusage error"));
    [reflexivity | reflexivity | discriminate].
Defined.

(** X3.  The cost rate is [round(costPerHour / 60.0, 4)] when the block has a
    [costPerHour] that is true, and [0.0] otherwise. *)
Theorem cost_rate_per_minute
    (L : library) (w : world) (cfg : plan_config) (test_cmd : list str) (r : report) :
  status_of_config L w cfg test_cmd = Ok r ->
  exists (burn v_cph : value),
    burn_read L w = Ok burn
    /\ get burn "costPerHour" VNone = Ok v_cph
    /\ (truthy v_cph = false -> r_cost_rate r = 0%float)
    /\ (truthy v_cph = true ->
        exists f, read_float L burn "costPerHour" = Ok f
                  /\ r_cost_rate r = py_round (f / 60)%float 4).
Proof.
  intros H. apply status_of_config_steps in H. destruct H. subst r. cbn.
  exists burn, v_cph.
  split.
  { unfold burn_read.
    now rewrite (usage_block_read L w 0%Z raw data blocks block). }
  split; [assumption | ].
  split; intros Ht; rewrite Ht in Hcost_rate.
  - injection Hcost_rate as <-. reflexivity.
  - destruct (read_float L burn "costPerHour") as [f | ]; cbn [bind] in Hcost_rate;
      [ | discriminate].
    injection Hcost_rate as <-. exists f. split; reflexivity.
Qed.

Lemma cost_rate_per_minute_witness :
  exists (burn v_cph : value),
    burn_read mock_library (mock_world "2" 0 mock_raw) = Ok burn
    /\ get burn "costPerHour" VNone = Ok v_cph
    /\ (truthy v_cph = false -> r_cost_rate mock_report = 0%float)
    /\ (truthy v_cph = true ->
        exists f, read_float mock_library burn "costPerHour" = Ok f
                  /\ r_cost_rate mock_report = py_round (f / 60)%float 4).
Proof.
  exact (cost_rate_per_minute mock_library (mock_world "2" 0 mock_raw) Pro_config
           default_test_cmd mock_report mock_status_of_config).
Defined.

(* ================================================================= *)
(** ** What a command prints: [_run] *)

Section Trimming.

(** Every character of [s] is white space. *)
Definition blank (s : str) : bool := forallb isspace s.

(** [s] neither starts nor ends with white space. *)
Definition trimmed (s : str) : Prop :=
  (forall c t, s = c :: t -> isspace c = false)
  /\ (forall t c, s = t ++ [c] -> isspace c = false).

Lemma lstrip_spec (s : str) :
  exists a, s = a ++ lstrip s /\ blank a = true
            /\ forall c t, lstrip s = c :: t -> isspace c = false.
Proof.
  induction s as [|x s (a & E & Ha & Hh)]; simpl.
  - exists []. repeat split. discriminate.
  - destruct (isspace x) eqn:Hx.
    + exists (x :: a). simpl. rewrite Hx, Ha. repeat split; [congruence | assumption].
    + exists []. repeat split. intros c t H. now injection H as <- <-.
Qed.

Lemma lstrip_fixed (s : str) :
  (forall c t, s = c :: t -> isspace c = false) -> lstrip s = s.
Proof.
  destruct s as [|c t]; [reflexivity | ]. intros H. simpl.
  now rewrite (H c t eq_refl).
Qed.

Lemma rstrip_spec (s : str) :
  exists b, s = rstrip s ++ b /\ blank b = true
            /\ forall t c, rstrip s = t ++ [c] -> isspace c = false.
Proof.
  unfold rstrip. destruct (lstrip_spec (rev s)) as (a & E & Ha & Hh).
  exists (rev a). split; [ | split].
  - rewrite <- rev_app_distr, <- E. now rewrite rev_involutive.
  - unfold blank in *. rewrite forallb_forall in *. intros x Hx.
    apply Ha. now apply in_rev.
  - intros t c H. apply (Hh c (rev t)).
    rewrite <- (rev_involutive (lstrip (rev s))), H, rev_app_distr. reflexivity.
Qed.

Lemma rstrip_fixed (s : str) :
  (forall t c, s = t ++ [c] -> isspace c = false) -> rstrip s = s.
Proof.
  intros H. unfold rstrip. rewrite lstrip_fixed; [apply rev_involutive | ].
  intros c t E. apply (H (rev t) c).
  rewrite <- (rev_involutive s), E. reflexivity.
Qed.

(** What [strip] leaves: the text between two runs of white space, with no
    white space at either end. *)
Lemma strip_spec (s : str) :
  exists a b, s = a ++ strip s ++ b /\ blank a = true /\ blank b = true
              /\ trimmed (strip s).
Proof.
  unfold strip.
  destruct (lstrip_spec s) as (a & Ea & Ha & Hh).
  destruct (rstrip_spec (lstrip s)) as (b & Eb & Hb & Hl).
  exists a, b. split; [now rewrite <- Eb | split; [assumption | split; [assumption | ]]].
  split; [ | assumption].
  intros c t E. rewrite E in Eb. simpl in Eb. now apply (Hh c (t ++ b)).
Qed.

Lemma strip_fixed (s : str) : trimmed s -> strip s = s.
Proof.
  intros [Hh Hl]. unfold strip. rewrite lstrip_fixed by assumption.
  now apply rstrip_fixed.
Qed.

Lemma strip_idempotent (s : str) : strip (strip s) = strip s.
Proof.
  destruct (strip_spec s) as (a & b & _ & _ & _ & H). now apply strip_fixed.
Qed.

Lemma slice_to_length (n : nat) (s : str) : (List.length (slice_to n s) <= n)%nat.
Proof. apply firstn_le_length. Qed.

End Trimming.

(** What [subprocess.run] captured, as [_run] joins it: the standard output,
    then a line feed and the standard error when there is any. *)
Definition captured (p : CompletedProcess) : str :=
  stdout p ++ (if nonempty (stderr p) then newline ++ stderr p else []).

(** X4.  When the command completes, [_run] returns its exit code unchanged
    and, as output, the captured text without the white space around it: the
    output neither starts nor ends with white space, stripping it again changes
    nothing, and it is the stripped standard output when the standard error is
    empty, the stripped standard error when the standard output is empty. *)
Theorem run_output_is_trimmed
    (run : runner) (cmd : list str) (timeout : Z) (p : CompletedProcess) :
  run cmd timeout = Ok p ->
  exists out a b,
    _run run cmd timeout = Ok (returncode p, out)
    /\ captured p = a ++ out ++ b /\ blank a = true /\ blank b = true
    /\ trimmed out
    /\ strip out = out
    /\ (stderr p = [] -> out = strip (stdout p))
    /\ (stdout p = [] -> out = strip (stderr p)).
Proof.
  intros Hp. unfold _run. rewrite Hp. cbn [bind]. fold (captured p).
  destruct (strip_spec (captured p)) as (a & b & E & Ha & Hb & Ht).
  exists (strip (captured p)), a, b.
  split; [reflexivity | split; [exact E | split; [exact Ha | split; [exact Hb | ]]]].
  split; [exact Ht | split; [apply strip_idempotent | split]].
  - intros He. unfold captured. rewrite He. simpl. now rewrite app_nil_r.
  - intros Ho. unfold captured. rewrite Ho. simpl.
    destruct (stderr p) as [|c s]; reflexivity.
Qed.

(** A command that prints on both streams, with blank lines around. *)
Definition noisy_process : CompletedProcess :=
  mk_completed 1 (py "  usage: 12  ") [10%N; 119%N; 97%N; 114%N; 110%N; 10%N].

Lemma run_output_is_trimmed_witness :
  exists out a b,
    _run (fun _ _ => Ok noisy_process) usage_cmd 30%Z = Ok (returncode noisy_process, out)
    /\ captured noisy_process = a ++ out ++ b /\ blank a = true /\ blank b = true
    /\ trimmed out
    /\ strip out = out
    /\ (stderr noisy_process = [] -> out = strip (stdout noisy_process))
    /\ (stdout noisy_process = [] -> out = strip (stderr noisy_process)).
Proof.
  exact (run_output_is_trimmed (fun _ _ => Ok noisy_process) usage_cmd 30%Z
           noisy_process eq_refl).
Defined.

(* ================================================================= *)
(** ** The three results of the probe *)

(** X5.  When the probe command completes, whatever its exit code, the result
    is one of three, decided by its trimmed output [out] alone: [limit] with
    [out[:500]] when a pattern is found; otherwise [error] with [out[:500]]
    when [out] has no [2], and [not_limited] with the whole of [out] when it
    has one.  The message of a [limit] or [error] result is at most 500
    characters long; that of [not_limited] is not cut. *)
Theorem probe_result_shape (w : world) (cmd : list str) (p : CompletedProcess) :
  probe_run w cmd 30%Z = Ok p ->
  let out := strip (captured p) in
  let info := _probe_limit_via_claude w cmd in
  let hit := search _LIMIT_HIT out || search _RESET_HINT out in
  ((l_type info = py "limit" /\ hit = true /\ l_message info = slice_to 500 out)
   \/ (l_type info = py "error" /\ hit = false /\ contains_char (chr "2") out = false
       /\ l_message info = slice_to 500 out)
   \/ (l_type info = py "not_limited" /\ hit = false
       /\ contains_char (chr "2") out = true /\ l_message info = out))
  /\ (l_type info <> py "not_limited" -> (List.length (l_message info) <= 500)%nat).
Proof.
  intros Hp out info hit.
  assert (E : info = classify_output out).
  { unfold info, _probe_limit_via_claude, _run. rewrite Hp. reflexivity. }
  assert (Hs : strip out = out) by apply strip_idempotent.
  rewrite E. unfold classify_output. rewrite Hs. fold hit.
  destruct hit; [ | destruct (contains_char (chr "2") out)];
    cbn [negb l_type l_message].
  - split; [left; auto | intros _; apply slice_to_length].
  - split; [right; right; auto | intros H; exfalso; apply H; reflexivity].
  - split; [right; left; auto | intros _; apply slice_to_length].
Qed.

Lemma probe_result_shape_witness :
  let w := probe_prints "  1+1 is 2 " in
  let p := mk_completed 0 (py "  1+1 is 2 ") [] in
  let out := strip (captured p) in
  let info := _probe_limit_via_claude w default_test_cmd in
  let hit := search _LIMIT_HIT out || search _RESET_HINT out in
  ((l_type info = py "limit" /\ hit = true /\ l_message info = slice_to 500 out)
   \/ (l_type info = py "error" /\ hit = false /\ contains_char (chr "2") out = false
       /\ l_message info = slice_to 500 out)
   \/ (l_type info = py "not_limited" /\ hit = false
       /\ contains_char (chr "2") out = true /\ l_message info = out))
  /\ (l_type info <> py "not_limited" -> (List.length (l_message info) <= 500)%nat).
Proof.
  exact (probe_result_shape (probe_prints "  1+1 is 2 ") default_test_cmd
           (mk_completed 0 (py "  1+1 is 2 ") []) eq_refl).
Defined.

(* ================================================================= *)
(** ** What the two patterns ask for *)

Section ResetHint.

(** [w] spells the lower-case word [p] as a pattern compiled with
    [IGNORECASE] reads it. *)
Definition any_case (p w : str) : Prop :=
  Forall2 (fun l c => ignorecase l c = true) p w.

Lemma Matches_letters_inv (p w : str) :
  Matches (Seq (map (fun l => Class (ignorecase l)) p)) w -> any_case p w.
Proof.
  revert w. induction p as [|l p IH]; intros w H; simpl in H.
  - apply Matches_Eps_inv in H. subst. constructor.
  - apply Matches_Cat_inv in H as (u & v & -> & Hu & Hv).
    apply Matches_Class_inv in Hu as (c & -> & Hc).
    constructor; [assumption | now apply IH].
Qed.

Lemma any_case_Matches (p w : str) :
  any_case p w -> Matches (Seq (map (fun l => Class (ignorecase l)) p)) w.
Proof.
  induction 1 as [|l c p w Hc _ IH]; simpl.
  - apply MEps.
  - change (c :: w) with ([c] ++ w). apply MCat; [now apply MClass | exact IH].
Qed.

Lemma Matches_Star_Class (p : char -> bool) (w : str) :
  forallb p w = true -> Matches (Star (Class p)) w.
Proof.
  induction w as [|c w IH]; simpl; intros H.
  - apply MStarNil.
  - apply andb_true_iff in H as [Hc Hw].
    change (c :: w) with ([c] ++ w). apply MStarApp; [now apply MClass | now apply IH].
Qed.

(** The first element of [l] that satisfies [p]. *)
Lemma existsb_first {A : Type} (p : A -> bool) (l : list A) :
  existsb p l = true ->
  exists l1 x l2, l = l1 ++ x :: l2 /\ p x = true /\ forallb (fun y => negb (p y)) l1 = true.
Proof.
  induction l as [|a l IH]; simpl; [discriminate | ].
  destruct (p a) eqn:Ha.
  - intros _. exists [], a, l. auto.
  - simpl. intros H. destruct (IH H) as (l1 & x & l2 & -> & Hx & Hl1).
    exists (a :: l1), x, l2. simpl. rewrite Ha. auto.
Qed.

Lemma line_break_isspace (c : char) : negb (not_newline c) = true -> isspace c = true.
Proof.
  unfold not_newline. rewrite negb_involutive, orb_true_iff, !N.eqb_eq.
  intros [-> | ->]; reflexivity.
Qed.

(** The word [reset], in any letter case, with a character that is not a line
    break somewhere after it. *)
Definition reset_then_text (out : str) : Prop :=
  exists pre k rest,
    out = pre ++ k ++ rest /\ any_case (py "reset") k
    /\ existsb not_newline rest = true.

Lemma reset_hint_inv (u : str) :
  Matches _RESET_HINT u ->
  exists k rest, u = k ++ rest /\ any_case (py "reset") k
                 /\ existsb not_newline rest = true.
Proof.
  intros H. unfold _RESET_HINT in H.
  apply Matches_Cat_inv in H as (h & t & -> & Hh & Ht).
  cbn [Seq fold_right] in Hh.
  apply Matches_Cat_inv in Hh as (k & h' & -> & Hk & _).
  apply Matches_letters_inv in Hk.
  apply Matches_Cat_inv in Ht as (c1 & t' & -> & Hc & _).
  apply Matches_Class_inv in Hc as (c & -> & Hc).
  exists k, (h' ++ [c] ++ t'). split; [now rewrite <- app_assoc | split; [assumption | ]].
  rewrite existsb_app. simpl. rewrite Hc. now rewrite orb_true_r.
Qed.

(** The line breaks after the word are white space of the pattern, and the
    first other character is the [when] group. *)
Lemma reset_hint_intro (k rest : str) :
  any_case (py "reset") k -> existsb not_newline rest = true ->
  exists u v, rest = u ++ v /\ Matches _RESET_HINT (k ++ u).
Proof.
  intros Hk Hr. apply existsb_first in Hr as (nl & c & post & -> & Hc & Hnl).
  exists (nl ++ [c]), post. split; [now rewrite <- app_assoc | ].
  rewrite app_assoc. apply MCat; [ | now apply Matches_Plus_one, MClass].
  replace (k ++ nl) with (List.concat [k; []; nl; []; []; []; []])
    by (simpl; now rewrite !app_nil_r).
  apply Matches_Seq.
  apply Forall2_cons; [now apply any_case_Matches | ].
  apply Forall2_cons; [apply Matches_Opt_skip | ].
  apply Forall2_cons.
  { apply Matches_Star_Class. rewrite forallb_forall in *. intros x Hx.
    apply line_break_isspace. now apply Hnl. }
  repeat (apply Forall2_cons; [first [apply Matches_Opt_skip | apply MStarNil] | ]).
  apply Forall2_nil.
Qed.

Lemma reset_hint_search (out : str) :
  search _RESET_HINT out = true <-> reset_then_text out.
Proof.
  rewrite search_spec. split.
  - intros (u & (a & b & ->) & Hu).
    apply reset_hint_inv in Hu as (k & rest & -> & Hk & Hr).
    exists a, k, (rest ++ b). split; [now rewrite <- app_assoc | split; [assumption | ]].
    rewrite existsb_app, Hr. reflexivity.
  - intros (pre & k & rest & -> & Hk & Hr).
    destruct (reset_hint_intro k rest Hk Hr) as (u & v & -> & Hm).
    exists (k ++ u). split; [ | assumption].
    exists pre, v. now rewrite <- !app_assoc.
Qed.

End ResetHint.

(** X6.  [_RESET_HINT] is found in a text exactly when the text has the word
    [reset], in any letter case, and somewhere after it a character that is
    not a line break: the optional [s], preposition, colon and spaces of the
    pattern change nothing.  Every such output of the probe is classified
    [limit]. *)
Theorem reset_hint_is_reset_then_text (out : str) :
  (search _RESET_HINT out = true <-> reset_then_text out)
  /\ (reset_then_text out ->
      classify_output out = mk_limit_info (py "limit") (slice_to 500 out)).
Proof.
  split; [apply reset_hint_search | ].
  intros H. apply reset_hint_search in H. unfold classify_output.
  rewrite H. now rewrite orb_true_r.
Qed.

Section Keywords.

(** A match of a sequence is the concatenation of matches of its items. *)
Lemma Matches_Seq_inv (rs : list regex) (w : str) :
  Matches (Seq rs) w ->
  exists parts, Forall2 Matches rs parts /\ w = List.concat parts.
Proof.
  revert w. induction rs as [|r rs IH]; intros w H; simpl in H.
  - apply Matches_Eps_inv in H. subst. exists []. split; [constructor | reflexivity].
  - apply Matches_Cat_inv in H as (u & v & -> & Hu & Hv).
    destruct (IH v Hv) as (parts & Hp & ->).
    exists (u :: parts). split; [now constructor | reflexivity].
Qed.

(** [out] contains the word [p], in any letter case. *)
Definition has_word (p : string) (out : str) : Prop :=
  exists pre k post, out = pre ++ k ++ post /\ any_case (py p) k.

Lemma has_word_slice (p : string) (u out : str) :
  slice_of u out -> has_word p u -> has_word p out.
Proof.
  intros (a & b & ->) (pre & k & post & -> & Hk).
  exists (a ++ pre), k, (post ++ b). split; [now rewrite <- !app_assoc | assumption].
Qed.

Ltac split_items :=
  repeat match goal with
         | H : Forall2 _ (_ :: _) _ |- _ => inversion H; subst; clear H
         | H : Forall2 _ [] _ |- _ => inversion H; subst; clear H
         end.

(** Both alternatives of [_LIMIT_HIT] have the word [limit]. *)
Lemma limit_hit_has_limit (u : str) : Matches _LIMIT_HIT u -> has_word "limit" u.
Proof.
  intros H. apply Matches_Alt_inv in H as [H | H];
    apply Matches_Seq_inv in H as (parts & Hp & ->); split_items.
  - match goal with
    | H : Matches (word "limit") ?k |- _ => apply Matches_letters_inv in H; rename H into Hk
    end.
    match goal with
    | Hk : any_case _ ?k
      |- has_word _ (List.concat [?a1; ?a2; ?a3; ?a4; ?a5; ?a6; ?k; ?a8; ?a9]) =>
        exists (a1 ++ a2 ++ a3 ++ a4 ++ a5 ++ a6), k, (a8 ++ a9)
    end.
    split; [simpl; now rewrite <- !app_assoc, app_nil_r | assumption].
  - match goal with
    | H : Matches (word "limit") ?k |- _ => apply Matches_letters_inv in H; rename H into Hk
    end.
    match goal with
    | Hk : any_case _ ?k |- has_word _ (List.concat [?a1; ?a2; ?k]) =>
        exists (a1 ++ a2), k, []
    end.
    split; [simpl; now rewrite <- !app_assoc | assumption].
Qed.

End Keywords.

(** X7.  The probe reports [limit] only when its command completed and the
    output contains the word [limit] or the word [reset], in any letter case:
    no other output, and no failure to run the command, is taken for a
    limit. *)
Theorem limit_needs_a_keyword (w : world) (cmd : list str) :
  l_type (_probe_limit_via_claude w cmd) = py "limit" ->
  exists code out,
    _run (probe_run w) cmd 30%Z = Ok (code, out)
    /\ (has_word "limit" out \/ has_word "reset" out).
Proof.
  unfold _probe_limit_via_claude.
  destruct (_run (probe_run w) cmd 30%Z) as [[code out] | e]; [ | discriminate].
  intros H. exists code, out. split; [reflexivity | ].
  unfold classify_output in H.
  destruct (search _LIMIT_HIT out) eqn:Hl.
  - left. apply search_spec in Hl as (u & Hu & Hm).
    apply (has_word_slice _ u); [assumption | now apply limit_hit_has_limit].
  - destruct (search _RESET_HINT out) eqn:Hr.
    + right. apply reset_hint_search in Hr as (pre & k & rest & -> & Hk & _).
      now exists pre, k, rest.
    + simpl in H. destruct (negb _); discriminate H.
Qed.

Lemma limit_needs_a_keyword_witness :
  exists code out,
    _run (probe_run (probe_prints "Rate-limit window RESETS soon")) default_test_cmd 30%Z
    = Ok (code, out)
    /\ (has_word "limit" out \/ has_word "reset" out).
Proof.
  apply (limit_needs_a_keyword (probe_prints "Rate-limit window RESETS soon")
           default_test_cmd).
  reflexivity.
Defined.

(* ================================================================= *)
(** ** The plan and the defaults of a report *)

Section Plans.

(** The key that [_normalize_plan] looks up in [PLAN_CONFIG]. *)
Definition plan_key (plan : plan_arg) : str :=
  match plan with PlanEnum p => PlanType_value p | PlanStr s => s end.

Lemma normalize_plan_inv (plan : plan_arg) (cfg : plan_config) :
  _normalize_plan plan = Ok cfg ->
  In (plan_key plan, cfg) PLAN_CONFIG.
Proof.
  unfold _normalize_plan. fold (plan_key plan).
  unfold PLAN_CONFIG. cbn [config_lookup].
  destruct (str_eqb (plan_key plan) (py "Pro")) eqn:E1.
  { apply str_eqb_eq in E1. rewrite E1. intros H. injection H as <-. simpl. auto. }
  destruct (str_eqb (plan_key plan) (py "Max5")) eqn:E2.
  { apply str_eqb_eq in E2. rewrite E2. intros H. injection H as <-. simpl. auto. }
  destruct (str_eqb (plan_key plan) (py "Max20")) eqn:E3.
  { apply str_eqb_eq in E3. rewrite E3. intros H. injection H as <-. simpl. auto. }
  discriminate.
Qed.

End Plans.

(** X8.  A report names the plan that was asked for, given as a string or as
    a member of [PlanType]; the name is one of [Pro], [Max5] and [Max20],
    and the three limits of the report are those of that plan in
    [PLAN_CONFIG]. *)
Theorem report_echoes_plan
    (L : library) (w : world) (plan : plan_arg) (test_cmd : list str) (r : report) :
  get_ccusage_status L w plan test_cmd = Ok r ->
  r_plan r = plan_key plan
  /\ In (r_plan r) [py "Pro"; py "Max5"; py "Max20"]
  /\ In (r_plan r,
         mk_plan_config (limit (r_tokens r)) (limit (r_cost r))
           (limit (r_messages r)) (r_plan r))
        PLAN_CONFIG.
Proof.
  intros H. apply get_ccusage_status_inv in H as (cfg & Hcfg & H).
  apply normalize_plan_inv in Hcfg.
  apply status_of_config_steps in H. destruct H. subst r.
  cbn [r_plan r_tokens r_cost r_messages limit].
  simpl in Hcfg.
  destruct Hcfg as [E | [E | [E | []]]]; injection E as <- <-; simpl; auto 10.
Qed.

Lemma report_echoes_plan_witness :
  r_plan mock_report = plan_key (PlanStr (py "Pro"))
  /\ In (r_plan mock_report) [py "Pro"; py "Max5"; py "Max20"]
  /\ In (r_plan mock_report,
         mk_plan_config (limit (r_tokens mock_report)) (limit (r_cost mock_report))
           (limit (r_messages mock_report)) (r_plan mock_report))
        PLAN_CONFIG.
Proof.
  exact (report_echoes_plan mock_library (mock_world "2" 0 mock_raw)
           (PlanStr (py "Pro")) default_test_cmd mock_report mock_get_ccusage_status).
Defined.

Section Defaults.

Variable L : library.

Lemma read_float_missing (items : list (str * value)) (key : string) (x : float) :
  lookup (py key) items = None ->
  read_float L (VDict items) key = Ok x -> x = 0%float.
Proof.
  unfold read_float, get. intros ->. cbn. intros H. now injection H as <-.
Qed.

Lemma read_int_missing (items : list (str * value)) (key : string) (n : Z) :
  lookup (py key) items = None ->
  read_int L (VDict items) key = Ok n -> n = 0%Z.
Proof.
  unfold read_int, get. intros ->. cbn. intros H. now injection H as <-.
Qed.

End Defaults.

(** A request on a block that has an end time and nothing else. *)
Definition bare_block (end_time : string) : value :=
  VDict [ (py "endTime", VStr (py end_time)) ].

Definition bare_library (end_time : string) (parsed : datetime) : library :=
  mk_library
    (fun _ => Ok (VDict [ (py "blocks", VList [bare_block end_time]) ]))
    (fun _ => Ok parsed)
    (float_of_str mock_library) (int_of_str mock_library).

Definition bare_report : report :=
  mk_report
    (mk_limit_info (py "not_limited") (py "2"))
    (py "Max5") false (VList [])
    (mk_gauge 0%float 35%float 0%float)
    (mk_gauge 0%float 88000%Z 0%float)
    (mk_gauge 0%Z 1000%Z 0%float)
    (mk_time_to_reset 89 (py "2025-08-23 14:00 UTC"))
    0%float 0%float
    (mk_predictions (py "N/A") (py "2025-08-23 14:00 UTC")).

Lemma bare_get_ccusage_status :
  get_ccusage_status
    (bare_library "2025-08-23T14:00:00Z" (datetime_of 2025 8 23 14 0 0 0 (Some 0%Z)))
    (mock_world "2" 0 (py "{}")) (PlanStr (py "Max5")) default_test_cmd
  = Ok bare_report.
Proof. vm_compute. reflexivity. Defined.

(** X9.  The block of a report is a JSON object with an [endTime], the one
    key the program cannot do without.  Each other key may be missing, and
    then its part of the report is the default: not active; cost, tokens and
    messages used 0 with 0.0 percent; no models; and, without [burnRate], a
    burn rate and a cost rate of 0.0 and [N/A] for the time the tokens run
    out. *)
Theorem missing_keys_take_defaults
    (L : library) (w : world) (plan : plan_arg) (test_cmd : list str) (r : report) :
  get_ccusage_status L w plan test_cmd = Ok r ->
  exists items,
    usage_block L w = Ok (VDict items)
    /\ lookup (py "endTime") items <> None
    /\ (lookup (py "isActive") items = None -> r_active r = false)
    /\ (lookup (py "costUSD") items = None ->
        used (r_cost r) = 0%float /\ percent (r_cost r) = 0%float)
    /\ (lookup (py "totalTokens") items = None ->
        used (r_tokens r) = 0%float /\ percent (r_tokens r) = 0%float)
    /\ (lookup (py "entries") items = None ->
        used (r_messages r) = 0%Z /\ percent (r_messages r) = 0%float)
    /\ (lookup (py "models") items = None -> r_models r = VList [])
    /\ (lookup (py "burnRate") items = None ->
        r_burn_rate r = 0%float /\ r_cost_rate r = 0%float
        /\ tokens_will_run_out (r_predictions r) = py "N/A").
Proof.
  intros H. apply get_ccusage_status_inv in H as (cfg & Hcfg & H).
  apply normalize_plan_inv in Hcfg.
  apply status_of_config_steps in H. destruct H. subst r.
  assert (Hb : usage_block L w = Ok block)
    by now apply (usage_block_read L w 0%Z raw data blocks).
  destruct (get_is_dict _ _ _ _ Hactive) as (items & -> & Ev).
  exists items. split; [exact Hb | ].
  cbn [r_active r_cost r_tokens r_messages r_models r_burn_rate r_cost_rate
       r_predictions used percent tokens_will_run_out].
  split.
  { intros Hn. unfold getitem in Hend. rewrite Hn in Hend. discriminate Hend. }
  split.
  { intros Hn. rewrite Hn in Ev. now subst v_active. }
  split.
  { intros Hn. apply (read_float_missing L _ _ _ Hn) in Hcost. subst cost.
    split; [reflexivity | ].
    simpl in Hcfg.
    destruct Hcfg as [E | [E | [E | []]]]; injection E as _ <-; reflexivity. }
  split.
  { intros Hn. apply (read_int_missing L _ _ _ Hn) in Htokens. subst tokens_used_raw.
    cbn in Hused. injection Hused as <-.
    split; [reflexivity | ].
    simpl in Hcfg.
    destruct Hcfg as [E | [E | [E | []]]]; injection E as _ <-;
      cbn in Htoken_pct; injection Htoken_pct as <-; reflexivity. }
  split.
  { intros Hn. apply (read_int_missing L _ _ _ Hn) in Hmsgs. subst msgs.
    split; [reflexivity | ].
    simpl in Hcfg.
    destruct Hcfg as [E | [E | [E | []]]]; injection E as _ <-;
      cbn in Hmsg_pct; injection Hmsg_pct as <-; reflexivity. }
  split.
  { intros Hn. unfold get in Hmodels. rewrite Hn in Hmodels. now injection Hmodels as <-. }
  intros Hn. unfold get in Hburn. rewrite Hn in Hburn. injection Hburn as <-.
  cbn in Hrate. injection Hrate as <-.
  cbn in Hcph. injection Hcph as <-.
  cbn in Hcost_rate. injection Hcost_rate as <-.
  cbn in Hrun_out. injection Hrun_out as <-.
  repeat split.
Qed.

Lemma missing_keys_take_defaults_witness :
  exists items,
    usage_block
      (bare_library "2025-08-23T14:00:00Z" (datetime_of 2025 8 23 14 0 0 0 (Some 0%Z)))
      (mock_world "2" 0 (py "{}"))
    = Ok (VDict items)
    /\ lookup (py "endTime") items <> None
    /\ (lookup (py "isActive") items = None -> r_active bare_report = false)
    /\ (lookup (py "costUSD") items = None ->
        used (r_cost bare_report) = 0%float /\ percent (r_cost bare_report) = 0%float)
    /\ (lookup (py "totalTokens") items = None ->
        used (r_tokens bare_report) = 0%float /\ percent (r_tokens bare_report) = 0%float)
    /\ (lookup (py "entries") items = None ->
        used (r_messages bare_report) = 0%Z /\ percent (r_messages bare_report) = 0%float)
    /\ (lookup (py "models") items = None -> r_models bare_report = VList [])
    /\ (lookup (py "burnRate") items = None ->
        r_burn_rate bare_report = 0%float /\ r_cost_rate bare_report = 0%float
        /\ tokens_will_run_out (r_predictions bare_report) = py "N/A").
Proof.
  exact (missing_keys_take_defaults
           (bare_library "2025-08-23T14:00:00Z" (datetime_of 2025 8 23 14 0 0 0 (Some 0%Z)))
           (mock_world "2" 0 (py "{}")) (PlanStr (py "Max5")) default_test_cmd
           bare_report bare_get_ccusage_status).
Defined.

(** The block has none of the optional keys. *)
Definition only_end_time (items : list (str * value)) : Prop :=
  lookup (py "isActive") items = None
  /\ lookup (py "costUSD") items = None
  /\ lookup (py "totalTokens") items = None
  /\ lookup (py "entries") items = None
  /\ lookup (py "models") items = None
  /\ lookup (py "burnRate") items = None.

(** The report of a block without usage. *)
Definition idle_report (info : limit_info) (cfg : plan_config) (minutes : Z)
    (reset_at : str) : report :=
  mk_report info (display_name cfg) false (VList [])
    (mk_gauge 0%float (cost_limit cfg) 0%float)
    (mk_gauge 0%float (token_limit cfg) 0%float)
    (mk_gauge 0%Z (message_limit cfg) 0%float)
    (mk_time_to_reset minutes reset_at)
    0%float 0%float
    (mk_predictions (py "N/A") reset_at).

(** X10.  For each of the three plans, when the usage command exits with 0
    and its first block is an object with an [endTime] and none of the
    optional keys, and the end time parses to an instant with a UTC offset
    less than [2^53] microseconds from now, [get_ccusage_status] returns: the
    report has the result of the probe, the plan with its limits, the
    defaults, the whole minutes that are left (0 for a past end time) and
    the printed end time. *)
Theorem end_time_alone_gives_a_report
    (L : library) (w : world) (plan : plan_arg) (test_cmd : list str)
    (raw : str) (items : list (str * value)) (end_time : value) (t : datetime) (o : Z) :
  In (plan_key plan) [py "Pro"; py "Max5"; py "Max20"] ->
  _run (usage_run w) usage_cmd 30%Z = Ok (0%Z, raw) ->
  usage_block L w = Ok (VDict items) ->
  only_end_time items ->
  lookup (py "endTime") items = Some end_time ->
  _utc_from_iso8601 L end_time = Ok t ->
  utcoffset t = Some o ->
  (- 2 ^ 53 < wall t - o - utc_now w < 2 ^ 53)%Z ->
  exists cfg,
    _normalize_plan plan = Ok cfg
    /\ get_ccusage_status L w plan test_cmd
       = Ok (idle_report (_probe_limit_via_claude w test_cmd) cfg
               (Z.max 0 ((wall t - o - utc_now w) / us_per_minute)) (_fmt_utc t)).
Proof.
  intros Hplan Hrun Hblock (Ha & Hc & Ht & He & Hm & Hb) Hend Hparse Ho Hspan.
  unfold usage_block in Hblock. rewrite Hrun in Hblock. cbn [bind] in Hblock.
  destruct (json_loads L raw) as [data | ] eqn:Hdata; [ | discriminate].
  cbn [bind] in Hblock.
  destruct (getitem data "blocks") as [blocks | ] eqn:Hblocks; [ | discriminate].
  cbn [bind] in Hblock.
  destruct (total_seconds_minutes _ Hspan) as (x & q & Hx & Hq & Hmax).
  assert (Hcfg : exists cfg, _normalize_plan plan = Ok cfg
                             /\ In (plan_key plan, cfg) PLAN_CONFIG).
  { unfold _normalize_plan. fold (plan_key plan). simpl in Hplan.
    destruct Hplan as [<- | [<- | [<- | []]]]; eexists; (split; [reflexivity | ]);
      simpl; auto. }
  destruct Hcfg as (cfg & Hcfg & Hin).
  exists cfg. split; [exact Hcfg | ].
  unfold get_ccusage_status. rewrite Hcfg. cbn [bind].
  apply steps_status_of_config.
  apply (Steps L w cfg test_cmd _ raw data blocks (VDict items) (VBool false) (VList [])
           end_time (VDict []) VNone 0%float 0%float 0%float 0%float x 0%float 0%float
           0%Z 0%Z q t (wall t - o - utc_now w)%Z (py "N/A")).
  - exact Hrun.
  - exact Hdata.
  - exact Hblocks.
  - exact Hblock.
  - unfold get. now rewrite Ha.
  - unfold read_float, get. now rewrite Hc.
  - unfold read_int, get. now rewrite Ht.
  - reflexivity.
  - unfold read_int, get. now rewrite He.
  - unfold get. now rewrite Hm.
  - simpl in Hin. destruct Hin as [E | [E | [E | []]]]; injection E as _ <-; reflexivity.
  - simpl in Hin. destruct Hin as [E | [E | [E | []]]]; injection E as _ <-; reflexivity.
  - unfold getitem. now rewrite Hend.
  - exact Hparse.
  - unfold datetime_sub. rewrite Ho. cbn [utcoffset wall]. f_equal. ring.
  - exact Hx.
  - exact Hq.
  - unfold get. now rewrite Hb.
  - reflexivity.
  - reflexivity.
  - reflexivity.
  - reflexivity.
  - unfold idle_report, us_per_minute. rewrite <- Hmax.
    simpl in Hin. destruct Hin as [E | [E | [E | []]]]; injection E as _ <-; reflexivity.
Qed.

Lemma end_time_alone_gives_a_report_witness :
  let L := bare_library "2025-08-23T14:00:00Z" (datetime_of 2025 8 23 14 0 0 0 (Some 0%Z)) in
  let w := mock_world "2" 0 (py "{}") in
  let t := datetime_of 2025 8 23 14 0 0 0 (Some 0%Z) in
  exists cfg,
    _normalize_plan (PlanStr (py "Max5")) = Ok cfg
    /\ get_ccusage_status L w (PlanStr (py "Max5")) default_test_cmd
       = Ok (idle_report (_probe_limit_via_claude w default_test_cmd) cfg
               (Z.max 0 ((wall t - 0 - utc_now w) / us_per_minute)) (_fmt_utc t)).
Proof.
  apply (end_time_alone_gives_a_report
           (bare_library "2025-08-23T14:00:00Z" (datetime_of 2025 8 23 14 0 0 0 (Some 0%Z)))
           (mock_world "2" 0 (py "{}")) (PlanStr (py "Max5")) default_test_cmd (py "{}")
           [ (py "endTime", VStr (py "2025-08-23T14:00:00Z")) ]
           (VStr (py "2025-08-23T14:00:00Z"))
           (datetime_of 2025 8 23 14 0 0 0 (Some 0%Z)) 0%Z).
  - simpl. tauto.
  - reflexivity.
  - reflexivity.
  - repeat split.
  - reflexivity.
  - reflexivity.
  - reflexivity.
  - split; vm_compute; reflexivity.
Defined.

(* ================================================================= *)
(** ** The end time *)

Section Zulu.

Lemma replace_char_app (c : char) (new a b : str) :
  replace_char c new (a ++ b) = replace_char c new a ++ replace_char c new b.
Proof. apply flat_map_app. Qed.

Lemma replace_char_absent (c : char) (new s : str) :
  contains_char c s = false -> replace_char c new s = s.
Proof.
  induction s as [|x s IH]; [reflexivity | ].
  simpl. intros H. apply orb_false_iff in H as [Hx Hs].
  assert (Hx' : char_eqb x c = false).
  { unfold char_eqb in *. now rewrite N.eqb_sym. }
  rewrite Hx'. simpl. now rewrite IH.
Qed.

Lemma replace_char_gone (c : char) (new s : str) :
  contains_char c new = false -> contains_char c (replace_char c new s) = false.
Proof.
  intros Hnew. induction s as [|x s IH]; [reflexivity | ].
  simpl. unfold contains_char in *. rewrite existsb_app, IH, orb_false_r.
  destruct (char_eqb x c) eqn:Hx; [exact Hnew | ].
  simpl. unfold char_eqb in *. rewrite N.eqb_sym, Hx. reflexivity.
Qed.

End Zulu.

(** X11.  [_utc_from_iso8601] hands to [fromisoformat] a text without any
    capital [Z]: the end time itself when it has none, and the end time with
    [+00:00] for its final [Z] when that is its only one. *)
Theorem utc_from_iso8601_zulu (L : library) (s : str) :
  exists s',
    _utc_from_iso8601 L (VStr s) = fromisoformat L s'
    /\ contains_char (chr "Z") s' = false
    /\ (contains_char (chr "Z") s = false -> s' = s)
    /\ (forall body, s = body ++ py "Z" -> contains_char (chr "Z") body = false ->
        s' = body ++ py "+00:00").
Proof.
  exists (replace_char (chr "Z") (py "+00:00") s).
  split; [reflexivity | split; [now apply replace_char_gone | split]].
  - apply replace_char_absent.
  - intros body -> Hb. rewrite replace_char_app, (replace_char_absent _ _ _ Hb).
    reflexivity.
Qed.

(** X12.  When the end time parses to a [datetime] without UTC offset (the
    text had neither [Z] nor an offset), no report is returned and the
    request is not answered 200: the end time cannot be subtracted from the
    current time, which has an offset. *)
Theorem naive_end_time_gives_no_report
    (L : library) (w : world) (plan : str) (t : datetime) :
  parsed_end_time L w = Ok t ->
  utcoffset t = None ->
  status_code (status L w plan) <> 200%Z
  /\ forall r, status L w plan <> Returned r.
Proof.
  intros Ht Hnaive.
  assert (Hno : forall r, status L w plan <> Returned r).
  { intros r Hs. unfold status in Hs.
    destruct (get_ccusage_status L w (PlanStr plan) default_test_cmd) as [r0 | e] eqn:E.
    - apply get_ccusage_status_inv in E as (cfg & _ & E).
      apply status_of_config_steps in E. destruct E.
      assert (Ht' : parsed_end_time L w = Ok t_reset).
      { apply (parsed_end_time_read L w block end_time); try assumption.
        now apply (usage_block_read L w 0%Z raw data blocks). }
      rewrite Ht in Ht'. injection Ht' as <-.
      unfold datetime_sub in Hdelta. rewrite Hnaive in Hdelta. discriminate Hdelta.
    - destruct (is_ValueError (exn_class e)); [discriminate | ].
      destruct (is_RuntimeError (exn_class e)); discriminate. }
  split; [ | exact Hno].
  destruct (status L w plan) as [r | code msg | e] eqn:E.
  - now contradiction (Hno r).
  - unfold status in E.
    destruct (get_ccusage_status L w (PlanStr plan) default_test_cmd) as [r0 | e];
      [discriminate | ].
    destruct (is_ValueError (exn_class e)); [injection E as <- _; discriminate | ].
    destruct (is_RuntimeError (exn_class e)); [injection E as <- _; discriminate | ].
    discriminate.
  - discriminate.
Qed.

Lemma naive_end_time_gives_no_report_witness :
  let L := bare_library "2025-08-23T14:00:00" (datetime_of 2025 8 23 14 0 0 0 None) in
  status_code (status L (mock_world "2" 0 (py "{}")) (py "Pro")) <> 200%Z
  /\ forall r, status L (mock_world "2" 0 (py "{}")) (py "Pro") <> Returned r.
Proof.
  apply (naive_end_time_gives_no_report
           (bare_library "2025-08-23T14:00:00" (datetime_of 2025 8 23 14 0 0 0 None))
           (mock_world "2" 0 (py "{}")) (py "Pro")
           (datetime_of 2025 8 23 14 0 0 0 None));
    reflexivity.
Defined.

(** The request ends in the [TypeError] of the subtraction. *)
Example naive_end_time_is_type_error :
  status (bare_library "2025-08-23T14:00:00" (datetime_of 2025 8 23 14 0 0 0 None))
    (mock_world "2" 0 (py "{}")) (py "Pro")
  = Unhandled (mk_exn TypeError
                 (py "can't subtract offset-naive and offset-aware datetimes")).
Proof. vm_compute. reflexivity. Qed.

(* ================================================================= *)
(** ** The printed time: [_fmt_utc] *)

Section Calendar.

Local Open Scope Z_scope.

(** The month and the day of the [r]-th day of year [y], counted from 0: the
    end of [_ord2ymd]. *)
Definition month_day (y r : Z) : Z * Z :=
  let month := (r + 50) / 32 in
  let preceding := _days_before_month y month in
  if r <? preceding
  then (month - 1, r - (preceding - _days_in_month y (month - 1)) + 1)
  else (month, r - preceding + 1).

(** The months of a year depend on whether it is a leap year, only: year 4
    stands for the leap years and year 1 for the others. *)
Definition model_year (y : Z) : Z := if _is_leap y then 4 else 1.

Lemma days_in_month_model (y m : Z) :
  _days_in_month y m = _days_in_month (model_year y) m.
Proof. unfold _days_in_month, model_year. destruct (_is_leap y); reflexivity. Qed.

Lemma days_before_month_model (y m : Z) :
  _days_before_month y m = _days_before_month (model_year y) m.
Proof.
  unfold _days_before_month. f_equal. apply map_ext. intros a.
  apply days_in_month_model.
Qed.

Lemma month_day_model (y r : Z) : month_day y r = month_day (model_year y) r.
Proof.
  unfold month_day. cbv zeta.
  now rewrite <- !days_before_month_model, <- !days_in_month_model.
Qed.

(** The date of a day of the year is valid and counts back to the day. *)
Definition day_ok (y r : Z) : bool :=
  let '(m, d) := month_day y r in
  (_days_before_month y m + d =? r + 1)
  && (1 <=? m) && (m <=? 12) && (1 <=? d) && (d <=? 31).

Fixpoint all_from (f : Z -> bool) (n : Z) (count : nat) : bool :=
  match count with
  | O => true
  | S k => f n && all_from f (n + 1) k
  end.

Lemma all_from_spec (f : Z -> bool) (count : nat) (n i : Z) :
  all_from f n count = true -> n <= i < n + Z.of_nat count -> f i = true.
Proof.
  revert n. induction count as [|k IH]; intros n H Hi; [lia | ].
  cbn [all_from] in H. apply andb_true_iff in H as [Hn Hk].
  destruct (Z.eq_dec i n) as [-> | Hne]; [assumption | ].
  apply (IH (n + 1)); [assumption | lia].
Qed.

Lemma days_of_common_year : all_from (day_ok 1) 0 365 = true.
Proof. vm_compute. reflexivity. Qed.

Lemma days_of_leap_year : all_from (day_ok 4) 0 366 = true.
Proof. vm_compute. reflexivity. Qed.

Lemma month_day_spec (y r m d : Z) :
  0 <= r < 365 + (if _is_leap y then 1 else 0) ->
  month_day y r = (m, d) ->
  _days_before_month y m + d = r + 1 /\ 1 <= m <= 12 /\ 1 <= d <= 31.
Proof.
  intros Hr E. rewrite month_day_model in E. rewrite (days_before_month_model y m).
  assert (H : day_ok (model_year y) r = true).
  { unfold model_year in *. destruct (_is_leap y).
    - apply (all_from_spec _ _ _ _ days_of_leap_year). lia.
    - apply (all_from_spec _ _ _ _ days_of_common_year). lia. }
  unfold day_ok in H. rewrite E in H.
  repeat (apply andb_true_iff in H as [H ?]).
  apply Z.eqb_eq in H. lia.
Qed.

(** [_ord2ymd], with its steps named. *)
Lemma ord2ymd_steps (n : Z) :
  let r := (n - 1) mod 146097 in
  let n100 := r / 36524 in
  let n4 := (r mod 36524) / 1461 in
  let n1 := ((r mod 36524) mod 1461) / 365 in
  let r3 := ((r mod 36524) mod 1461) mod 365 in
  let year := (n - 1) / 146097 * 400 + 1 + n100 * 100 + n4 * 4 + n1 in
  _ord2ymd n
  = if (n1 =? 4) || (n100 =? 4) then (year - 1, 12, 31)
    else let '(m, d) := month_day year r3 in (year, m, d).
Proof.
  cbv zeta. unfold _ord2ymd, month_day. cbv zeta.
  destruct (_ || _); [reflexivity | ].
  destruct (_ <? _); reflexivity.
Qed.

Lemma is_leap_true (y : Z) :
  y mod 4 = 0 -> (y mod 100 <> 0 \/ y mod 400 = 0) -> _is_leap y = true.
Proof.
  intros H4 H. unfold _is_leap. apply andb_true_iff. split; [now apply Z.eqb_eq | ].
  apply orb_true_iff. destruct H as [H | H].
  - left. apply negb_true_iff. now apply Z.eqb_neq.
  - right. now apply Z.eqb_eq.
Qed.

(** Every day has a valid date, the date counts back to the day
    ([_ymd2ord] undoes [_ord2ymd]), and the day lies in the year of its
    date. *)
Lemma ord2ymd_spec (n y m d : Z) :
  _ord2ymd n = (y, m, d) ->
  _ymd2ord y m d = n /\ 1 <= m <= 12 /\ 1 <= d <= 31
  /\ _days_before_year y < n <= _days_before_year (y + 1).
Proof.
  rewrite ord2ymd_steps. cbv zeta.
  set (q := (n - 1) / 146097).
  set (r := (n - 1) mod 146097).
  set (n100 := r / 36524). set (r1 := r mod 36524).
  set (n4 := r1 / 1461). set (r2 := r1 mod 1461).
  set (n1 := r2 / 365). set (r3 := r2 mod 365).
  set (year := q * 400 + 1 + n100 * 100 + n4 * 4 + n1).
  assert (Hn : n - 1 = 146097 * q + r /\ 0 <= r < 146097).
  { unfold q, r. split; [apply Z.div_mod; lia | apply Z.mod_pos_bound; lia]. }
  assert (Hr : r = 36524 * n100 + r1 /\ 0 <= r1 < 36524).
  { unfold n100, r1. split; [apply Z.div_mod; lia | apply Z.mod_pos_bound; lia]. }
  assert (Hr1 : r1 = 1461 * n4 + r2 /\ 0 <= r2 < 1461).
  { unfold n4, r2. split; [apply Z.div_mod; lia | apply Z.mod_pos_bound; lia]. }
  assert (Hr2 : r2 = 365 * n1 + r3 /\ 0 <= r3 < 365).
  { unfold n1, r3. split; [apply Z.div_mod; lia | apply Z.mod_pos_bound; lia]. }
  clearbody q r n100 r1 n4 r2 n1 r3.
  destruct ((n1 =? 4) || (n100 =? 4)) eqn:Hsp.
  - intros E. injection E as <- <- <-.
    assert (Hleap : _is_leap (year - 1) = true).
    { apply orb_true_iff in Hsp. rewrite !Z.eqb_eq in Hsp.
      apply is_leap_true; unfold year; Z.div_mod_to_equations; lia. }
    unfold _ymd2ord.
    replace (_days_before_month (year - 1) 12) with 335
      by (rewrite days_before_month_model; unfold model_year; now rewrite Hleap).
    apply orb_true_iff in Hsp. rewrite !Z.eqb_eq in Hsp.
    unfold _days_before_year, year. cbv zeta.
    Z.div_mod_to_equations. lia.
  - apply orb_false_iff in Hsp. rewrite !Z.eqb_neq in Hsp.
    destruct (month_day year r3) as [m' d'] eqn:Emd.
    intros E. injection E as <- <- <-.
    apply month_day_spec in Emd; [ | destruct (_is_leap year); lia].
    destruct Emd as (Hmd & Hm & Hd).
    unfold _ymd2ord. split; [ | split; [exact Hm | split; [exact Hd | ]]];
      unfold _days_before_year, year in *; cbv zeta;
      Z.div_mod_to_equations; lia.
Qed.

End Calendar.

Section Printing.

Local Open Scope Z_scope.

Lemma days_before_year_mono (a b : Z) :
  a <= b -> _days_before_year a <= _days_before_year b.
Proof. unfold _days_before_year. cbv zeta. intros H. Z.div_mod_to_equations. lia. Qed.

(** A date of the years 1000 to 9999, which [strftime] prints with four
    digits. *)
Definition four_digit_year (t : datetime) : Prop :=
  _ymd2ord 1000 1 1 <= wall t / us_per_day <= _MAXORDINAL.

Lemma ordinal_year (n y m d : Z) :
  _ymd2ord 1000 1 1 <= n <= _MAXORDINAL -> _ord2ymd n = (y, m, d) -> 1000 <= y <= 9999.
Proof.
  intros Hn E. apply ord2ymd_spec in E as (_ & _ & _ & Hlo & Hhi).
  change (_ymd2ord 1000 1 1) with (_days_before_year 1000 + 1) in Hn.
  change _MAXORDINAL with (_days_before_year 10000) in Hn.
  split.
  - destruct (Z.le_gt_cases 1000 y) as [H | H]; [assumption | exfalso].
    assert (_days_before_year (y + 1) <= _days_before_year 1000)
      by (apply days_before_year_mono; lia).
    lia.
  - destruct (Z.le_gt_cases y 9999) as [H | H]; [assumption | exfalso].
    assert (_days_before_year 10000 <= _days_before_year y)
      by (apply days_before_year_mono; lia).
    lia.
Qed.

Lemma digit_inj (a b : Z) : digit a = digit b -> a mod 10 = b mod 10.
Proof.
  unfold digit. intros H. apply Z2N.inj in H; Z.div_mod_to_equations; lia.
Qed.

Lemma digits2_inj (a b : Z) :
  0 <= a < 100 -> 0 <= b < 100 -> digits2 a = digits2 b -> a = b.
Proof.
  intros Ha Hb H. unfold digits2 in H. injection H as H1 H0.
  apply digit_inj in H1, H0. Z.div_mod_to_equations. lia.
Qed.

Lemma digits4_inj (a b : Z) :
  0 <= a < 10000 -> 0 <= b < 10000 -> digits4 a = digits4 b -> a = b.
Proof.
  intros Ha Hb H. unfold digits4 in H. injection H as H3 H2 H1 H0.
  apply digit_inj in H3, H2, H1, H0. Z.div_mod_to_equations. lia.
Qed.

(** The fields that [_fmt_utc] prints. *)
Lemma fmt_utc_fields (t : datetime) (y m d : Z) :
  dt_ymd t = (y, m, d) ->
  1000 <= y ->
  _fmt_utc t
  = digits4 y ++ py "-" ++ digits2 m ++ py "-" ++ digits2 d ++ py " "
    ++ digits2 (dt_hour t) ++ py ":" ++ digits2 (dt_minute t) ++ py " UTC".
Proof.
  unfold _fmt_utc. intros -> Hy. unfold year_text.
  replace (y <? 10) with false by (symmetry; apply Z.ltb_ge; lia).
  replace (y <? 100) with false by (symmetry; apply Z.ltb_ge; lia).
  replace (y <? 1000) with false by (symmetry; apply Z.ltb_ge; lia).
  reflexivity.
Qed.

Lemma clock_fields (t : datetime) :
  0 <= dt_hour t < 24 /\ 0 <= dt_minute t < 60
  /\ wall t / us_per_minute
     = (wall t / us_per_day) * 1440 + dt_hour t * 60 + dt_minute t.
Proof.
  unfold dt_hour, dt_minute, us_per_day, us_per_minute.
  Z.div_mod_to_equations. lia.
Qed.

Lemma same_minute_same_fields (t1 t2 : datetime) :
  wall t1 / us_per_minute = wall t2 / us_per_minute ->
  wall t1 / us_per_day = wall t2 / us_per_day
  /\ dt_hour t1 = dt_hour t2 /\ dt_minute t1 = dt_minute t2.
Proof.
  unfold dt_hour, dt_minute, us_per_day, us_per_minute.
  intros H. Z.div_mod_to_equations. lia.
Qed.

(** Two dates of four-digit years that print alike agree to the minute. *)
Lemma fmt_utc_reads_back (t1 t2 : datetime) :
  four_digit_year t1 -> four_digit_year t2 ->
  _fmt_utc t1 = _fmt_utc t2 ->
  wall t1 / us_per_minute = wall t2 / us_per_minute.
Proof.
  intros H1 H2.
  destruct (dt_ymd t1) as [[y1 m1] d1] eqn:E1.
  destruct (dt_ymd t2) as [[y2 m2] d2] eqn:E2.
  pose proof (ordinal_year _ _ _ _ H1 E1) as Hy1.
  pose proof (ordinal_year _ _ _ _ H2 E2) as Hy2.
  rewrite (fmt_utc_fields t1 y1 m1 d1 E1), (fmt_utc_fields t2 y2 m2 d2 E2) by lia.
  unfold dt_ymd in E1, E2.
  apply ord2ymd_spec in E1 as (O1 & Hm1 & Hd1 & _).
  apply ord2ymd_spec in E2 as (O2 & Hm2 & Hd2 & _).
  destruct (clock_fields t1) as (Hh1 & Hn1 & W1).
  destruct (clock_fields t2) as (Hh2 & Hn2 & W2).
  intros H.
  assert (Hy : digits4 y1 = digits4 y2
               /\ digits2 m1 = digits2 m2 /\ digits2 d1 = digits2 d2
               /\ digits2 (dt_hour t1) = digits2 (dt_hour t2)
               /\ digits2 (dt_minute t1) = digits2 (dt_minute t2)).
  { unfold digits4, digits2 in *. simpl in H.
    injection H as ? ? ? ? ? ? ? ? ? ? ? ?. repeat split; congruence. }
  destruct Hy as (Ey & Em & Ed & Eh & En).
  apply digits4_inj in Ey; [ | lia | lia].
  apply digits2_inj in Em; [ | lia | lia].
  apply digits2_inj in Ed; [ | lia | lia].
  apply digits2_inj in Eh; [ | lia | lia].
  apply digits2_inj in En; [ | lia | lia].
  subst y2 m2 d2. rewrite W1, W2, <- O1, <- O2, Eh, En. reflexivity.
Qed.

(** Two dates that agree to the minute print alike. *)
Lemma fmt_utc_of_minute (t1 t2 : datetime) :
  wall t1 / us_per_minute = wall t2 / us_per_minute -> _fmt_utc t1 = _fmt_utc t2.
Proof.
  intros H. apply same_minute_same_fields in H as (Hd & Hh & Hn).
  unfold _fmt_utc, dt_ymd. rewrite Hd, Hh, Hn. reflexivity.
Qed.

End Printing.

(** X13.  For dates of the years 1000 to 9999, [_fmt_utc] prints two
    [datetime]s alike exactly when their own calendar fields agree to the
    minute: the text gives back the date, the hour and the minute, and
    leaves out the seconds and the UTC offset. *)
Theorem fmt_utc_identifies_the_minute (t1 t2 : datetime) :
  four_digit_year t1 -> four_digit_year t2 ->
  (_fmt_utc t1 = _fmt_utc t2
   <-> (wall t1 / us_per_minute = wall t2 / us_per_minute)%Z).
Proof.
  intros H1 H2. split.
  - now apply fmt_utc_reads_back.
  - apply fmt_utc_of_minute.
Qed.

Lemma fmt_utc_identifies_the_minute_witness :
  _fmt_utc (datetime_of 2025 8 23 14 0 0 0 (Some 0%Z))
  = _fmt_utc (datetime_of 2025 8 23 14 0 59 999999 (Some 7200000000%Z))
  <-> (wall (datetime_of 2025 8 23 14 0 0 0 (Some 0%Z)) / us_per_minute
       = wall (datetime_of 2025 8 23 14 0 59 999999 (Some 7200000000%Z)) / us_per_minute)%Z.
Proof.
  apply (fmt_utc_identifies_the_minute
           (datetime_of 2025 8 23 14 0 0 0 (Some 0%Z))
           (datetime_of 2025 8 23 14 0 59 999999 (Some 7200000000%Z)));
    split; vm_compute; discriminate.
Defined.

(** The instant of a [datetime] with an offset, on the clock of UTC
    ([astimezone(UTC)]). *)
Definition to_utc (t : datetime) : datetime :=
  match utcoffset t with
  | Some o => mk_datetime (wall t - o) (Some 0%Z)
  | None => t
  end.

(** A block whose quota is used up, with an end time written at two hours
    east of UTC. *)
Definition spent_block : value :=
  VDict [ (py "totalTokens", VInt 20000000);
          (py "endTime", VStr (py "2025-08-23T14:00:00+02:00"));
          (py "burnRate", VDict [ (py "tokensPerMinuteForIndicator", VInt 100) ]) ].

Definition spent_end_time : datetime :=
  datetime_of 2025 8 23 14 0 0 0 (Some 7200000000%Z).

Definition spent_library : library :=
  mk_library
    (fun _ => Ok (VDict [ (py "blocks", VList [spent_block]) ]))
    (fun _ => Ok spent_end_time)
    (float_of_str mock_library) (int_of_str mock_library).

Definition spent_report : report :=
  mk_report
    (mk_limit_info (py "not_limited") (py "2"))
    (py "Pro") false (VList [])
    (mk_gauge 0%float 18%float 0%float)
    (mk_gauge 20000%float 19000%Z 105.3%float)
    (mk_gauge 0%Z 250%Z 0%float)
    (mk_time_to_reset 0 (py "2025-08-23 14:00 UTC"))
    100%float 0%float
    (mk_predictions (py "2025-08-23 12:30 UTC") (py "2025-08-23 14:00 UTC")).

Lemma spent_status_of_config :
  status_of_config spent_library (mock_world "2" 0 (py "{}")) Pro_config default_test_cmd
  = Ok spent_report.
Proof. vm_compute. reflexivity. Defined.

(** X14.  The [reset_at] of a report is the end time as its own clock reads
    it, whatever its UTC offset, followed by [UTC]: for an end time whose
    offset is a whole number of minutes, it is the UTC time of the reset
    only if the offset is zero. *)
Theorem reset_at_ignores_the_offset
    (L : library) (w : world) (cfg : plan_config) (test_cmd : list str) (r : report)
    (reset : datetime) (o : Z) :
  status_of_config L w cfg test_cmd = Ok r ->
  parsed_end_time L w = Ok reset ->
  utcoffset reset = Some o ->
  (o mod us_per_minute = 0)%Z ->
  four_digit_year reset -> four_digit_year (to_utc reset) ->
  reset_at (r_time_to_reset r) = _fmt_utc (mk_datetime (wall reset) None)
  /\ (reset_at (r_time_to_reset r) = _fmt_utc (to_utc reset) <-> o = 0%Z).
Proof.
  intros H Hreset Ho Hm H1 H2. apply status_of_config_steps in H. destruct H. subst r.
  cbn [r_time_to_reset reset_at].
  assert (Ht : parsed_end_time L w = Ok t_reset).
  { apply (parsed_end_time_read L w block end_time); try assumption.
    now apply (usage_block_read L w 0%Z raw data blocks). }
  rewrite Hreset in Ht. injection Ht as <-.
  split; [reflexivity | ].
  split.
  - intros E. apply fmt_utc_reads_back in E; [ | assumption | assumption].
    unfold to_utc in E. rewrite Ho in E. cbn [wall] in E.
    unfold us_per_minute in *. Z.div_mod_to_equations. lia.
  - intros ->. apply fmt_utc_of_minute.
    unfold to_utc. rewrite Ho. cbn [wall]. now rewrite Z.sub_0_r.
Qed.

Lemma reset_at_ignores_the_offset_witness :
  reset_at (r_time_to_reset spent_report)
  = _fmt_utc (mk_datetime (wall spent_end_time) None)
  /\ (reset_at (r_time_to_reset spent_report) = _fmt_utc (to_utc spent_end_time)
      <-> 7200000000%Z = 0%Z).
Proof.
  apply (reset_at_ignores_the_offset spent_library (mock_world "2" 0 (py "{}"))
           Pro_config default_test_cmd spent_report spent_end_time 7200000000%Z
           spent_status_of_config);
    try reflexivity; split; vm_compute; discriminate.
Defined.

(* ================================================================= *)
(** ** A quota that is used up *)

(** X15.  When the total tokens have reached the token limit of the plan
    times 1000 and the burn rate is positive, the reported
    [tokens_will_run_out] is the current time itself, in the fixed format. *)
Theorem exhausted_quota_runs_out_now
    (L : library) (w : world) (cfg : plan_config) (test_cmd : list str) (r : report)
    (total : Z) :
  status_of_config L w cfg test_cmd = Ok r ->
  total_tokens_read L w = Ok total ->
  (token_limit cfg * 1000 <= total)%Z ->
  float_positive (r_burn_rate r) = true ->
  tokens_will_run_out (r_predictions r) = _fmt_utc (now_utc w).
Proof.
  intros H Htotal Hle Hpos. apply status_of_config_steps in H. destruct H. subst r.
  cbn [r_burn_rate r_predictions tokens_will_run_out] in *.
  unfold total_tokens_read in Htotal.
  rewrite (usage_block_read L w 0%Z raw data blocks block) in Htotal by assumption.
  cbn [bind] in Htotal. rewrite Htokens in Htotal. injection Htotal as <-.
  rewrite Hpos, (remaining_of_exhausted _ _ Hle) in Hrun_out.
  cbn [number_div_float bind] in Hrun_out.
  rewrite (zero_div_positive _ Hpos) in Hrun_out.
  change (timedelta_of_minutes 0) with (Ok 0%Z : result timedelta) in Hrun_out.
  cbn [bind] in Hrun_out. unfold datetime_add in Hrun_out.
  cbn [wall utcoffset] in Hrun_out. rewrite Z.add_0_r in Hrun_out.
  destruct (_ && _) in Hrun_out; [ | discriminate Hrun_out].
  cbn [bind] in Hrun_out. now injection Hrun_out as <-.
Qed.

Lemma exhausted_quota_runs_out_now_witness :
  tokens_will_run_out (r_predictions spent_report)
  = _fmt_utc (now_utc (mock_world "2" 0 (py "{}"))).
Proof.
  apply (exhausted_quota_runs_out_now spent_library (mock_world "2" 0 (py "{}"))
           Pro_config default_test_cmd spent_report 20000000%Z spent_status_of_config).
  - reflexivity.
  - vm_compute. discriminate.
  - reflexivity.
Defined.

(* ================================================================= *)
(** ** A usage command that cannot be run *)

(** X16.  When running the usage command raises (it times out, or cannot
    be started), [get_ccusage_status] raises that same exception, not
    [RuntimeError]: unless the exception is a [ValueError] or a
    [RuntimeError], the handler lets it through and the request is not
    answered 502 but ends in an unhandled exception. *)
Theorem usage_command_exception
    (L : library) (w : world) (plan : str) (cfg : plan_config) (e : exn) :
  _normalize_plan (PlanStr plan) = Ok cfg ->
  usage_run w usage_cmd 30%Z = Raise e ->
  get_ccusage_status L w (PlanStr plan) default_test_cmd = Raise e
  /\ (is_ValueError (exn_class e) = false -> is_RuntimeError (exn_class e) = false ->
      status L w plan = Unhandled e /\ status_code (status L w plan) = 500%Z).
Proof.
  intros Hcfg Hrun.
  assert (E : get_ccusage_status L w (PlanStr plan) default_test_cmd = Raise e).
  { unfold get_ccusage_status. rewrite Hcfg. cbn [bind].
    unfold status_of_config. cbv zeta.
    rewrite (run_raises _ _ _ _ Hrun). reflexivity. }
  split; [exact E | ].
  intros Hv Hr. unfold status. rewrite E, Hv, Hr. split; reflexivity.
Qed.

(** The probe answers, and the usage command times out. *)
Definition usage_times_out : world :=
  mk_world (fun _ _ => Ok (mk_completed 0 (py "2") []))
           (fun _ _ => Raise (mk_exn TimeoutExpired
                                (py "Command timed out after 30 seconds")))
           0.

Lemma usage_command_exception_witness :
  let e := mk_exn TimeoutExpired (py "Command timed out after 30 seconds") in
  get_ccusage_status mock_library usage_times_out (PlanStr (py "Pro")) default_test_cmd
  = Raise e
  /\ (is_ValueError (exn_class e) = false -> is_RuntimeError (exn_class e) = false ->
      status mock_library usage_times_out (py "Pro") = Unhandled e
      /\ status_code (status mock_library usage_times_out (py "Pro")) = 500%Z).
Proof.
  apply (usage_command_exception mock_library usage_times_out (py "Pro") Pro_config);
    reflexivity.
Defined.
